(** * PyplotExercises: the notebooks' cells over models of the array and plotting libraries

    The repository is a set of Jupyter notebooks.  Each code cell is a short
    sequence of calls into numpy, matplotlib and pandas.  This development

    - models the library routines the cells call ([np], [mpl]) from the
      libraries' documented algorithms, with exact rationals ([Q]) or reals
      ([R]) in place of IEEE doubles, and the grayscale colormap once more
      in binary64 ([binary64]);
    - transcribes the cells that compute something (grid evaluation, histogram
      call, births cleaning, grayscale colormap, seeded scatter data, axes
      rectangles; and further the image and its speckles, the density image,
      the curves and legends, the grids' panels, the regression model) as
      functions over those models;
    - transcribes the statement structure of every cell of every notebook
      ([Py], [Notebooks]) and gives it two execution semantics: one with a
      namespace, an object store and raising library calls ([Py]), for what
      an error leaves behind, and one in which the libraries also change
      objects of the store ([Fx]), for what a cell can write. *)

From Stdlib Require Import Floats List ZArith QArith Qround Qminmax Lia Lqa Reals Lra Psatz ZifyBool.
From stdpp Require Import base gmap strings list sorting.

#[local] Set Warnings "-register-all,-clear-no-such-hyp,-inexact-float".

(* ================================================================== *)
(** * The array library (numpy), over exact rationals                  *)
(* ================================================================== *)

Module np.

Definition Qltb (x y : Q) : bool := negb (Qle_bool y x).

(** [arr[i]] for an integer index: a negative index counts from the end.
    (Out of range raises IndexError in the library; every use below stays in
    range, and the model reads 0 there.) *)
Definition getitem (arr : list Q) (i : Z) : Q :=
  nth (Z.to_nat (if (i <? 0)%Z then Z.of_nat (length arr) + i else i)) arr 0%Q.

(** Modelled from the spec: the array library is external and not among the
    sources.  [np.linspace(start, stop, num)] with [endpoint=True]:
    [y = arange(0, num) * step + start] with [step = (stop - start) / (num - 1)],
    and the last sample set to [stop] when [num > 1]. *)
Definition linspace (start stop : Q) (num : nat) : list Q :=
  match num with
  | O => []
  | S O => [start]
  | S (S _ as div) =>
      let step := ((stop - start) / inject_Z (Z.of_nat div))%Q in
      map (fun i => (inject_Z (Z.of_nat i) * step + start)%Q) (seq 0 div) ++ [stop]
  end.

(** [a.min()] and [a.max()] of a non-empty array. *)
Definition amin (x : Q) (r : list Q) : Q := fold_left Qmin r x.
Definition amax (x : Q) (r : list Q) : Q := fold_left Qmax r x.

(** [astype(intp)] on a float: truncation toward zero. *)
Definition astype_intp (f : Q) : Z :=
  if Qle_bool 0 f then Qfloor f else Qceiling f.

(** [_get_outer_edges(a, range=None)]: (0, 1) for an empty array, else
    (min, max), widened by one half on each side when they coincide. *)
Definition outer_edges (a : list Q) : Q * Q :=
  match a with
  | [] => (0, 1)%Q
  | x :: r =>
      let first_edge := amin x r in
      let last_edge := amax x r in
      if Qeq_bool first_edge last_edge
      then (first_edge - 0.5, last_edge + 0.5)%Q
      else (first_edge, last_edge)
  end.

(** The bin of one kept sample, as [np.histogram] computes it for equal-width
    bins: scale into [0, bins], truncate, fold the right edge into the last
    bin, then correct by one against the edges (in floating point the scaled
    value can land one bin off). *)
Definition bin_index (first_edge last_edge : Q) (bins : nat)
    (bin_edges : list Q) (x : Q) : Z :=
  let n_equal_bins := Z.of_nat bins in
  let f_index := (((x - first_edge) / (last_edge - first_edge)) * inject_Z n_equal_bins)%Q in
  let i := astype_intp f_index in
  let i := if (i =? n_equal_bins)%Z then (i - 1)%Z else i in
  let i := if Qltb x (getitem bin_edges i) then (i - 1)%Z else i in
  let i := if Qle_bool (getitem bin_edges (i + 1)) x && negb (i =? n_equal_bins - 1)%Z
           then (i + 1)%Z else i in
  i.

(** Modelled from the spec: [np.bincount(x, minlength=m)] of the external
    array library: ValueError on a negative entry; otherwise
    [max(m, max(x) + 1)] counters, counter [j] holding the number of entries
    equal to [j]. *)
Definition bincount (x : list Z) (minlength : nat) : option (list nat) :=
  if forallb (Z.leb 0) x then
    let n := Nat.max minlength (fold_right Nat.max 0%nat (map (fun i => S (Z.to_nat i)) x)) in
    Some (map (fun j => length (List.filter (fun i => (i =? Z.of_nat j)%Z) x)) (seq 0 n))
  else None.

(** Modelled from the spec: [np.histogram] belongs to the external array
    library, which is not among the sources; the spec names it as the
    library's histogram counts, and the model follows the library's
    algorithm for equal-width bins.  [np.histogram(a, bins=K)] for an
    integer [K]: ValueError unless [K >= 1]; [K + 1] edges from [linspace];
    samples outside the outer edges are dropped; the counts come from
    [bincount] over the bin indices. *)
Definition histogram (a : list Q) (bins : nat) : option (list nat * list Q) :=
  match bins with
  | O => None
  | S _ =>
      let '(first_edge, last_edge) := outer_edges a in
      let bin_edges := linspace first_edge last_edge (bins + 1) in
      let keep := List.filter (fun x => Qle_bool first_edge x && Qle_bool x last_edge) a in
      let indices := map (bin_index first_edge last_edge bins bin_edges) keep in
      match bincount indices bins with
      | Some n => Some (n, bin_edges)
      | None => None
      end
  end.

#[export] Instance Qle_dec (x y : Q) : Decision (x <= y)%Q.
Proof. destruct (Qlt_le_dec y x) as [H|H]; [right; apply Qlt_not_le, H | left; exact H]. Defined.

(** [np.sort]: the values in non-decreasing order. *)
Definition sort (a : list Q) : list Q := merge_sort Qle a.

(** [_lerp(a, b, t)]: [a + (b - a) * t], computed from the other end when
    [t >= 0.5]. *)
Definition lerp (a b t : Q) : Q :=
  let diff_b_a := (b - a)%Q in
  if Qle_bool 0.5 t then (b - diff_b_a * (1 - t))%Q else (a + diff_b_a * t)%Q.

(** Modelled from the spec: one quantile [q] in [0, 1] of a sorted non-empty
    array as the external array library computes it, default method
    (linear): virtual index [(n - 1) * q], its two neighbours, both set to the
    last element when the virtual index reaches [n - 1] and to the first when
    it is negative, and a linear interpolation between them. *)
Definition quantile_sorted (arr : list Q) (q : Q) : Q :=
  let n := Z.of_nat (length arr) in
  let virtual_index := (inject_Z (n - 1) * q)%Q in
  let previous_index := Qfloor virtual_index in
  let gamma := (virtual_index - inject_Z previous_index)%Q in
  let '(previous_index, next_index) :=
    if Qle_bool (inject_Z (n - 1)) virtual_index then ((-1)%Z, (-1)%Z)
    else if Qltb virtual_index 0 then (0%Z, 0%Z)
    else (previous_index, (previous_index + 1)%Z) in
  lerp (getitem arr previous_index) (getitem arr next_index) gamma.

(** Modelled from the spec: [np.percentile] belongs to the external array
    library, which is not among the sources; the spec names it as the
    library's percentiles, and the model follows the library's default
    (linear) method.  [np.percentile(a, q)] for a list [q] of percentages:
    ValueError unless every percentage is in [0, 100]; an empty array has no
    real percentile (the library answers nan or raises, by version). *)
Definition percentile (a : list Q) (q : list Q) : option (list Q) :=
  if forallb (fun p => Qle_bool 0 p && Qle_bool p 100) q then
    match a with
    | [] => None
    | _ => Some (map (fun p => quantile_sorted (sort a) (p / 100)%Q) q)
    end
  else None.

(** Modelled from the spec: [np.meshgrid] belongs to the external array
    library, which is not among the sources; the spec names it as the
    library's grid generation.  [np.meshgrid(x, y)] with the default
    [indexing='xy']: two arrays of shape [(len(y), len(x))], the first
    repeating [x] along the rows, the second repeating [y] along the
    columns. *)
Definition meshgrid {T : Type} (x y : list T) : list (list T) * list (list T) :=
  (map (fun _ => x) y, map (fun yi => map (fun _ => yi) x) y).

(** Modelled from the spec: a unary ufunc of the external array library (the
    spec's vectorized operations) on a two-dimensional array. *)
Definition ufunc1 {T : Type} (op : T -> T) (A : list (list T)) : list (list T) :=
  map (map op) A.

(** Modelled from the spec: a binary ufunc or arithmetic operator of the
    external array library on two arrays of one shape.  (On two shapes that
    differ the library broadcasts or raises; the model stops at the shorter
    array, and every use below has equal shapes.) *)
Definition ufunc2 {T : Type} (op : T -> T -> T) (A B : list (list T)) : list (list T) :=
  zip_with (zip_with op) A B.

(** [A[i][j]]. *)
Definition at2 {T : Type} (A : list (list T)) (i j : nat) : option T :=
  match A !! i with Some row => row !! j | None => None end.

(** [A.shape == (rows, cols)]. *)
Definition has_shape {T : Type} (A : list (list T)) (rows cols : nat) : Prop :=
  length A = rows /\ Forall (fun row => length row = cols) A.

(** [np.count_nonzero(mask)] of a boolean row. *)
Definition count_nonzero (mask : list bool) : nat := length (List.filter (fun b => b) mask).

(** Modelled from the spec: boolean-mask assignment of the external array
    library, [row[mask] = values], in place, on one row: the
    selected positions take the values in order, the others keep theirs.
    (The library raises when fewer values than selected positions are given;
    the cell below gives exactly [count_nonzero] of them, and the model keeps
    the old entry there.) *)
Fixpoint setitem_mask {T : Type} (arr : list T) (mask : list bool) (values : list T) : list T :=
  match arr, mask with
  | a :: arr', true :: mask' =>
      match values with
      | v :: values' => v :: setitem_mask arr' mask' values'
      | [] => a :: setitem_mask arr' mask' []
      end
  | a :: arr', false :: mask' => a :: setitem_mask arr' mask' values
  | _, _ => arr
  end.

(** [arr[mask] = values] on a two-dimensional array: the selected positions
    are filled in row-major order. *)
Fixpoint setitem_mask2 {T : Type} (arr : list (list T)) (mask : list (list bool))
    (values : list T) : list (list T) :=
  match arr, mask with
  | row :: arr', mrow :: mask' =>
      setitem_mask row mrow values
        :: setitem_mask2 arr' mask' (drop (count_nonzero mrow) values)
  | _, _ => arr
  end.

(** Modelled from the spec: boolean-mask indexing of the external array
    library, [row[mask]], on one row: the selected entries, in order. *)
Fixpoint getitem_mask {T : Type} (arr : list T) (mask : list bool) : list T :=
  match arr, mask with
  | a :: arr', b :: mask' =>
      if b then a :: getitem_mask arr' mask' else getitem_mask arr' mask'
  | _, _ => []
  end.

(** [arr[mask]] on a two-dimensional array: the selected entries in
    row-major order, as a one-dimensional array. *)
Definition getitem_mask2 {T : Type} (arr : list (list T)) (mask : list (list bool)) : list T :=
  concat (zip_with getitem_mask arr mask).

(** Modelled from the spec: broadcasting in the external array library of
    an array of shape [(m,)] against one of shape [(n, 1)] (a column
    [c[:, np.newaxis]], given by its [n] values): the result has shape
    [(n, m)], entry [[i][j]] combining entry [j] of the row with entry [i]
    of the column. *)
Definition broadcast_row_column {T : Type} (op : T -> T -> T) (row column : list T)
    : list (list T) :=
  map (fun c => map (fun r => op r c) row) column.

(** The same for the column on the left, [(n, 1)] against [(m,)]. *)
Definition broadcast_column_row {T : Type} (op : T -> T -> T) (column row : list T)
    : list (list T) :=
  map (fun c => map (fun r => op c r) row) column.

(** Modelled from the spec: [np.arange(start, stop, step)] of the external
    array library for a positive step: [ceil((stop - start) / step)] values
    [start + i * step]. *)
Definition arange (start stop step : Q) : list Q :=
  map (fun i => (start + inject_Z (Z.of_nat i) * step)%Q)
    (seq 0 (Z.to_nat (Qceiling ((stop - start) / step)))).

(** [a[:, j]]: column [j] of a two-dimensional array (IndexError when a row
    is too short). *)
Definition column {T : Type} (a : list (list T)) (j : nat) : option (list T) :=
  mapM (fun row => row !! j) a.

(** [a.shape] of a two-dimensional array.  (An array with no row has lost
    its number of columns here; it reads 0.) *)
Definition shape {T : Type} (a : list (list T)) : nat * nat :=
  (length a, match a with row :: _ => length row | [] => 0%nat end).

(** [a.ravel()] of a two-dimensional array: its rows one after another. *)
Definition ravel {T : Type} (a : list (list T)) : list T := concat a.

(** [np.vstack([a, b])] of two one-dimensional arrays: an array of two
    rows; ValueError when the lengths differ. *)
Definition vstack2 {T : Type} (a b : list T) : option (list (list T)) :=
  if (length a =? length b)%nat then Some [a; b] else None.

(** [rows] rows of [cols] entries cut from a one-dimensional array. *)
Fixpoint chunks {T : Type} (rows cols : nat) (a : list T) : list (list T) :=
  match rows with
  | O => []
  | S rows' => take cols a :: chunks rows' cols (drop cols a)
  end.

(** [a.reshape(shape)] of a one-dimensional array to two dimensions:
    ValueError unless the sizes agree. *)
Definition reshape {T : Type} (a : list T) (shape : nat * nat) : option (list (list T)) :=
  if (length a =? fst shape * snd shape)%nat then Some (chunks (fst shape) (snd shape) a)
  else None.

End np.

(* ================================================================== *)
(** * The plotting library's colormaps (matplotlib.colors), over reals *)
(* ================================================================== *)

Module mpl.

Local Open Scope R_scope.

(** One row of a colormap's lookup table. *)
Record rgba := RGBA { red : R; green : R; blue : R; alpha : R }.

(** Modelled from the spec: the plotting library is external and not among
    the sources.  A colormap object: its name, its number of entries [N],
    and what [_init], which the library runs at the first lookup, makes of
    the colour data: the [N] colour rows of the lookup table, or [None] when
    [_init] raises.  (The library's table has three more rows, for under,
    over and bad values.) *)
Record Colormap := { name : string; N : nat; _init : option (list rgba) }.

(** A channel value within [0, 1]. *)
Definition unit_range (v : R) : Prop := 0 <= v <= 1.

Definition in_unit_range (c : rgba) : Prop :=
  unit_range (red c) /\ unit_range (green c) /\ unit_range (blue c) /\ unit_range (alpha c).

(** What every colormap that the library registers satisfies: [_init]
    succeeds with [N] rows, every channel within [0, 1] (the table is
    clipped when it is built). *)
Definition wf (cmap : Colormap) : Prop :=
  match _init cmap with
  | Some lut => length lut = N cmap /\ Forall in_unit_range lut
  | None => False
  end.

(** The argument of [plt.cm.get_cmap]: a registered name or a colormap
    object, which is returned as it is. *)
Inductive cmap_arg := ByName (s : string) | ByObject (c : Colormap).

(** Modelled from the spec: [plt.cm.get_cmap(cmap)] of the external plotting
    library, against its registry of named colormaps; [None] is the
    library's ValueError for an unknown name. *)
Definition get_cmap (registry : gmap string Colormap) (arg : cmap_arg) : option Colormap :=
  match arg with
  | ByName s => registry !! s
  | ByObject c => Some c
  end.

Definition black : rgba := RGBA 0 0 0 0.

(** Modelled from the spec: [cmap(np.arange(cmap.N))] of the external
    plotting library: the first lookup runs [_init]; integer inputs within
    [0, N) index the table directly.  [None] when [_init] raises. *)
Definition call_arange (cmap : Colormap) : option (list rgba) :=
  match _init cmap with
  | Some lut => Some (map (fun i => nth i lut black) (seq 0 (N cmap)))
  | None => None
  end.

(** [np.linspace(0, 1, num)] over the reals. *)
Definition linspace01 (num : nat) : list R :=
  match num with
  | O => []
  | S O => [0]
  | S (S _ as div) => map (fun i => INR i * (1 / INR div) + 0) (seq 0 div) ++ [1]
  end.

(** [np.diff(x)]: the differences of consecutive entries. *)
Fixpoint diff (x : list R) : list R :=
  match x with
  | a :: (b :: _) as x' => (b - a) :: diff x'
  | _ => []
  end.

(** [np.searchsorted(x, v)] (side='left') on a sorted array: the number of
    leading entries below [v]. *)
Fixpoint searchsorted (x : list R) (v : R) : nat :=
  match x with
  | [] => O
  | a :: x' => if Rlt_dec a v then S (searchsorted x' v) else O
  end.

(** [np.clip(v, 0, 1)]. *)
Definition clip01 (v : R) : R := Rmin (Rmax v 0) 1.

(** Modelled from the spec: [_create_lookup_table(N, data)] of the external
    plotting library, for node positions [x] and node values [y] (the
    segment data built by [from_list] has [y0 = y1 = y]), gamma 1:
    ValueError unless the positions start at 0, end at 1 and never
    decrease; a one-entry table takes the last value; otherwise entry [i]
    interpolates linearly between the two nodes around position [i] of
    [N - 1], the first and last entries are the first and last node values,
    and all is clipped.  ([N = 0] gives two values for a table of no row,
    which [_init] cannot store.) *)
Definition create_lookup_table (N : nat) (x y : list R) : option (list R) :=
  match x with
  | [] => None
  | x0 :: _ =>
      if Req_dec_T x0 0 then
        if Req_dec_T (List.last x 0) 1 then
          if existsb (fun d => if Rlt_dec d 0 then true else false) (diff x) then None
          else
            match N with
            | O => None
            | S O => Some [clip01 (List.last y 0)]
            | S (S inner as N1) =>
                let xs := map (fun a => a * INR N1) x in
                let entry (i : nat) :=
                  let xind := INR N1 * nth i (linspace01 N) 0 in
                  let ind := searchsorted xs xind in
                  let distance := (xind - nth (ind - 1) xs 0) / (nth ind xs 0 - nth (ind - 1) xs 0) in
                  distance * (nth ind y 0 - nth (ind - 1) y 0) + nth (ind - 1) y 0 in
                Some (map clip01 ([nth 0 y 0] ++ map entry (seq 1 inner) ++ [List.last y 0]))
            end
        else None
      else None
  end.

(** [to_rgba_array(colors)] on an array of float rows: ValueError when a
    value is below 0 or above 1. *)
Definition to_rgba_array (colors : list rgba) : option (list rgba) :=
  if existsb (fun c =>
                existsb (fun v => (if Rlt_dec v 0 then true else false)
                                  || (if Rlt_dec 1 v then true else false))
                  [red c; green c; blue c; alpha c]) colors
  then None else Some colors.

(** Modelled from the spec: [LinearSegmentedColormap.from_list(name, colors, N)]
    of the external plotting library: IndexError on an empty array of
    colours; the colours, checked by [to_rgba_array], become nodes at
    [np.linspace(0, 1, len(colors))], and the colormap object is returned.
    Its lookup table is built by [_init], channel by channel, at the first
    lookup. *)
Definition from_list (name : string) (colors : list rgba) (N : nat) : option Colormap :=
  match colors with
  | [] => None
  | _ :: _ =>
      let vals := linspace01 (length colors) in
      match to_rgba_array colors with
      | None => None
      | Some colors =>
          Some {| name := name; N := N;
                  _init :=
                    match create_lookup_table N vals (map red colors),
                          create_lookup_table N vals (map green colors),
                          create_lookup_table N vals (map blue colors),
                          create_lookup_table N vals (map alpha colors) with
                    | Some r, Some g, Some b, Some a =>
                        Some (zip_with (fun rg ba => RGBA (fst rg) (snd rg) (fst ba) (snd ba))
                                (zip r g) (zip b a))
                    | _, _, _, _ => None
                    end |}
      end
  end.

End mpl.


(* ================================================================== *)
(** * The cells as Python programs                                     *)
(* ================================================================== *)

(** The abstract syntax of the Python the notebooks are written in, and an
    execution model of a notebook kernel over it: a namespace of object
    references, a store of objects, and operations carried out by code
    outside the notebook (libraries and built-ins), each of which returns a
    value or raises. *)
Module Py.

Inductive constant :=
| CInt (z : Z)
| CFloat (q : Q)
| CStr (s : string)
| CBool (b : bool)
| CNone.

Inductive operator := Add | Sub | Mult | Div | Pow.
Inductive unaryop := USub.
Inductive cmpop := Lt.

(** Expressions, named as in Python's [ast] module. A keyword whose name is
    [None] is a [**mapping] argument. *)
Inductive expr :=
| Constant (value : constant)
| Name (id : string)
| Attribute (value : expr) (attr : string)
| Subscript (value : expr) (slice : expr)
| Slice (lower upper : option expr)
| Call (func : expr) (args : list expr) (keywords : list (option string * expr))
| BinOp (left : expr) (op : operator) (right : expr)
| UnaryOp (op : unaryop) (operand : expr)
| Compare (left : expr) (op : cmpop) (comparator : expr)
| List_ (elts : list expr)
| Tuple (elts : list expr)
| Dict (keys : list expr) (values : list expr)
| Lambda (args : list string) (body : expr)
| ListComp (elt : expr) (target : expr) (iter : expr).

(** Statements. [Magic] is an IPython [%] or [!] line. [Try], [Raise] and
    [If] are in no notebook: they are part of the language so that their
    absence from the cells is a fact about the cells. *)
Inductive stmt :=
| Import (module : string) (asname : string)
| ImportFrom (module : string) (name : string)
| Assign (targets : list expr) (value : expr)
| AugAssign (target : expr) (op : operator) (value : expr)
| Expr (value : expr)
| For (target : expr) (iter : expr) (body : list stmt)
| FunctionDef (name : string) (args : list string) (body : list stmt)
| Return (value : expr)
| Magic (line : string)
| Try (body : list stmt) (handlers : list stmt)
| Raise (exc : expr)
| If (test : expr) (body : list stmt) (orelse : list stmt).

Arguments CInt z%_Z.
Arguments CFloat q%_Q.

(** A cell: its position among the notebook's cells and its statements. *)
Definition cell : Type := nat * list stmt.
Definition notebook : Type := list cell.

(** ** What evaluating an expression does *)

(** The steps of an evaluation that can fail: reading a name, and an
    operation run by code outside the notebook (attribute access, indexing,
    a call, an operator, a comprehension's iteration). *)
Inductive event := Load (id : string) | Op.

(** An expression built from literals alone: evaluating it runs no outside code. *)
Fixpoint pure (e : expr) : bool :=
  match e with
  | Constant _ => true
  | UnaryOp _ v => pure v
  | BinOp l _ r => pure l && pure r
  | List_ es | Tuple es => forallb pure es
  | Dict ks vs => forallb pure ks && forallb pure vs
  | _ => false
  end.

(** The events of an evaluation, in Python's order (function, positional
    arguments, keywords, then the call).  A lambda's body is not run when the
    lambda is built; a comprehension runs its element expression inside the
    iteration, counted as one operation. *)
Fixpoint events (e : expr) : list event :=
  if pure e then [] else
  match e with
  | Constant _ => []
  | Name x => [Load x]
  | Attribute v _ => events v ++ [Op]
  | Subscript v i => events v ++ events i ++ [Op]
  | Slice lo hi =>
      match lo with Some a => events a | None => [] end ++
      match hi with Some a => events a | None => [] end
  | Call f args kws =>
      events f ++ flat_map events args ++ flat_map (fun kw => events (snd kw)) kws ++ [Op]
  | BinOp l _ r => events l ++ events r ++ [Op]
  | UnaryOp _ v => events v ++ [Op]
  | Compare l _ r => events l ++ events r ++ [Op]
  | List_ es | Tuple es => flat_map events es
  | Dict ks vs => flat_map events ks ++ flat_map events vs
  | Lambda _ _ => []
  | ListComp _ _ it => events it ++ [Op]
  end.

(** The name whose object an expression denotes without building a new one:
    a name itself, and an attribute or an item of it (a view shares the
    storage of its base).  Everything else builds a new object. *)
Fixpoint root (e : expr) : option string :=
  match e with
  | Name x => Some x
  | Attribute v _ => root v
  | Subscript v _ => root v
  | _ => None
  end.

(** The names a target binds: a name, or the names of a tuple or list pattern. *)
Fixpoint target_names (t : expr) : list string :=
  match t with
  | Name x => [x]
  | Tuple ts | List_ ts => flat_map target_names ts
  | _ => []
  end.

(** ** Static readings of a block *)

(** The names a statement can bind. *)
Fixpoint assigned_names (s : stmt) : list string :=
  match s with
  | Import _ a | ImportFrom _ a => [a]
  | Assign targets _ => flat_map target_names targets
  | For t _ body => target_names t ++ flat_map assigned_names body
  | FunctionDef n _ _ => [n]
  | Try body handlers => flat_map assigned_names body ++ flat_map assigned_names handlers
  | If _ body orelse => flat_map assigned_names body ++ flat_map assigned_names orelse
  | AugAssign _ _ _ | Expr _ | Return _ | Magic _ | Raise _ => []
  end.

(** No statement of the block, at any depth, catches an exception, raises
    one of its own, or branches on a test. *)
Fixpoint plain (s : stmt) : bool :=
  match s with
  | Try _ _ | Raise _ | If _ _ _ => false
  | For _ _ body => forallb plain body
  | FunctionDef _ _ body => forallb plain body
  | _ => true
  end.

(** A target that only binds names. *)
Fixpoint binds_only (t : expr) : bool :=
  match t with
  | Name _ => true
  | Tuple ts | List_ ts => forallb binds_only ts
  | _ => false
  end.

(** ** Functions defined in a notebook *)

(** The names an evaluation reads. *)
Definition loads (e : expr) : list string :=
  flat_map (fun ev => match ev with Load x => [x] | Op => [] end) (events e).















(** The built-in names the notebooks use; any other unbound name is a NameError. *)
Definition builtins : list string :=
  ["range"; "str"; "dict"; "int"; "enumerate"; "print"].

(** ** The kernel *)

Section Semantics.

(** This reading follows the names and the errors: an outside operation
    returns a value or raises, and what it does besides to the objects of
    the store is left to the second reading, [Fx].  Object contents [V] and
    library exceptions [E] are left open.  [lit] is the content of an object
    built without outside code, [len] the number of items an iterable
    yields, [truthy] the truth value of an object, and [lib i] what the
    [i]-th outside operation of the run does. *)
Context {V E : Type}.

Inductive outcome := Returns (v : V) | Raises (e : E).

Variables (lit : V) (len : V -> nat) (truthy : V -> bool).
Variable lib : nat -> outcome.

(** The namespace maps names to object references; the store holds the
    objects' contents, a reference being a position in it; [tick] counts the
    outside operations run so far. *)
Record kernel := Kernel { ns : gmap string nat; heap : list V; tick : nat }.

Inductive error :=
| LibraryError (call : nat) (e : E)
| NameError (id : string)
| Raised (exc : nat).

Inductive result :=
| Done (k : kernel)
| Returned (k : kernel)
| Error (err : error) (k : kernel).

Definition readable (x : string) (k : kernel) : bool :=
  bool_decide (is_Some (ns k !! x)) || bool_decide (x ∈ builtins).

Definition ticked (k : kernel) : kernel := Kernel (ns k) (heap k) (S (tick k)).

Fixpoint run_events (evs : list event) (v : V) (k : kernel) : (V + error) * kernel :=
  match evs with
  | [] => (inl v, k)
  | Load x :: evs' =>
      if readable x k then run_events evs' v k else (inr (NameError x), k)
  | Op :: evs' =>
      match lib (tick k) with
      | Returns v' => run_events evs' v' (ticked k)
      | Raises e => (inr (LibraryError (tick k) e), ticked k)
      end
  end.

(** A new object holding [v]: its reference and the extended store. *)
Definition alloc (v : V) (k : kernel) : nat * kernel :=
  (length (heap k), Kernel (ns k) (heap k ++ [v]) (tick k)).

Definition bind (x : string) (l : nat) (k : kernel) : kernel :=
  Kernel (<[x := l]> (ns k)) (heap k) (tick k).

Definition bind_all (xs : list string) (l : nat) (k : kernel) : kernel :=
  fold_left (fun k x => bind x l k) xs k.

(** The object of [root e], when [e] has a root and it is bound. *)
Definition denoted (e : expr) (k : kernel) : option nat :=
  match root e with
  | Some x => ns k !! x
  | None => None
  end.

(** Evaluation: run the events; the result is the object the expression
    denotes, or a new object holding the last value returned. *)
Definition eval (e : expr) (k : kernel) : (nat + error) * kernel :=
  match run_events (events e) lit k with
  | (inr err, k') => (inr err, k')
  | (inl v, k') =>
      match denoted e k' with
      | Some l => (inl l, k')
      | None => let '(l, k'') := alloc v k' in (inl l, k'')
      end
  end.

(** An in-place write through [base] ([base[i] = v], [base.a = v],
    [base += v]): one outside operation, which raises or replaces the
    content of the object that [base] denotes. *)
Definition write (base : expr) (k : kernel) : result :=
  match lib (tick k) with
  | Raises e => Error (LibraryError (tick k) e) (ticked k)
  | Returns v =>
      match denoted base k with
      | Some l => Done (Kernel (ns k) (<[l := v]> (heap k)) (S (tick k)))
      | None => Done (ticked k)
      end
  end.

(** Storing the object [l] into a target: a name or pattern is bound to it;
    an item or attribute target is an in-place write through its base. *)
Definition store (target : expr) (l : nat) (k : kernel) : result :=
  match target with
  | Subscript base idx =>
      match run_events (events base ++ events idx) lit k with
      | (inr err, k') => Error err k'
      | (inl _, k') => write base k'
      end
  | Attribute base _ =>
      match run_events (events base) lit k with
      | (inr err, k') => Error err k'
      | (inl _, k') => write base k'
      end
  | _ => Done (bind_all (target_names target) l k)
  end.

Fixpoint store_all (targets : list expr) (l : nat) (k : kernel) : result :=
  match targets with
  | [] => Done k
  | t :: ts =>
      match store t l k with
      | Done k' => store_all ts l k'
      | r => r
      end
  end.

(** [t1, ..., tn = e1, ..., en]: every [ei] is evaluated, then each [ti]
    receives the object of [ei]. *)
Fixpoint eval_list (es : list expr) (k : kernel) : (list nat + error) * kernel :=
  match es with
  | [] => (inl [], k)
  | e :: es' =>
      match eval e k with
      | (inr err, k') => (inr err, k')
      | (inl l, k') =>
          match eval_list es' k' with
          | (inr err, k'') => (inr err, k'')
          | (inl ls, k'') => (inl (l :: ls), k'')
          end
      end
  end.

Fixpoint store_each (targets : list expr) (ls : list nat) (k : kernel) : result :=
  match targets, ls with
  | t :: ts, l :: ls' =>
      match store t l k with
      | Done k' => store_each ts ls' k'
      | r => r
      end
  | _, _ => Done k
  end.

Definition exec_block (exec : stmt -> kernel -> result) : list stmt -> kernel -> result :=
  fix go (b : list stmt) (k : kernel) : result :=
    match b with
    | [] => Done k
    | s :: b' =>
        match exec s k with
        | Done k' => go b' k'
        | r => r
        end
    end.

Fixpoint repeat_block (n : nat) (step : kernel -> result) (k : kernel) : result :=
  match n with
  | O => Done k
  | S n' =>
      match step k with
      | Done k' => repeat_block n' step k'
      | r => r
      end
  end.

(** The content of an object. *)
Definition content (l : nat) (k : kernel) : V := nth l (heap k) lit.

Definition import (asname : string) (k : kernel) : result :=
  match lib (tick k) with
  | Raises e => Error (LibraryError (tick k) e) (ticked k)
  | Returns v => let '(l, k') := alloc v (ticked k) in Done (bind asname l k')
  end.

Fixpoint exec (s : stmt) (k : kernel) : result :=
  match s with
  | Import _ a | ImportFrom _ a => import a k
  | Magic _ => Done k
  | Assign targets value =>
      match targets, value with
      | [Tuple ts], Tuple vs =>
          if (length ts =? length vs)%nat then
            match eval_list vs k with
            | (inr err, k') => Error err k'
            | (inl ls, k') => store_each ts ls k'
            end
          else
            match eval value k with
            | (inr err, k') => Error err k'
            | (inl l, k') => store_all targets l k'
            end
      | _, _ =>
          match eval value k with
          | (inr err, k') => Error err k'
          | (inl l, k') => store_all targets l k'
          end
      end
  | AugAssign target _ value =>
      match eval value k with
      | (inr err, k') => Error err k'
      | (inl _, k') =>
          match run_events (events target) lit k' with
          | (inr err, k'') => Error err k''
          | (inl _, k'') => write target k''
          end
      end
  | Expr e =>
      match eval e k with
      | (inr err, k') => Error err k'
      | (inl _, k') => Done k'
      end
  | For target iter body =>
      match eval iter k with
      | (inr err, k') => Error err k'
      | (inl l, k') =>
          repeat_block (len (content l k'))
            (fun k => match store target l k with
                      | Done k1 => exec_block exec body k1
                      | r => r
                      end) k'
      end
  | FunctionDef name _ _ => let '(l, k') := alloc lit k in Done (bind name l k')
  | Return e =>
      match eval e k with
      | (inr err, k') => Error err k'
      | (inl _, k') => Returned k'
      end
  | Try body handlers =>
      match exec_block exec body k with
      | Error _ k' => exec_block exec handlers k'
      | r => r
      end
  | Raise e =>
      match eval e k with
      | (inr err, k') => Error err k'
      | (inl l, k') => Error (Raised l) k'
      end
  | If test body orelse =>
      match eval test k with
      | (inr err, k') => Error err k'
      | (inl l, k') =>
          if truthy (content l k') then exec_block exec body k'
          else exec_block exec orelse k'
      end
  end.

(** Running a cell, and running cells in order until one does not complete:
    the result of each cell that was run, in order. *)
Definition run_cell (c : cell) (k : kernel) : result := exec_block exec (snd c) k.

Definition state_of (r : result) : kernel :=
  match r with Done k | Returned k | Error _ k => k end.

Fixpoint run_cells (cs : list cell) (k : kernel) : list result :=
  match cs with
  | [] => []
  | c :: cs' =>
      match run_cell c k with
      | Done k' => Done k' :: run_cells cs' k'
      | r => [r]
      end
  end.

Definition empty_kernel : kernel := Kernel ∅ [] 0.

(** ** Reading a result *)

(** Every outside operation from count [t] up to [t'] returned. *)
Definition clean (t t' : nat) : Prop :=
  forall i, t <= i < t' -> exists v, lib i = Returns v.

(** The error of a step that started at count [t] and stopped at [t']: the
    exception that the last operation run raised, every operation before it
    having returned; or an unbound name, every operation having returned.
    An exception raised by a [raise] statement is neither. *)
Definition raised_by (err : error) (t t' : nat) : Prop :=
  match err with
  | LibraryError i e => lib i = Raises e /\ t <= i /\ t' = S i /\ clean t i
  | NameError _ => clean t t'
  | Raised _ => False
  end.

(** What the result of a step from [k] says of the operations it ran. *)
Definition verdict (k : kernel) (r : result) : Prop :=
  match r with
  | Done k' | Returned k' => clean (tick k) (tick k')
  | Error err k' => raised_by err (tick k) (tick k')
  end.

End Semantics.

End Py.

(* ================================================================== *)
(** * The kernel with the libraries' effects on the store              *)
(* ================================================================== *)

(** A second reading of the cells, for what they do to the objects of the
    store.  An operation of a library can change the library's own objects
    (modules, figures, axes, artists, generators, estimators, colormaps) at
    any time, and the data it is given when it is one of the library's
    in-place operations.  The notebook itself writes into an object by an
    item or attribute assignment and by an augmented assignment.  An object
    built from others (an item, an attribute, a view, a container) records
    the objects whose storage it shares, and a write into it can reach
    them.  A call of one of the four functions that the notebooks define is
    one operation, like a call of a library; what the bodies can write is
    read on the bodies ([body_writes]). *)
Module Fx.

Import Py.

(** The kinds of objects: data (arrays, tables, numbers, strings, lists,
    dicts, functions of the notebook), objects that a library manages, and
    imported modules. *)
Inductive kind := Data | Library | Imported.

(** The operations that code outside the notebook carries out.  A call
    names its callee (the function's name, or the method's), the number of
    positional arguments and the keywords ([None] for a [**mapping]). *)
Inductive operation :=
| GetAttr (attr : string)
| GetItem
| Invoke (callee : string) (nargs : nat) (keywords : list (option string))
| Binary (op : operator)
| Unary (op : unaryop)
| Comparison (op : cmpop)
| Comprehension (writes : bool)
| SetItem
| SetAttr (attr : string)
| InPlace (op : operator)
| ImportOf (module : string).

(** Modelled from the spec: the array, table and plotting libraries are
    external and not among the sources; these tables say, from their
    documentation, which operations write into the data they are given.
    [mutators] are the methods and functions that work in place (on their
    receiver or on an argument): of ndarray, of the array library's
    functions, of list and dict, of the random generators. *)
Definition mutators : list string :=
  ["sort"; "fill"; "put"; "resize"; "partition"; "itemset"; "setfield"; "setflags";
   "byteswap"; "shuffle"; "place"; "putmask"; "copyto"; "fill_diagonal";
   "put_along_axis"; "append"; "extend"; "insert"; "remove"; "pop"; "popitem";
   "clear"; "reverse"; "update"; "setdefault"; "__setitem__"; "__delitem__";
   "__iadd__"; "__imul__"; "setattr"; "delattr"].

(** Modelled from the spec: the keywords with which a call of the external
    libraries writes its result into, or works in place on, an object it is
    given. *)
Definition writing_keywords : list string := ["out"; "inplace"].

(** Modelled from the spec: the universal functions of the external array
    library and their numbers of inputs; a further positional argument is
    the array that receives the result. *)
Definition ufuncs : list (string * nat) :=
  [("sin", 1); ("cos", 1); ("tan", 1); ("exp", 1); ("log", 1); ("log10", 1);
   ("sqrt", 1); ("abs", 1); ("absolute", 1); ("negative", 1); ("square", 1);
   ("add", 2); ("subtract", 2); ("multiply", 2); ("divide", 2); ("power", 2);
   ("maximum", 2); ("minimum", 2)]%nat.

(** Modelled from the spec: the operations of the external array and table
    libraries whose result can share the storage of the data they are given
    (the receiver of a method, or an argument of a function). *)
Definition views : list string :=
  ["ravel"; "reshape"; "view"; "transpose"; "swapaxes"; "moveaxis"; "squeeze";
   "diagonal"; "asarray"; "asanyarray"; "ascontiguousarray"; "asfarray";
   "atleast_1d"; "atleast_2d"; "atleast_3d"; "expand_dims"; "broadcast_to";
   "broadcast_arrays"; "split"; "array_split"; "hsplit"; "vsplit"; "nditer";
   "to_numpy"; "head"; "tail"; "get"; "take"; "DataFrame"; "Series"; "Index"].

(** Modelled from the spec: the built-in functions and methods whose result
    holds the objects they are given, or their items. *)
Definition holders : list string :=
  ["dict"; "list"; "tuple"; "set"; "frozenset"; "zip"; "enumerate"; "iter"; "next";
   "reversed"; "sorted"; "filter"; "map"; "items"; "values"; "keys"; "getattr";
   "__getitem__"].

(** Modelled from the spec: the callees of the external libraries that
    return an object the library manages (a figure, axes, an artist, a grid
    specification, a colorbar, a legend, a colormap, a tick locator or
    formatter, a random generator, an estimator), not data. *)
Definition library_objects : list string :=
  ["figure"; "subplots"; "subplot"; "axes"; "add_axes"; "add_subplot"; "GridSpec";
   "gca"; "gcf"; "colorbar"; "legend"; "Legend"; "add_artist"; "plot"; "scatter";
   "errorbar"; "fill_between"; "contour"; "contourf"; "clabel"; "imshow"; "hist";
   "hist2d"; "hexbin"; "text"; "annotate"; "title"; "xlabel"; "ylabel"; "set";
   "get_cmap"; "from_list"; "MaxNLocator"; "MonthLocator"; "NullFormatter";
   "DateFormatter"; "FuncFormatter"; "MultipleLocator"; "PlainFormatter";
   "RandomState"; "GaussianProcessRegressor"; "Isomap"; "gaussian_kde"; "Image"].

Definition mutating (o : operation) : bool :=
  match o with
  | Invoke c n kws =>
      bool_decide (c ∈ mutators)
      || existsb (fun kw => match kw with
                            | Some w => bool_decide (w ∈ writing_keywords)
                            | None => false
                            end) kws
      || existsb (fun u : string * nat => String.eqb (fst u) c && (snd u <? n)%nat) ufuncs
  | Comprehension w => w
  | _ => false
  end.

(** ** The objects behind an expression *)

Definition callee (f : expr) : string :=
  match f with
  | Name x => x
  | Attribute _ a => a
  | _ => ""
  end.

(** A call whose result can share storage with its operands: a view, a
    holder, or any call told whether to copy ([copy=...], or a [**mapping]
    that may say so). *)
Definition sharing (c : string) (keywords : list (option string)) : bool :=
  bool_decide (c ∈ views) || bool_decide (c ∈ holders)
  || existsb (fun kw => match kw with
                        | Some w => String.eqb w "copy"
                        | None => true
                        end) keywords.

(** The names whose objects the result of an expression can share storage
    with.  A name is its object; an attribute or an item is part of the
    object it is taken from; a sharing call shares with its receiver and
    its arguments; a display, an operator and a comprehension hold what
    they are built from; every other call returns new storage. *)
Fixpoint roots (e : expr) : list string :=
  match e with
  | Name x => [x]
  | Attribute v _ | Subscript v _ | UnaryOp _ v => roots v
  | Call f args kws =>
      if sharing (callee f) (map fst kws) then
        match f with Attribute r _ => roots r | _ => [] end
        ++ flat_map roots args
        ++ flat_map (fun kw : option string * expr => let (_, v) := kw in roots v) kws
      else []
  | BinOp l _ r => roots l ++ roots r
  | List_ es | Tuple es => flat_map roots es
  | Dict ks vs => flat_map roots ks ++ flat_map roots vs
  | ListComp elt _ it => loads elt ++ roots it
  | Constant _ | Slice _ _ | Compare _ _ _ | Lambda _ _ => []
  end.

(** The name an expression is, when it is one. *)
Definition name_of (e : expr) : option string :=
  match e with
  | Name x => Some x
  | _ => None
  end.

(** The kind of the new object that an expression builds; [None] for an
    attribute or an item, which is of the kind of what it is taken from. *)
Definition built (e : expr) : option kind :=
  match e with
  | Attribute _ _ | Subscript _ _ => None
  | Call f _ _ => Some (if bool_decide (callee f ∈ library_objects) then Library else Data)
  | _ => Some Data
  end.

(** ** What evaluating an expression does *)

(** The steps of an evaluation: reading a name; building a literal, a
    display or a function without outside code; and an operation run by
    code outside the notebook, with the names of its operands' roots. *)
Inductive event :=
| Load (id : string)
| Lit
| Op (o : operation) (reach : list string).

Definition is_mutation (ev : event) : bool :=
  match ev with
  | Op o _ => mutating o
  | _ => false
  end.

Definition load_of (ev : event) : list string :=
  match ev with
  | Load x => [x]
  | _ => []
  end.

(** The events of an evaluation, in Python's order (function, positional
    arguments, keywords, then the call).  A lambda's body is not run when
    the lambda is built; a comprehension runs its element expression inside
    the iteration, counted as one operation, which writes when an operation
    of the element does. *)
Fixpoint events (e : expr) : list event :=
  if pure e then [Lit] else
  match e with
  | Constant _ => [Lit]
  | Name x => [Load x]
  | Attribute v a => events v ++ [Op (GetAttr a) (roots v)]
  | Subscript v i => events v ++ events i ++ [Op GetItem (roots v ++ roots i)]
  | Slice lo hi =>
      match lo with Some a => events a | None => [] end ++
      match hi with Some a => events a | None => [] end ++ [Lit]
  | Call f args kws =>
      events f ++ flat_map events args ++
      flat_map (fun kw : option string * expr => let (_, v) := kw in events v) kws ++
      [Op (Invoke (callee f) (length args) (map fst kws))
          (roots f ++ flat_map roots args ++ flat_map (fun kw => roots (snd kw)) kws)]
  | BinOp l o r => events l ++ events r ++ [Op (Binary o) (roots l ++ roots r)]
  | UnaryOp o v => events v ++ [Op (Unary o) (roots v)]
  | Compare l o r => events l ++ events r ++ [Op (Comparison o) (roots l ++ roots r)]
  | List_ es | Tuple es => flat_map events es ++ [Lit]
  | Dict ks vs => flat_map events ks ++ flat_map events vs ++ [Lit]
  | Lambda _ _ => [Lit]
  | ListComp elt _ it =>
      events it ++
      [Op (Comprehension (existsb is_mutation (events elt)))
          (flat_map load_of (events elt) ++ roots it)]
  end.

(** ** A straight-line program of operations *)

(** The instructions of a program without control flow: a step of an
    evaluation; holding the result, in the object of a name or in a new
    object of a kind that shares with the objects of some names; binding
    names to the object held; an in-place write into the objects of some
    names; returning the object held. *)
Inductive instr :=
| Do (ev : event)
| Hold (x : option string) (kd : option kind) (reach : list string)
| Bind (xs : list string)
| Mutate (o : operation) (reach : list string)
| Ret.

(** ** The kernel *)

Section Semantics.

(** Object contents [V] and library exceptions [E] are left open.  [lit] is
    the content of an object built without outside code, [len] the number of
    items an iterable yields, [truthy] the truth value of an object.
    [lib i o] is what the [i]-th outside operation of the run does when it
    is the operation [o]: it returns a value or raises, and either way says
    what becomes of the content of each object of the store that it is
    allowed to change. *)
Context {V E : Type}.

Inductive outcome :=
| Returns (v : V) (change : nat -> V -> V)
| Raises (e : E) (change : nat -> V -> V).

Variables (lit : V) (len : V -> nat) (truthy : V -> bool).
Variable lib : nat -> operation -> outcome.

(** An object: its kind, its content, and the references of the objects
    whose storage it shares or that it holds. *)
Record object := Object { kind_of : kind; content_of : V; shares : list nat }.

(** The namespace maps names to object references; the store holds the
    objects, a reference being a position in it; [tick] counts the outside
    operations run so far. *)
Record kernel := Kernel { ns : gmap string nat; heap : list object; tick : nat }.

(** Every name refers to an object of the store. *)
Definition closed (k : kernel) : Prop :=
  forall x l, ns k !! x = Some l -> l < length (heap k).

Inductive error :=
| LibraryError (call : nat) (e : E)
| NameError (id : string)
| Raised (exc : nat).

Inductive result :=
| Done (k : kernel)
| Returned (l : nat) (k : kernel)
| Error (err : error) (k : kernel).

Definition content (l : nat) (k : kernel) : V :=
  match heap k !! l with
  | Some ob => content_of ob
  | None => lit
  end.

(** An operation can change the objects that the libraries manage and the
    modules; of the data, only the objects of [targets]. *)
Definition changed (targets : list nat) (l : nat) (ob : object) : bool :=
  match kind_of ob with
  | Data => bool_decide (l ∈ targets)
  | Library | Imported => true
  end.

Definition effect (change : nat -> V -> V) (targets : list nat) (h : list object)
    : list object :=
  imap (fun l ob => if changed targets l ob
                    then Object (kind_of ob) (change l (content_of ob)) (shares ob)
                    else ob) h.

(** One outside operation that may write the data objects [targets]. *)
Definition operate (o : operation) (targets : list nat) (k : kernel)
    : (V + error) * kernel :=
  match lib (tick k) o with
  | Returns v change =>
      (inl v, Kernel (ns k) (effect change targets (heap k)) (S (tick k)))
  | Raises e change =>
      (inr (LibraryError (tick k) e),
       Kernel (ns k) (effect change targets (heap k)) (S (tick k)))
  end.

(** What a write into an object can reach: the object and those it shares
    storage with. *)
Definition region (l : nat) (k : kernel) : list nat :=
  l :: match heap k !! l with
       | Some ob => shares ob
       | None => []
       end.

(** The same for the objects of the names of [reach]. *)
Definition regions (reach : list string) (k : kernel) : list nat :=
  flat_map (fun x => match ns k !! x with
                     | Some l => region l k
                     | None => []
                     end) reach.

(** The data that an operation of an evaluation may write: what its
    operands reach, when it is one of the libraries' in-place operations. *)
Definition targets_of (o : operation) (reach : list string) (k : kernel) : list nat :=
  if mutating o then regions reach k else [].

(** Reading a name: the content of its object; a built-in needs no object;
    any other unbound name is a NameError. *)
Definition load (x : string) (k : kernel) : (V + error) * kernel :=
  match ns k !! x with
  | Some l => (inl (content l k), k)
  | None => if bool_decide (x ∈ builtins) then (inl lit, k) else (inr (NameError x), k)
  end.

Definition and_then (r : (V + error) * kernel) (f : V -> kernel -> (V + error) * kernel)
    : (V + error) * kernel :=
  match r with
  | (inl v, k) => f v k
  | (inr err, k) => (inr err, k)
  end.

(** The values of expressions in turn, from left to right. *)
Definition value_list (value : expr -> kernel -> (V + error) * kernel)
    : list expr -> kernel -> (V + error) * kernel :=
  fix go (es : list expr) (k : kernel) : (V + error) * kernel :=
    match es with
    | [] => (inl lit, k)
    | e :: es' => and_then (value e k) (fun _ k => go es' k)
    end.

Definition value_keywords (value : expr -> kernel -> (V + error) * kernel)
    : list (option string * expr) -> kernel -> (V + error) * kernel :=
  fix go (kws : list (option string * expr)) (k : kernel) : (V + error) * kernel :=
    match kws with
    | [] => (inl lit, k)
    | (_, e) :: kws' => and_then (value e k) (fun _ k => go kws' k)
    end.

Definition value_option (value : expr -> kernel -> (V + error) * kernel)
    (o : option expr) (k : kernel) : (V + error) * kernel :=
  match o with
  | Some e => value e k
  | None => (inl lit, k)
  end.

(** The value of an expression, evaluated in Python's order: the operands
    from left to right (the function, the positional arguments, the
    keywords), then the operation. *)
Fixpoint value (e : expr) (k : kernel) {struct e} : (V + error) * kernel :=
  if pure e then (inl lit, k) else
  match e with
  | Constant _ => (inl lit, k)
  | Name x => load x k
  | Attribute v a =>
      and_then (value v k) (fun _ k => operate (GetAttr a) (targets_of (GetAttr a) (roots v) k) k)
  | Subscript v i =>
      and_then (value v k) (fun _ k =>
      and_then (value i k) (fun _ k =>
        operate GetItem (targets_of GetItem (roots v ++ roots i) k) k))
  | Slice lo hi =>
      and_then (value_option value lo k) (fun _ k =>
      and_then (value_option value hi k) (fun _ k => (inl lit, k)))
  | Call f args kws =>
      let o := Invoke (callee f) (length args) (map fst kws) in
      let reach := roots f ++ flat_map roots args ++ flat_map (fun kw => roots (snd kw)) kws in
      and_then (value f k) (fun _ k =>
      and_then (value_list value args k) (fun _ k =>
      and_then (value_keywords value kws k) (fun _ k =>
        operate o (targets_of o reach k) k)))
  | BinOp l o r =>
      and_then (value l k) (fun _ k =>
      and_then (value r k) (fun _ k =>
        operate (Binary o) (targets_of (Binary o) (roots l ++ roots r) k) k))
  | UnaryOp o v =>
      and_then (value v k) (fun _ k => operate (Unary o) (targets_of (Unary o) (roots v) k) k)
  | Compare l o r =>
      and_then (value l k) (fun _ k =>
      and_then (value r k) (fun _ k =>
        operate (Comparison o) (targets_of (Comparison o) (roots l ++ roots r) k) k))
  | List_ es | Tuple es => and_then (value_list value es k) (fun _ k => (inl lit, k))
  | Dict ks vs =>
      and_then (value_list value ks k) (fun _ k =>
      and_then (value_list value vs k) (fun _ k => (inl lit, k)))
  | Lambda _ _ => (inl lit, k)
  | ListComp elt _ it =>
      let o := Comprehension (existsb is_mutation (events elt)) in
      and_then (value it k) (fun _ k =>
        operate o (targets_of o (flat_map load_of (events elt) ++ roots it) k) k)
  end.

(** The same steps, one after the other. *)
Fixpoint run_events (evs : list event) (v : V) (k : kernel) : (V + error) * kernel :=
  match evs with
  | [] => (inl v, k)
  | Load x :: evs' => and_then (load x k) (run_events evs')
  | Lit :: evs' => run_events evs' lit k
  | Op o reach :: evs' => and_then (operate o (targets_of o reach k) k) (run_events evs')
  end.

(** A new object: its reference and the extended store. *)
Definition alloc (ob : object) (k : kernel) : nat * kernel :=
  (length (heap k), Kernel (ns k) (heap k ++ [ob]) (tick k)).

Definition bind (x : string) (l : nat) (k : kernel) : kernel :=
  Kernel (<[x := l]> (ns k)) (heap k) (tick k).

Definition bind_all (xs : list string) (l : nat) (k : kernel) : kernel :=
  fold_left (fun k x => bind x l k) xs k.

(** The kind of an object of the store. *)
Definition kind_at (l : nat) (k : kernel) : option kind := kind_of <$> heap k !! l.

Definition is_module (l : nat) (k : kernel) : bool :=
  match kind_at l k with
  | Some Imported => true
  | _ => false
  end.

Definition is_data (l : nat) (k : kernel) : bool :=
  match kind_at l k with
  | Some Data => true
  | _ => false
  end.

(** The object of a result that is not a name's: an attribute or an item
    ([kd] is [None]) shares with all that [reach] reaches; anything else
    shares with what [reach] reaches apart from the modules, which are only
    where its function was found.  An object that shares with an object the
    libraries manage is managed by them too. *)
Definition new_object (kd : option kind) (reach : list string) (v : V) (k : kernel)
    : object :=
  let ls := match kd with
            | None => regions reach k
            | Some _ => List.filter (fun l => negb (is_module l k)) (regions reach k)
            end in
  Object (if forallb (fun l => is_data l k) ls
          then match kd with Some kd => kd | None => Data end
          else Library) v ls.

(** Holding a value: in the object of the name [x], or in a new object. *)
Definition hold (x : option string) (kd : option kind) (reach : list string) (v : V)
    (k : kernel) : nat * kernel :=
  match match x with Some x => ns k !! x | None => None end with
  | Some l => (l, k)
  | None => alloc (new_object kd reach v k) k
  end.

(** Evaluation: the value, held by the object the name refers to or by a
    new object. *)
Definition eval (e : expr) (k : kernel) : (nat + error) * kernel :=
  match value e k with
  | (inr err, k') => (inr err, k')
  | (inl v, k') => let '(l, k'') := hold (name_of e) (built e) (roots e) v k' in (inl l, k'')
  end.

(** An in-place write through [base] ([base[i] = v], [base.a = v],
    [base += v]): one outside operation, which may write what [base]
    reaches. *)
Definition write (o : operation) (base : expr) (k : kernel) : result :=
  match operate o (regions (roots base) k) k with
  | (inl _, k') => Done k'
  | (inr err, k') => Error err k'
  end.

(** Storing the object [l] into a target: a name or pattern is bound to it;
    an item or attribute target is an in-place write through its base. *)
Definition store (target : expr) (l : nat) (k : kernel) : result :=
  match target with
  | Subscript base idx =>
      match and_then (value base k) (fun _ k => value idx k) with
      | (inr err, k') => Error err k'
      | (inl _, k') => write SetItem base k'
      end
  | Attribute base a =>
      match value base k with
      | (inr err, k') => Error err k'
      | (inl _, k') => write (SetAttr a) base k'
      end
  | _ => Done (bind_all (target_names target) l k)
  end.

Fixpoint store_all (targets : list expr) (l : nat) (k : kernel) : result :=
  match targets with
  | [] => Done k
  | t :: ts =>
      match store t l k with
      | Done k' => store_all ts l k'
      | r => r
      end
  end.

(** [t1, ..., tn = e1, ..., en]: every [ei] is evaluated, then each [ti]
    receives the object of [ei]. *)
Fixpoint eval_list (es : list expr) (k : kernel) : (list nat + error) * kernel :=
  match es with
  | [] => (inl [], k)
  | e :: es' =>
      match eval e k with
      | (inr err, k') => (inr err, k')
      | (inl l, k') =>
          match eval_list es' k' with
          | (inr err, k'') => (inr err, k'')
          | (inl ls, k'') => (inl (l :: ls), k'')
          end
      end
  end.

Fixpoint store_each (targets : list expr) (ls : list nat) (k : kernel) : result :=
  match targets, ls with
  | t :: ts, l :: ls' =>
      match store t l k with
      | Done k' => store_each ts ls' k'
      | r => r
      end
  | _, _ => Done k
  end.

Definition exec_block (exec : stmt -> kernel -> result) : list stmt -> kernel -> result :=
  fix go (b : list stmt) (k : kernel) : result :=
    match b with
    | [] => Done k
    | s :: b' =>
        match exec s k with
        | Done k' => go b' k'
        | r => r
        end
    end.

Fixpoint repeat_block (n : nat) (step : kernel -> result) (k : kernel) : result :=
  match n with
  | O => Done k
  | S n' =>
      match step k with
      | Done k' => repeat_block n' step k'
      | r => r
      end
  end.

(** An import: one outside operation; the name is bound to a new module. *)
Definition import (module asname : string) (k : kernel) : result :=
  match operate (ImportOf module) [] k with
  | (inr err, k') => Error err k'
  | (inl v, k') => let '(l, k'') := alloc (Object Imported v []) k' in Done (bind asname l k'')
  end.

Fixpoint exec (s : stmt) (k : kernel) : result :=
  match s with
  | Import m a | ImportFrom m a => import m a k
  | Magic _ => Done k
  | Assign targets v =>
      match targets, v with
      | [Tuple ts], Tuple vs =>
          if (length ts =? length vs)%nat then
            match eval_list vs k with
            | (inr err, k') => Error err k'
            | (inl ls, k') => store_each ts ls k'
            end
          else
            match eval v k with
            | (inr err, k') => Error err k'
            | (inl l, k') => store_all targets l k'
            end
      | _, _ =>
          match eval v k with
          | (inr err, k') => Error err k'
          | (inl l, k') => store_all targets l k'
          end
      end
  | AugAssign target o v =>
      match eval v k with
      | (inr err, k') => Error err k'
      | (inl _, k') =>
          match value target k' with
          | (inr err, k'') => Error err k''
          | (inl _, k'') => write (InPlace o) target k''
          end
      end
  | Expr e =>
      match eval e k with
      | (inr err, k') => Error err k'
      | (inl _, k') => Done k'
      end
  | For target iter body =>
      match eval iter k with
      | (inr err, k') => Error err k'
      | (inl l, k') =>
          repeat_block (len (content l k'))
            (fun k => match store target l k with
                      | Done k1 => exec_block exec body k1
                      | r => r
                      end) k'
      end
  | FunctionDef name _ _ => let '(l, k') := alloc (Object Data lit []) k in Done (bind name l k')
  | Return e =>
      match eval e k with
      | (inr err, k') => Error err k'
      | (inl l, k') => Returned l k'
      end
  | Try body handlers =>
      match exec_block exec body k with
      | Error _ k' => exec_block exec handlers k'
      | r => r
      end
  | Raise e =>
      match eval e k with
      | (inr err, k') => Error err k'
      | (inl l, k') => Error (Raised l) k'
      end
  | If test body orelse =>
      match eval test k with
      | (inr err, k') => Error err k'
      | (inl l, k') =>
          if truthy (content l k') then exec_block exec body k'
          else exec_block exec orelse k'
      end
  end.

(** Running a cell, and running cells in order until one does not complete:
    the result of each cell that was run, in order. *)
Definition run_cell (c : cell) (k : kernel) : result := exec_block exec (snd c) k.

Definition state_of (r : result) : kernel :=
  match r with Done k | Returned _ k | Error _ k => k end.

Fixpoint run_cells (cs : list cell) (k : kernel) : list result :=
  match cs with
  | [] => []
  | c :: cs' =>
      match run_cell c k with
      | Done k' => Done k' :: run_cells cs' k'
      | r => [r]
      end
  end.

Definition empty_kernel : kernel := Kernel ∅ [] 0.


(** The machine holds the last value, the object held and the kernel. *)
Fixpoint run (prog : list instr) (v : V) (held : nat) (k : kernel) : result :=
  match prog with
  | [] => Done k
  | Do (Load x) :: prog' =>
      match load x k with
      | (inl v', k') => run prog' v' held k'
      | (inr err, k') => Error err k'
      end
  | Do Lit :: prog' => run prog' lit held k
  | Do (Op o reach) :: prog' =>
      match operate o (targets_of o reach k) k with
      | (inl v', k') => run prog' v' held k'
      | (inr err, k') => Error err k'
      end
  | Hold x kd reach :: prog' => let '(l, k') := hold x kd reach v k in run prog' v l k'
  | Bind xs :: prog' => run prog' v held (bind_all xs held k)
  | Mutate o reach :: prog' =>
      match operate o (regions reach k) k with
      | (inl v', k') => run prog' v' held k'
      | (inr err, k') => Error err k'
      end
  | Ret :: _ => Returned held k
  end.

End Semantics.

(** ** Static readings of a block *)

(** What is known, while a block runs, of the object a name refers to:
    [Fresh], an object built since the block started that reaches only such
    objects; [Tainted], unknown.
    A name absent from the map still refers to what it referred to when the
    block started. *)
Inductive status := Fresh | Tainted.

(** The result of an expression is new when every root of it is. *)
Definition fresh (a : gmap string status) (y : string) : bool :=
  match a !! y with
  | Some Fresh => true
  | _ => false
  end.

Definition origin (a : gmap string status) (e : expr) : status :=
  if forallb (fresh a) (roots e) then Fresh else Tainted.

Definition set_status (st : status) (xs : list string) (a : gmap string status)
    : gmap string status :=
  fold_left (fun a x => <[x := st]> a) xs a.

(** The names, bound before the block, whose objects a write into the
    objects of the names [ys] can change; [None] when that cannot be told. *)
Fixpoint written (a : gmap string status) (ys : list string) : option (list string) :=
  match ys with
  | [] => Some []
  | y :: ys' =>
      match a !! y, written a ys' with
      | None, Some ws => Some (y :: ws)
      | Some Fresh, Some ws => Some ws
      | _, _ => None
      end
  end.

(** The same for the steps of an evaluation: the operands of its in-place
    operations. *)
Fixpoint written_by (a : gmap string status) (evs : list event) : option (list string) :=
  match evs with
  | [] => Some []
  | ev :: evs' =>
      match (match ev with
             | Op o reach => if mutating o then written a reach else Some []
             | _ => Some []
             end), written_by a evs' with
      | Some ws, Some ws' => Some (ws ++ ws')
      | _, _ => None
      end
  end.

Definition analyze_target (st : status) (t : expr) (a : gmap string status)
    : option (list string * gmap string status) :=
  match t with
  | Subscript base idx =>
      match written_by a (events base ++ events idx), written a (roots base) with
      | Some ws, Some ws' => Some (ws ++ ws', a)
      | _, _ => None
      end
  | Attribute base _ =>
      match written_by a (events base), written a (roots base) with
      | Some ws, Some ws' => Some (ws ++ ws', a)
      | _, _ => None
      end
  | _ => if binds_only t then Some ([], set_status st (target_names t) a) else None
  end.

Fixpoint analyze_targets (st : status) (ts : list expr) (a : gmap string status)
    : option (list string * gmap string status) :=
  match ts with
  | [] => Some ([], a)
  | t :: ts' =>
      match analyze_target st t a with
      | None => None
      | Some (ws, a') =>
          match analyze_targets st ts' a' with
          | None => None
          | Some (ws', a'') => Some (ws ++ ws', a'')
          end
      end
  end.

Definition analyze_block (analyze : stmt -> gmap string status -> option (list string * gmap string status))
    : list stmt -> gmap string status -> option (list string * gmap string status) :=
  fix go (b : list stmt) (a : gmap string status) :=
    match b with
    | [] => Some ([], a)
    | s :: b' =>
        match analyze s a with
        | None => None
        | Some (ws, a') =>
            match go b' a' with
            | None => None
            | Some (ws', a'') => Some (ws ++ ws', a'')
            end
        end
    end.

Definition after (ws : option (list string))
    (r : option (list string * gmap string status))
    : option (list string * gmap string status) :=
  match ws, r with
  | Some ws, Some (ws', a) => Some (ws ++ ws', a)
  | _, _ => None
  end.

(** The names bound before the statement whose objects the statement can
    write, and what is known of the names after it.  A loop body is read
    once, with every name the loop binds unknown; blocks with [Try] or [If]
    are not read. *)
Fixpoint analyze (s : stmt) (a : gmap string status)
    : option (list string * gmap string status) :=
  match s with
  | Import _ x | ImportFrom _ x | FunctionDef x _ _ => Some ([], <[x := Fresh]> a)
  | Magic _ => Some ([], a)
  | Expr e | Return e | Raise e => after (written_by a (events e)) (Some ([], a))
  | Assign targets value =>
      match targets, value with
      | [Tuple ts], Tuple vs =>
          if (length ts =? length vs)%nat
          then after (written_by a (flat_map events vs)) (analyze_targets Tainted ts a)
          else after (written_by a (events value))
                     (analyze_targets (origin a value) targets a)
      | _, _ => after (written_by a (events value))
                      (analyze_targets (origin a value) targets a)
      end
  | AugAssign target _ value =>
      after (written_by a (events value ++ events target))
            (after (written a (roots target)) (Some ([], a)))
  | For target iter body =>
      if binds_only target then
        let a1 := set_status Tainted (target_names target ++ flat_map assigned_names body) a in
        after (written_by a (events iter))
              match analyze_block analyze body a1 with
              | None => None
              | Some (ws, _) => Some (ws, a1)
              end
      else None
  | Try _ _ | If _ _ _ => None
  end.

(** A [**mapping] argument is not looked into when the call is made; the
    block is read only when every mapping it passes is a name that the same
    block has bound, before the call, to [dict(...)] of literal options,
    none of them a writing keyword. *)
Definition options (v : expr) : bool :=
  match v with
  | Call (Name f) [] kws =>
      String.eqb f "dict" &&
      forallb (fun kw : option string * expr =>
                 pure (snd kw) &&
                 match fst kw with
                 | Some w => negb (bool_decide (w ∈ writing_keywords))
                 | None => false
                 end) kws
  | _ => false
  end.

Fixpoint mappings (e : expr) : list expr :=
  match e with
  | Constant _ | Name _ => []
  | Attribute v _ | UnaryOp _ v => mappings v
  | Subscript l r | BinOp l _ r | Compare l _ r => mappings l ++ mappings r
  | Slice lo hi =>
      match lo with Some a => mappings a | None => [] end ++
      match hi with Some a => mappings a | None => [] end
  | Call f args kws =>
      mappings f ++ flat_map mappings args ++
      flat_map (fun kw : option string * expr =>
                  let (w, v) := kw in
                  match w with
                  | Some _ => mappings v
                  | None => v :: mappings v
                  end) kws
  | List_ es | Tuple es => flat_map mappings es
  | Dict ks vs => flat_map mappings ks ++ flat_map mappings vs
  | Lambda _ b => mappings b
  | ListComp elt t it => mappings elt ++ mappings t ++ mappings it
  end.

Definition known_mapping (known : list string) (m : expr) : bool :=
  match m with
  | Name x => bool_decide (x ∈ known)
  | _ => false
  end.

Fixpoint stmt_mappings (s : stmt) : list expr :=
  match s with
  | Assign ts v => flat_map mappings (v :: ts)
  | AugAssign t _ v => mappings t ++ mappings v
  | Expr e | Return e | Raise e => mappings e
  | For t it body => mappings t ++ mappings it ++ flat_map stmt_mappings body
  | FunctionDef _ _ body => flat_map stmt_mappings body
  | Try body handlers => flat_map stmt_mappings body ++ flat_map stmt_mappings handlers
  | If t body orelse => mappings t ++ flat_map stmt_mappings body ++ flat_map stmt_mappings orelse
  | Import _ _ | ImportFrom _ _ | Magic _ => []
  end.

Fixpoint mappings_known (b : list stmt) (known : list string) : bool :=
  match b with
  | [] => true
  | s :: b' =>
      let known' := List.filter (fun y => negb (bool_decide (y ∈ assigned_names s))) known in
      forallb (known_mapping known') (stmt_mappings s) &&
      mappings_known b'
        match s with
        | Assign [Name x] v => if options v then x :: known' else known'
        | _ => known'
        end
  end.

(** The names bound before a cell whose objects the cell can write. *)
Definition writes_of (c : cell) : option (list string) :=
  if mappings_known (snd c) [] then
    match analyze_block analyze (snd c) ∅ with
    | Some (ws, _) => Some ws
    | None => None
    end
  else None.


(** ** Functions as programs *)






Definition read_by (i : instr) : list string :=
  match i with
  | Do (Load x) => [x]
  | _ => []
  end.

(** An argument of a call that is data: a name, an item of data, the result
    of a call, arithmetic on data and literals, or a display of data. *)
Fixpoint data (e : expr) : bool :=
  match e with
  | Name _ | Call _ _ _ => true
  | Subscript v _ => data v
  | BinOp l _ r => (data l || pure l) && (data r || pure r)
  | UnaryOp _ v => data v
  | List_ es | Tuple es => forallb data es
  | _ => false
  end.



(** An attribute of a name. *)
Definition attribute_of_name (e : expr) : bool :=
  match e with
  | Attribute (Name _) _ => true
  | _ => false
  end.


End Fx.

(** * The notebooks' cells *)

Module Notebooks.

Import Py.


(** 04.00-Introduction-To-Matplotlib.ipynb: Visualization with Matplotlib *)
Definition introduction : notebook := [
  (* cell 4 *)
  (4%nat,
    [Import "matplotlib" "mpl";
     Import "matplotlib.pyplot" "plt"]);
  (* cell 7 *)
  (7%nat,
    [Expr (Call (Attribute (Attribute (Name "plt") "style") "use") [(Constant (CStr "classic"))]
         [])]);
  (* cell 14 *)
  (14%nat,
    [Magic "%matplotlib inline"]);
  (* cell 16 *)
  (16%nat,
    [Import "numpy" "np";
     Assign [(Name "x")] (Call (Attribute (Name "np") "linspace") [(Constant (CInt 0));
         (Constant (CInt 10)); (Constant (CInt 100))] []);
     Assign [(Name "fig")] (Call (Attribute (Name "plt") "figure") [] []);
     Expr (Call (Attribute (Name "plt") "plot") [(Name "x"); (Call (Attribute (Name "np") "sin")
         [(Name "x")] []); (Constant (CStr "-"))] []);
     Expr (Call (Attribute (Name "plt") "plot") [(Name "x"); (Call (Attribute (Name "np") "cos")
         [(Name "x")] []); (Constant (CStr "--"))] [])]);
  (* cell 18 *)
  (18%nat,
    [Expr (Call (Attribute (Name "fig") "savefig") [(Constant (CStr "my_figure.png"))] [])]);
  (* cell 20 *)
  (20%nat,
    [Magic "!ls -lh my_figure.png"]);
  (* cell 22 *)
  (22%nat,
    [ImportFrom "IPython.display" "Image";
     Expr (Call (Name "Image") [(Constant (CStr "my_figure.png"))] [])]);
  (* cell 24 *)
  (24%nat,
    [Expr (Call (Attribute (Attribute (Name "fig") "canvas") "get_supported_filetypes") [] [])]);
  (* cell 28 *)
  (28%nat,
    [Expr (Call (Attribute (Name "plt") "figure") [] []);
     Expr (Call (Attribute (Name "plt") "subplot") [(Constant (CInt 2)); (Constant (CInt 1));
         (Constant (CInt 1))] []);
     Expr (Call (Attribute (Name "plt") "plot") [(Name "x"); (Call (Attribute (Name "np") "sin")
         [(Name "x")] [])] []);
     Expr (Call (Attribute (Name "plt") "subplot") [(Constant (CInt 2)); (Constant (CInt 1));
         (Constant (CInt 2))] []);
     Expr (Call (Attribute (Name "plt") "plot") [(Name "x"); (Call (Attribute (Name "np") "cos")
         [(Name "x")] [])] [])]);
  (* cell 31 *)
  (31%nat,
    [Assign [(Tuple [(Name "fig"); (Name "ax")])] (Call (Attribute (Name "plt") "subplots")
         [(Constant (CInt 2))] []);
     Expr (Call (Attribute (Subscript (Name "ax") (Constant (CInt 0))) "plot") [(Name "x");
         (Call (Attribute (Name "np") "sin") [(Name "x")] [])] []);
     Expr (Call (Attribute (Subscript (Name "ax") (Constant (CInt 1))) "plot") [(Name "x");
         (Call (Attribute (Name "np") "cos") [(Name "x")] [])] [])])
].

(** 04.02-Simple-Scatter-Plots.ipynb: Simple Scatter Plots *)
Definition scatter_plots : notebook := [
  (* cell 2 *)
  (2%nat,
    [Magic "%matplotlib inline";
     Import "matplotlib.pyplot" "plt";
     Expr (Call (Attribute (Attribute (Name "plt") "style") "use") [(Constant (CStr
         "seaborn-whitegrid"))] []);
     Import "numpy" "np"]);
  (* cell 4 *)
  (4%nat,
    [Assign [(Name "x")] (Call (Attribute (Name "np") "linspace") [(Constant (CInt 0));
         (Constant (CInt 10)); (Constant (CInt 30))] []);
     Assign [(Name "y")] (Call (Attribute (Name "np") "sin") [(Name "x")] []);
     Expr (Call (Attribute (Name "plt") "plot") [(Name "x"); (Name "y"); (Constant (CStr "o"))]
         [(Some "color", (Constant (CStr "black")))])]);
  (* cell 6 *)
  (6%nat,
    [Assign [(Name "rng")] (Call (Attribute (Attribute (Name "np") "random") "RandomState")
         [(Constant (CInt 0))] []);
     For (Name "marker") (List_ [(Constant (CStr "o")); (Constant (CStr ".")); (Constant (CStr
         ",")); (Constant (CStr "x")); (Constant (CStr "+")); (Constant (CStr "v")); (Constant
         (CStr "^")); (Constant (CStr "<")); (Constant (CStr ">")); (Constant (CStr "s"));
         (Constant (CStr "d"))]) [
      Expr (Call (Attribute (Name "plt") "plot") [(Call
         (Attribute (Name "rng") "rand") [(Constant (CInt 5))] []); (Call (Attribute (Name
         "rng") "rand") [(Constant (CInt 5))] []); (Name "marker")] [(Some "label", (Call
         (Attribute (Constant (CStr "marker='{0}'")) "format") [(Name "marker")] []))])];
     Expr (Call (Attribute (Name "plt") "legend") [] [(Some "numpoints", (Constant (CInt 1)))]);
     Expr (Call (Attribute (Name "plt") "xlim") [(Constant (CInt 0)); (Constant (CFloat 1.8))]
         [])]);
  (* cell 8 *)
  (8%nat,
    [Expr (Call (Attribute (Name "plt") "plot") [(Name "x"); (Name "y"); (Constant (CStr
         "-ok"))] [])]);
  (* cell 10 *)
  (10%nat,
    [Expr (Call (Attribute (Name "plt") "plot") [(Name "x"); (Name "y"); (Constant (CStr "-p"))]
         [(Some "color", (Constant (CStr "gray"))); (Some "markersize", (Constant (CInt 15)));
         (Some "linewidth", (Constant (CInt 4))); (Some "markerfacecolor", (Constant (CStr
         "white"))); (Some "markeredgecolor", (Constant (CStr "gray"))); (Some
         "markeredgewidth", (Constant (CInt 2)))]);
     Expr (Call (Attribute (Name "plt") "ylim") [(UnaryOp USub (Constant (CFloat 1.2)));
         (Constant (CFloat 1.2))] [])]);
  (* cell 13 *)
  (13%nat,
    [Expr (Call (Attribute (Name "plt") "scatter") [(Name "x"); (Name "y")] [(Some "marker",
         (Constant (CStr "o")))])]);
  (* cell 15 *)
  (15%nat,
    [Assign [(Name "rng")] (Call (Attribute (Attribute (Name "np") "random") "RandomState")
         [(Constant (CInt 0))] []);
     Assign [(Name "x")] (Call (Attribute (Name "rng") "randn") [(Constant (CInt 100))] []);
     Assign [(Name "y")] (Call (Attribute (Name "rng") "randn") [(Constant (CInt 100))] []);
     Assign [(Name "colors")] (Call (Attribute (Name "rng") "rand") [(Constant (CInt 100))] []);
     Assign [(Name "sizes")] (BinOp (Constant (CInt 1000)) Mult (Call (Attribute (Name "rng")
         "rand") [(Constant (CInt 100))] []));
     Expr (Call (Attribute (Name "plt") "scatter") [(Name "x"); (Name "y")] [(Some "c", (Name
         "colors")); (Some "s", (Name "sizes")); (Some "alpha", (Constant (CFloat 0.3))); (Some
         "cmap", (Constant (CStr "viridis")))]);
     Expr (Call (Attribute (Name "plt") "colorbar") [] [])]);
  (* cell 17 *)
  (17%nat,
    [Magic "!conda install -y scikit-learn"]);
  (* cell 18 *)
  (18%nat,
    [ImportFrom "sklearn.datasets" "load_iris";
     Assign [(Name "iris")] (Call (Name "load_iris") [] []);
     Assign [(Name "features")] (Attribute (Attribute (Name "iris") "data") "T");
     Expr (Call (Attribute (Name "plt") "scatter") [(Subscript (Name "features") (Constant (CInt
         0))); (Subscript (Name "features") (Constant (CInt 1)))] [(Some "alpha", (Constant
         (CFloat 0.2))); (Some "s", (BinOp (Constant (CInt 100)) Mult (Subscript (Name
         "features") (Constant (CInt 3))))); (Some "c", (Attribute (Name "iris") "target"));
         (Some "cmap", (Constant (CStr "viridis")))]);
     Expr (Call (Attribute (Name "plt") "xlabel") [(Subscript (Attribute (Name "iris")
         "feature_names") (Constant (CInt 0)))] []);
     Expr (Call (Attribute (Name "plt") "ylabel") [(Subscript (Attribute (Name "iris")
         "feature_names") (Constant (CInt 1)))] [])])
].

(** 04.04-Density-and-Contour-Plots.ipynb: Density and Contour Plots *)
Definition contour_plots : notebook := [
  (* cell 2 *)
  (2%nat,
    [Magic "%matplotlib inline";
     Import "matplotlib.pyplot" "plt";
     Expr (Call (Attribute (Attribute (Name "plt") "style") "use") [(Constant (CStr
         "seaborn-white"))] []);
     Import "numpy" "np"]);
  (* cell 5 *)
  (5%nat,
    [FunctionDef "f" ["x"; "y"] [
      Return (BinOp (BinOp (Call (Attribute (Name "np") "sin")
         [(Name "x")] []) Pow (Constant (CInt 10))) Add (BinOp (Call (Attribute (Name "np")
         "cos") [(BinOp (Constant (CInt 10)) Add (BinOp (Name "y") Mult (Name "x")))] []) Mult
         (Call (Attribute (Name "np") "cos") [(Name "x")] [])))]]);
  (* cell 7 *)
  (7%nat,
    [Assign [(Name "x")] (Call (Attribute (Name "np") "linspace") [(Constant (CInt 0));
         (Constant (CInt 5)); (Constant (CInt 50))] []);
     Assign [(Name "y")] (Call (Attribute (Name "np") "linspace") [(Constant (CInt 0));
         (Constant (CInt 5)); (Constant (CInt 40))] []);
     Assign [(Tuple [(Name "X"); (Name "Y")])] (Call (Attribute (Name "np") "meshgrid") [(Name
         "x"); (Name "y")] []);
     Assign [(Name "Z")] (Call (Name "f") [(Name "X"); (Name "Y")] [])]);
  (* cell 9 *)
  (9%nat,
    [Expr (Call (Attribute (Name "plt") "contour") [(Name "X"); (Name "Y"); (Name "Z")] [(Some
         "colors", (Constant (CStr "black")))])]);
  (* cell 11 *)
  (11%nat,
    [Expr (Call (Attribute (Name "plt") "contour") [(Name "X"); (Name "Y"); (Name "Z");
         (Constant (CInt 20))] [(Some "cmap", (Constant (CStr "RdGy")))])]);
  (* cell 13 *)
  (13%nat,
    [Expr (Call (Attribute (Name "plt") "contourf") [(Name "X"); (Name "Y"); (Name "Z");
         (Constant (CInt 20))] [(Some "cmap", (Constant (CStr "RdGy")))]);
     Expr (Call (Attribute (Name "plt") "colorbar") [] [])]);
  (* cell 15 *)
  (15%nat,
    [Expr (Call (Attribute (Name "plt") "imshow") [(Name "Z")] [(Some "extent", (List_
         [(Constant (CInt 0)); (Constant (CInt 5)); (Constant (CInt 0)); (Constant (CInt 5))]));
         (Some "origin", (Constant (CStr "lower"))); (Some "cmap", (Constant (CStr "RdGy")))]);
     Expr (Call (Attribute (Name "plt") "colorbar") [] []);
     Expr (Call (Attribute (Name "plt") "axis") [(Constant (CStr "image"))] []);
     Expr (Call (Attribute (Name "plt") "axis") [] [])]);
  (* cell 18 *)
  (18%nat,
    [Assign [(Name "contours")] (Call (Attribute (Name "plt") "contour") [(Name "X"); (Name
         "Y"); (Name "Z"); (Constant (CInt 3))] [(Some "colors", (Constant (CStr "black")))]);
     Expr (Call (Attribute (Name "plt") "clabel") [(Name "contours")] [(Some "inline", (Constant
         (CBool true))); (Some "fontsize", (Constant (CInt 8)))]);
     Expr (Call (Attribute (Name "plt") "imshow") [(Name "Z")] [(Some "extent", (List_
         [(Constant (CInt 0)); (Constant (CInt 5)); (Constant (CInt 0)); (Constant (CInt 5))]));
         (Some "origin", (Constant (CStr "lower"))); (Some "cmap", (Constant (CStr "RdGy")));
         (Some "alpha", (Constant (CFloat 0.5)))]);
     Expr (Call (Attribute (Name "plt") "colorbar") [] [])])
].

(** 04.05-Histograms-and-Binnings.ipynb: Histograms, Binnings, and Density *)
Definition histograms : notebook := [
  (* cell 2 *)
  (2%nat,
    [Magic "%matplotlib inline";
     Import "numpy" "np";
     Import "matplotlib.pyplot" "plt";
     Expr (Call (Attribute (Attribute (Name "plt") "style") "use") [(Constant (CStr
         "seaborn-white"))] []);
     Assign [(Name "data")] (Call (Attribute (Attribute (Name "np") "random") "randn")
         [(Constant (CInt 1000))] [])]);
  (* cell 3 *)
  (3%nat,
    [Expr (Call (Attribute (Name "plt") "hist") [(Name "data")] [])]);
  (* cell 5 *)
  (5%nat,
    [Expr (Call (Attribute (Name "plt") "hist") [(Name "data")] [(Some "bins", (Constant (CInt
         30))); (Some "density", (Constant (CBool true))); (Some "alpha", (Constant (CFloat
         0.5))); (Some "histtype", (Constant (CStr "stepfilled"))); (Some "color", (Constant
         (CStr "steelblue"))); (Some "edgecolor", (Constant (CStr "none")))])]);
  (* cell 7 *)
  (7%nat,
    [Assign [(Name "x1")] (Call (Attribute (Attribute (Name "np") "random") "normal") [(Constant
         (CInt 0)); (Constant (CFloat 0.8)); (Constant (CInt 1000))] []);
     Assign [(Name "x2")] (Call (Attribute (Attribute (Name "np") "random") "normal") [(UnaryOp
         USub (Constant (CInt 2))); (Constant (CInt 1)); (Constant (CInt 1000))] []);
     Assign [(Name "x3")] (Call (Attribute (Attribute (Name "np") "random") "normal") [(Constant
         (CInt 3)); (Constant (CInt 2)); (Constant (CInt 1000))] []);
     Assign [(Name "kwargs")] (Call (Name "dict") [] [(Some "histtype", (Constant (CStr
         "stepfilled"))); (Some "alpha", (Constant (CFloat 0.3))); (Some "density", (Constant
         (CBool true))); (Some "bins", (Constant (CInt 40)))]);
     Expr (Call (Attribute (Name "plt") "hist") [(Name "x1")] [(None, (Name "kwargs"))]);
     Expr (Call (Attribute (Name "plt") "hist") [(Name "x2")] [(None, (Name "kwargs"))]);
     Expr (Call (Attribute (Name "plt") "hist") [(Name "x3")] [(None, (Name "kwargs"))])]);
  (* cell 9 *)
  (9%nat,
    [Assign [(Tuple [(Name "counts"); (Name "bin_edges")])] (Call (Attribute (Name "np")
         "histogram") [(Name "data")] [(Some "bins", (Constant (CInt 5)))]);
     Expr (Call (Name "print") [(Name "counts")] [])]);
  (* cell 11 *)
  (11%nat,
    [Assign [(Name "mean")] (List_ [(Constant (CInt 0)); (Constant (CInt 0))]);
     Assign [(Name "cov")] (List_ [(List_ [(Constant (CInt 1)); (Constant (CInt 1))]); (List_
         [(Constant (CInt 1)); (Constant (CInt 2))])]);
     Assign [(Tuple [(Name "x"); (Name "y")])] (Attribute (Call (Attribute (Attribute (Name
         "np") "random") "multivariate_normal") [(Name "mean"); (Name "cov"); (Constant (CInt
         10000))] []) "T")]);
  (* cell 13 *)
  (13%nat,
    [Expr (Call (Attribute (Name "plt") "hist2d") [(Name "x"); (Name "y")] [(Some "bins",
         (Constant (CInt 30))); (Some "cmap", (Constant (CStr "Blues")))]);
     Assign [(Name "cb")] (Call (Attribute (Name "plt") "colorbar") [] []);
     Expr (Call (Attribute (Name "cb") "set_label") [(Constant (CStr "counts in bin"))] [])]);
  (* cell 15 *)
  (15%nat,
    [Assign [(Tuple [(Name "counts"); (Name "xedges"); (Name "yedges")])] (Call (Attribute (Name
         "np") "histogram2d") [(Name "x"); (Name "y")] [(Some "bins", (Constant (CInt 30)))])]);
  (* cell 18 *)
  (18%nat,
    [Expr (Call (Attribute (Name "plt") "hexbin") [(Name "x"); (Name "y")] [(Some "gridsize",
         (Constant (CInt 30))); (Some "cmap", (Constant (CStr "Blues")))]);
     Assign [(Name "cb")] (Call (Attribute (Name "plt") "colorbar") [] [(Some "label", (Constant
         (CStr "count in bin")))])]);
  (* cell 21 *)
  (21%nat,
    [ImportFrom "scipy.stats" "gaussian_kde";
     Assign [(Name "data")] (Call (Attribute (Name "np") "vstack") [(List_ [(Name "x"); (Name
         "y")])] []);
     Assign [(Name "kde")] (Call (Name "gaussian_kde") [(Name "data")] []);
     Assign [(Name "xgrid")] (Call (Attribute (Name "np") "linspace") [(UnaryOp USub (Constant
         (CFloat 3.5))); (Constant (CFloat 3.5)); (Constant (CInt 40))] []);
     Assign [(Name "ygrid")] (Call (Attribute (Name "np") "linspace") [(UnaryOp USub (Constant
         (CInt 6))); (Constant (CInt 6)); (Constant (CInt 40))] []);
     Assign [(Tuple [(Name "Xgrid"); (Name "Ygrid")])] (Call (Attribute (Name "np") "meshgrid")
         [(Name "xgrid"); (Name "ygrid")] []);
     Assign [(Name "Z")] (Call (Attribute (Name "kde") "evaluate") [(Call (Attribute (Name "np")
         "vstack") [(List_ [(Call (Attribute (Name "Xgrid") "ravel") [] []); (Call (Attribute
         (Name "Ygrid") "ravel") [] [])])] [])] []);
     Expr (Call (Attribute (Name "plt") "imshow") [(Call (Attribute (Name "Z") "reshape")
         [(Attribute (Name "Xgrid") "shape")] [])] [(Some "origin", (Constant (CStr "lower")));
         (Some "aspect", (Constant (CStr "auto"))); (Some "extent", (List_ [(UnaryOp USub
         (Constant (CFloat 3.5))); (Constant (CFloat 3.5)); (UnaryOp USub (Constant (CInt 6)));
         (Constant (CInt 6))])); (Some "cmap", (Constant (CStr "Blues")))]);
     Assign [(Name "cb")] (Call (Attribute (Name "plt") "colorbar") [] []);
     Expr (Call (Attribute (Name "cb") "set_label") [(Constant (CStr "density"))] [])])
].

(** 04.06-Customizing-Legends.ipynb: Customizing Plot Legends *)
Definition legends : notebook := [
  (* cell 2 *)
  (2%nat,
    [Import "matplotlib.pyplot" "plt";
     Expr (Call (Attribute (Attribute (Name "plt") "style") "use") [(Constant (CStr "classic"))]
         [])]);
  (* cell 3 *)
  (3%nat,
    [Magic "%matplotlib inline";
     Import "numpy" "np"]);
  (* cell 4 *)
  (4%nat,
    [Assign [(Name "x")] (Call (Attribute (Name "np") "linspace") [(Constant (CInt 0));
         (Constant (CInt 10)); (Constant (CInt 1000))] []);
     Assign [(Tuple [(Name "fig"); (Name "ax")])] (Call (Attribute (Name "plt") "subplots") []
         []);
     Expr (Call (Attribute (Name "ax") "plot") [(Name "x"); (Call (Attribute (Name "np") "sin")
         [(Name "x")] []); (Constant (CStr "-b"))] [(Some "label", (Constant (CStr "Sine")))]);
     Expr (Call (Attribute (Name "ax") "plot") [(Name "x"); (Call (Attribute (Name "np") "cos")
         [(Name "x")] []); (Constant (CStr "--r"))] [(Some "label", (Constant (CStr
         "Cosine")))]);
     Expr (Call (Attribute (Name "ax") "axis") [(Constant (CStr "equal"))] []);
     Assign [(Name "leg")] (Call (Attribute (Name "ax") "legend") [] [])]);
  (* cell 6 *)
  (6%nat,
    [Expr (Call (Attribute (Name "ax") "legend") [] [(Some "loc", (Constant (CStr
         "upper left"))); (Some "frameon", (Constant (CBool false)))]);
     Expr (Name "fig")]);
  (* cell 8 *)
  (8%nat,
    [Expr (Call (Attribute (Name "ax") "legend") [] [(Some "frameon", (Constant (CBool false)));
         (Some "loc", (Constant (CStr "lower center"))); (Some "ncol", (Constant (CInt 2)))]);
     Expr (Name "fig")]);
  (* cell 10 *)
  (10%nat,
    [Expr (Call (Attribute (Name "ax") "legend") [] [(Some "fancybox", (Constant (CBool true)));
         (Some "framealpha", (Constant (CInt 1))); (Some "shadow", (Constant (CBool true)));
         (Some "borderpad", (Constant (CInt 1)))]);
     Expr (Name "fig")]);
  (* cell 13 *)
  (13%nat,
    [Assign [(Name "y")] (Call (Attribute (Name "np") "sin") [(BinOp (Subscript (Name "x")
         (Tuple [(Slice None None); (Attribute (Name "np") "newaxis")])) Add (BinOp (Attribute
         (Name "np") "pi") Mult (Call (Attribute (Name "np") "arange") [(Constant (CInt 0));
         (Constant (CInt 2)); (Constant (CFloat 0.5))] [])))] []);
     Assign [(Name "lines")] (Call (Attribute (Name "plt") "plot") [(Name "x"); (Name "y")] []);
     Expr (Call (Attribute (Name "plt") "legend") [(Subscript (Name "lines") (Slice None (Some
         (Constant (CInt 2))))); (List_ [(Constant (CStr "first")); (Constant (CStr
         "second"))])] [])]);
  (* cell 15 *)
  (15%nat,
    [Expr (Call (Attribute (Name "plt") "plot") [(Name "x"); (Subscript (Name "y") (Tuple
         [(Slice None None); (Constant (CInt 0))]))] [(Some "label", (Constant (CStr
         "first")))]);
     Expr (Call (Attribute (Name "plt") "plot") [(Name "x"); (Subscript (Name "y") (Tuple
         [(Slice None None); (Constant (CInt 1))]))] [(Some "label", (Constant (CStr
         "second")))]);
     Expr (Call (Attribute (Name "plt") "plot") [(Name "x"); (Subscript (Name "y") (Tuple
         [(Slice None None); (Slice (Some (Constant (CInt 2))) None)]))] []);
     Expr (Call (Attribute (Name "plt") "legend") [] [(Some "framealpha", (Constant (CInt 1)));
         (Some "frameon", (Constant (CBool true)))])]);
  (* cell 18 *)
  (18%nat,
    [Import "pandas" "pd";
     Assign [(Name "cities")] (Call (Attribute (Name "pd") "read_csv") [(Constant (CStr
         "data/california_cities.csv"))] []);
     Assign [(Tuple [(Name "lat"); (Name "lon")])] (Tuple [(Subscript (Name "cities") (Constant
         (CStr "latd"))); (Subscript (Name "cities") (Constant (CStr "longd")))]);
     Assign [(Tuple [(Name "population"); (Name "area")])] (Tuple [(Subscript (Name "cities")
         (Constant (CStr "population_total"))); (Subscript (Name "cities") (Constant (CStr
         "area_total_km2")))]);
     Expr (Call (Attribute (Name "plt") "scatter") [(Name "lon"); (Name "lat")] [(Some "label",
         (Constant (CNone))); (Some "c", (Call (Attribute (Name "np") "log10") [(Name
         "population")] [])); (Some "cmap", (Constant (CStr "viridis"))); (Some "s", (Name
         "area")); (Some "linewidth", (Constant (CInt 0))); (Some "alpha", (Constant (CFloat
         0.5)))]);
     Expr (Call (Attribute (Name "plt") "axis") [(Constant (CStr "equal"))] []);
     Expr (Call (Attribute (Name "plt") "xlabel") [(Constant (CStr "longitude"))] []);
     Expr (Call (Attribute (Name "plt") "ylabel") [(Constant (CStr "latitude"))] []);
     Expr (Call (Attribute (Name "plt") "colorbar") [] [(Some "label", (Constant (CStr
         "log$_{10}$(population)")))]);
     Expr (Call (Attribute (Name "plt") "clim") [(Constant (CInt 3)); (Constant (CInt 7))] []);
     For (Name "area") (List_ [(Constant (CInt 100)); (Constant (CInt 300)); (Constant (CInt
         500))]) [
      Expr (Call (Attribute (Name "plt") "scatter") [(List_ []); (List_ [])]
         [(Some "c", (Constant (CStr "k"))); (Some "alpha", (Constant (CFloat 0.3))); (Some "s",
         (Name "area")); (Some "label", (BinOp (Call (Name "str") [(Name "area")] []) Add
         (Constant (CStr " km$^2$"))))])];
     Expr (Call (Attribute (Name "plt") "legend") [] [(Some "scatterpoints", (Constant (CInt
         1))); (Some "frameon", (Constant (CBool false))); (Some "labelspacing", (Constant (CInt
         1))); (Some "title", (Constant (CStr "City Area")))]);
     Expr (Call (Attribute (Name "plt") "title") [(Constant (CStr
         "California Cities: Area and Population"))] [])]);
  (* cell 21 *)
  (21%nat,
    [Assign [(Tuple [(Name "fig"); (Name "ax")])] (Call (Attribute (Name "plt") "subplots") []
         []);
     Assign [(Name "lines")] (List_ []);
     Assign [(Name "styles")] (List_ [(Constant (CStr "-")); (Constant (CStr "--")); (Constant
         (CStr "-.")); (Constant (CStr ":"))]);
     Assign [(Name "x")] (Call (Attribute (Name "np") "linspace") [(Constant (CInt 0));
         (Constant (CInt 10)); (Constant (CInt 1000))] []);
     For (Name "i") (Call (Name "range") [(Constant (CInt 4))] []) [
      AugAssign (Name
         "lines") Add (Call (Attribute (Name "ax") "plot") [(Name "x"); (Call (Attribute (Name
         "np") "sin") [(BinOp (Name "x") Sub (BinOp (BinOp (Name "i") Mult (Attribute (Name
         "np") "pi")) Div (Constant (CInt 2))))] []); (Subscript (Name "styles") (Name "i"))]
         [(Some "color", (Constant (CStr "black")))])];
     Expr (Call (Attribute (Name "ax") "axis") [(Constant (CStr "equal"))] []);
     Expr (Call (Attribute (Name "ax") "legend") [(Subscript (Name "lines") (Slice None (Some
         (Constant (CInt 2))))); (List_ [(Constant (CStr "line A")); (Constant (CStr
         "line B"))])] [(Some "loc", (Constant (CStr "upper right"))); (Some "frameon",
         (Constant (CBool false)))]);
     ImportFrom "matplotlib.legend" "Legend";
     Assign [(Name "leg")] (Call (Name "Legend") [(Name "ax"); (Subscript (Name "lines") (Slice
         (Some (Constant (CInt 2))) None)); (List_ [(Constant (CStr "line C")); (Constant (CStr
         "line D"))])] [(Some "loc", (Constant (CStr "lower right"))); (Some "frameon",
         (Constant (CBool false)))]);
     Expr (Call (Attribute (Name "ax") "add_artist") [(Name "leg")] [])])
].

(** 04.07-Customizing-Colorbars.ipynb: Customizing Colorbars *)
Definition colorbars : notebook := [
  (* cell 2 *)
  (2%nat,
    [Import "matplotlib.pyplot" "plt";
     Expr (Call (Attribute (Attribute (Name "plt") "style") "use") [(Constant (CStr "classic"))]
         [])]);
  (* cell 3 *)
  (3%nat,
    [Magic "%matplotlib inline";
     Import "numpy" "np"]);
  (* cell 5 *)
  (5%nat,
    [Assign [(Name "x")] (Call (Attribute (Name "np") "linspace") [(Constant (CInt 0));
         (Constant (CInt 10)); (Constant (CInt 1000))] []);
     Assign [(Name "I")] (BinOp (Call (Attribute (Name "np") "sin") [(Name "x")] []) Mult (Call
         (Attribute (Name "np") "cos") [(Subscript (Name "x") (Tuple [(Slice None None);
         (Attribute (Name "np") "newaxis")]))] []));
     Expr (Call (Attribute (Name "plt") "imshow") [(Name "I")] []);
     Expr (Call (Attribute (Name "plt") "colorbar") [] [])]);
  (* cell 8 *)
  (8%nat,
    [Expr (Call (Attribute (Name "plt") "imshow") [(Name "I")] [(Some "cmap", (Constant (CStr
         "gray")))])]);
  (* cell 11 *)
  (11%nat,
    [ImportFrom "matplotlib.colors" "LinearSegmentedColormap";
     FunctionDef "grayscale_cmap" ["cmap"] [
      Expr (Constant (CStr
         "Return a grayscale version of the given colormap"));
      Assign [(Name "cmap")]
         (Call (Attribute (Attribute (Name "plt") "cm") "get_cmap") [(Name "cmap")] []);
     
         Assign [(Name "colors")] (Call (Name "cmap") [(Call (Attribute (Name "np") "arange")
         [(Attribute (Name "cmap") "N")] [])] []);
      Assign [(Name "RGB_weight")] (List_
         [(Constant (CFloat 0.299)); (Constant (CFloat 0.587)); (Constant (CFloat 0.114))]);
   
           Assign [(Name "luminance")] (Call (Attribute (Name "np") "sqrt") [(Call (Attribute
         (Name "np") "dot") [(BinOp (Subscript (Name "colors") (Tuple [(Slice None None); (Slice
         None (Some (Constant (CInt 3))))])) Pow (Constant (CInt 2))); (Name "RGB_weight")] [])]
         []);
      Assign [(Subscript (Name "colors") (Tuple [(Slice None None); (Slice None
         (Some (Constant (CInt 3))))]))] (Subscript (Name "luminance") (Tuple [(Slice None
         None); (Attribute (Name "np") "newaxis")]));
      Return (Call (Attribute (Name
         "LinearSegmentedColormap") "from_list") [(BinOp (Attribute (Name "cmap") "name") Add
         (Constant (CStr "_gray"))); (Name "colors"); (Attribute (Name "cmap") "N")] [])];
     FunctionDef "view_colormap" ["cmap"] [
      Expr (Constant (CStr
         "Plot a colormap with its grayscale equivalent"));
      Assign [(Name "cmap")] (Call
         (Attribute (Attribute (Name "plt") "cm") "get_cmap") [(Name "cmap")] []);
      Assign
         [(Name "colors")] (Call (Name "cmap") [(Call (Attribute (Name "np") "arange")
         [(Attribute (Name "cmap") "N")] [])] []);
      Assign [(Name "cmap")] (Call (Name
         "grayscale_cmap") [(Name "cmap")] []);
      Assign [(Name "grayscale")] (Call (Name
         "cmap") [(Call (Attribute (Name "np") "arange") [(Attribute (Name "cmap") "N")] [])]
         []);
      Assign [(Tuple [(Name "fig"); (Name "ax")])] (Call (Attribute (Name "plt")
         "subplots") [(Constant (CInt 2))] [(Some "figsize", (Tuple [(Constant (CInt 6));
         (Constant (CInt 2))])); (Some "subplot_kw", (Call (Name "dict") [] [(Some "xticks",
         (List_ [])); (Some "yticks", (List_ []))]))]);
      Expr (Call (Attribute (Subscript
         (Name "ax") (Constant (CInt 0))) "imshow") [(List_ [(Name "colors")])] [(Some "extent",
         (List_ [(Constant (CInt 0)); (Constant (CInt 10)); (Constant (CInt 0)); (Constant (CInt
         1))]))]);
      Expr (Call (Attribute (Subscript (Name "ax") (Constant (CInt 1)))
         "imshow") [(List_ [(Name "grayscale")])] [(Some "extent", (List_ [(Constant (CInt 0));
         (Constant (CInt 10)); (Constant (CInt 0)); (Constant (CInt 1))]))])]]);
  (* cell 12 *)
  (12%nat,
    [Expr (Call (Name "view_colormap") [(Constant (CStr "jet"))] [])]);
  (* cell 14 *)
  (14%nat,
    [Expr (Call (Name "view_colormap") [(Constant (CStr "viridis"))] [])]);
  (* cell 16 *)
  (16%nat,
    [Expr (Call (Name "view_colormap") [(Constant (CStr "cubehelix"))] [])]);
  (* cell 18 *)
  (18%nat,
    [Expr (Call (Name "view_colormap") [(Constant (CStr "RdBu"))] [])]);
  (* cell 21 *)
  (21%nat,
    [Assign [(Name "speckles")] (Compare (Call (Attribute (Attribute (Name "np") "random")
         "random") [(Attribute (Name "I") "shape")] []) Lt (Constant (CFloat 0.01)));
     Assign [(Subscript (Name "I") (Name "speckles"))] (Call (Attribute (Attribute (Name "np")
         "random") "normal") [(Constant (CInt 0)); (Constant (CInt 3)); (Call (Attribute (Name
         "np") "count_nonzero") [(Name "speckles")] [])] []);
     Expr (Call (Attribute (Name "plt") "figure") [] [(Some "figsize", (Tuple [(Constant (CInt
         10)); (Constant (CFloat 3.5))]))]);
     Expr (Call (Attribute (Name "plt") "subplot") [(Constant (CInt 1)); (Constant (CInt 2));
         (Constant (CInt 1))] []);
     Expr (Call (Attribute (Name "plt") "imshow") [(Name "I")] [(Some "cmap", (Constant (CStr
         "RdBu")))]);
     Expr (Call (Attribute (Name "plt") "colorbar") [] []);
     Expr (Call (Attribute (Name "plt") "subplot") [(Constant (CInt 1)); (Constant (CInt 2));
         (Constant (CInt 2))] []);
     Expr (Call (Attribute (Name "plt") "imshow") [(Name "I")] [(Some "cmap", (Constant (CStr
         "RdBu")))]);
     Expr (Call (Attribute (Name "plt") "colorbar") [] [(Some "extend", (Constant (CStr
         "both")))]);
     Expr (Call (Attribute (Name "plt") "clim") [(UnaryOp USub (Constant (CInt 1))); (Constant
         (CInt 1))] [])]);
  (* cell 24 *)
  (24%nat,
    [Expr (Call (Attribute (Name "plt") "imshow") [(Name "I")] [(Some "cmap", (Call (Attribute
         (Attribute (Name "plt") "cm") "get_cmap") [(Constant (CStr "Blues")); (Constant (CInt
         6))] []))]);
     Expr (Call (Attribute (Name "plt") "colorbar") [] []);
     Expr (Call (Attribute (Name "plt") "clim") [(UnaryOp USub (Constant (CInt 1))); (Constant
         (CInt 1))] [])]);
  (* cell 27 *)
  (27%nat,
    [ImportFrom "sklearn.datasets" "load_digits";
     Assign [(Name "digits")] (Call (Name "load_digits") [] [(Some "n_class", (Constant (CInt
         6)))]);
     Assign [(Tuple [(Name "fig"); (Name "ax")])] (Call (Attribute (Name "plt") "subplots")
         [(Constant (CInt 8)); (Constant (CInt 8))] [(Some "figsize", (Tuple [(Constant (CInt
         6)); (Constant (CInt 6))]))]);
     For (Tuple [(Name "i"); (Name "axi")]) (Call (Name "enumerate") [(Attribute (Name "ax")
         "flat")] []) [
      Expr (Call (Attribute (Name "axi") "imshow") [(Subscript
         (Attribute (Name "digits") "images") (Name "i"))] [(Some "cmap", (Constant (CStr
         "binary")))]);
      Expr (Call (Attribute (Name "axi") "set") [] [(Some "xticks",
         (List_ [])); (Some "yticks", (List_ []))])]]);
  (* cell 29 *)
  (29%nat,
    [ImportFrom "sklearn.manifold" "Isomap";
     Assign [(Name "iso")] (Call (Name "Isomap") [] [(Some "n_components", (Constant (CInt
         2)))]);
     Assign [(Name "projection")] (Call (Attribute (Name "iso") "fit_transform") [(Attribute
         (Name "digits") "data")] [])]);
  (* cell 31 *)
  (31%nat,
    [Expr (Call (Attribute (Name "plt") "scatter") [(Subscript (Name "projection") (Tuple
         [(Slice None None); (Constant (CInt 0))])); (Subscript (Name "projection") (Tuple
         [(Slice None None); (Constant (CInt 1))]))] [(Some "lw", (Constant (CFloat 0.1)));
         (Some "c", (Attribute (Name "digits") "target")); (Some "cmap", (Call (Attribute
         (Attribute (Name "plt") "cm") "get_cmap") [(Constant (CStr "cubehelix")); (Constant
         (CInt 6))] []))]);
     Expr (Call (Attribute (Name "plt") "colorbar") [] [(Some "ticks", (Call (Name "range")
         [(Constant (CInt 6))] [])); (Some "label", (Constant (CStr "digit value")))]);
     Expr (Call (Attribute (Name "plt") "clim") [(UnaryOp USub (Constant (CFloat 0.5)));
         (Constant (CFloat 5.5))] [])])
].

(** unnamed/part_000 (document 1): Multiple Subplots *)
Definition subplots : notebook := [
  (* cell 2 *)
  (2%nat,
    [Magic "%matplotlib inline";
     Import "matplotlib.pyplot" "plt";
     Expr (Call (Attribute (Attribute (Name "plt") "style") "use") [(Constant (CStr
         "seaborn-white"))] []);
     Import "numpy" "np"]);
  (* cell 4 *)
  (4%nat,
    [Assign [(Name "ax1")] (Call (Attribute (Name "plt") "axes") [] []);
     Assign [(Name "ax2")] (Call (Attribute (Name "plt") "axes") [(List_ [(Constant (CFloat
         0.65)); (Constant (CFloat 0.65)); (Constant (CFloat 0.2)); (Constant (CFloat 0.2))])]
         [])]);
  (* cell 6 *)
  (6%nat,
    [Assign [(Name "fig")] (Call (Attribute (Name "plt") "figure") [] []);
     Assign [(Name "ax1")] (Call (Attribute (Name "fig") "add_axes") [(List_ [(Constant (CFloat
         0.1)); (Constant (CFloat 0.5)); (Constant (CFloat 0.8)); (Constant (CFloat 0.4))])]
         [(Some "xticklabels", (List_ [])); (Some "ylim", (Tuple [(UnaryOp USub (Constant
         (CFloat 1.2))); (Constant (CFloat 1.2))]))]);
     Assign [(Name "ax2")] (Call (Attribute (Name "fig") "add_axes") [(List_ [(Constant (CFloat
         0.1)); (Constant (CFloat 0.1)); (Constant (CFloat 0.8)); (Constant (CFloat 0.4))])]
         [(Some "ylim", (Tuple [(UnaryOp USub (Constant (CFloat 1.2))); (Constant (CFloat
         1.2))]))]);
     Assign [(Name "x")] (Call (Attribute (Name "np") "linspace") [(Constant (CInt 0));
         (Constant (CInt 10))] []);
     Expr (Call (Attribute (Name "ax1") "plot") [(Call (Attribute (Name "np") "sin") [(Name
         "x")] [])] []);
     Expr (Call (Attribute (Name "ax2") "plot") [(Call (Attribute (Name "np") "cos") [(Name
         "x")] [])] [])]);
  (* cell 9 *)
  (9%nat,
    [For (Name "i") (Call (Name "range") [(Constant (CInt 1)); (Constant (CInt 7))] []) [
     
         Expr (Call (Attribute (Name "plt") "subplot") [(Constant (CInt 2)); (Constant (CInt
         3)); (Name "i")] []);
      Expr (Call (Attribute (Name "plt") "text") [(Constant
         (CFloat 0.5)); (Constant (CFloat 0.5)); (Call (Name "str") [(Tuple [(Constant (CInt
         2)); (Constant (CInt 3)); (Name "i")])] [])] [(Some "fontsize", (Constant (CInt 18)));
         (Some "ha", (Constant (CStr "center")))])]]);
  (* cell 11 *)
  (11%nat,
    [Assign [(Name "fig")] (Call (Attribute (Name "plt") "figure") [] []);
     Expr (Call (Attribute (Name "fig") "subplots_adjust") [] [(Some "hspace", (Constant (CFloat
         0.4))); (Some "wspace", (Constant (CFloat 0.4)))]);
     For (Name "i") (Call (Name "range") [(Constant (CInt 1)); (Constant (CInt 7))] []) [
     
         Assign [(Name "ax")] (Call (Attribute (Name "fig") "add_subplot") [(Constant (CInt 2));
         (Constant (CInt 3)); (Name "i")] []);
      Expr (Call (Attribute (Name "ax") "text")
         [(Constant (CFloat 0.5)); (Constant (CFloat 0.5)); (Call (Name "str") [(Tuple
         [(Constant (CInt 2)); (Constant (CInt 3)); (Name "i")])] [])] [(Some "fontsize",
         (Constant (CInt 18))); (Some "ha", (Constant (CStr "center")))])]]);
  (* cell 14 *)
  (14%nat,
    [Assign [(Tuple [(Name "fig"); (Name "ax")])] (Call (Attribute (Name "plt") "subplots")
         [(Constant (CInt 2)); (Constant (CInt 3))] [(Some "sharex", (Constant (CStr "col")));
         (Some "sharey", (Constant (CStr "row")))])]);
  (* cell 16 *)
  (16%nat,
    [For (Name "i") (Call (Name "range") [(Constant (CInt 2))] []) [
      For (Name "j") (Call
         (Name "range") [(Constant (CInt 3))] []) [
        Expr (Call (Attribute (Subscript
         (Name "ax") (Tuple [(Name "i"); (Name "j")])) "text") [(Constant (CFloat 0.5));
         (Constant (CFloat 0.5)); (Call (Name "str") [(Tuple [(Name "i"); (Name "j")])] [])]
         [(Some "fontsize", (Constant (CInt 18))); (Some "ha", (Constant (CStr "center")))])]];
     Expr (Name "fig")]);
  (* cell 19 *)
  (19%nat,
    [Assign [(Name "grid")] (Call (Attribute (Name "plt") "GridSpec") [(Constant (CInt 2));
         (Constant (CInt 3))] [(Some "wspace", (Constant (CFloat 0.4))); (Some "hspace",
         (Constant (CFloat 0.3)))])]);
  (* cell 21 *)
  (21%nat,
    [Expr (Call (Attribute (Name "plt") "subplot") [(Subscript (Name "grid") (Tuple [(Constant
         (CInt 0)); (Constant (CInt 0))]))] []);
     Expr (Call (Attribute (Name "plt") "subplot") [(Subscript (Name "grid") (Tuple [(Constant
         (CInt 0)); (Slice (Some (Constant (CInt 1))) None)]))] []);
     Expr (Call (Attribute (Name "plt") "subplot") [(Subscript (Name "grid") (Tuple [(Constant
         (CInt 1)); (Slice None (Some (Constant (CInt 2))))]))] []);
     Expr (Call (Attribute (Name "plt") "subplot") [(Subscript (Name "grid") (Tuple [(Constant
         (CInt 1)); (Constant (CInt 2))]))] [])]);
  (* cell 23 *)
  (23%nat,
    [Assign [(Name "mean")] (List_ [(Constant (CInt 0)); (Constant (CInt 0))]);
     Assign [(Name "cov")] (List_ [(List_ [(Constant (CInt 1)); (Constant (CInt 1))]); (List_
         [(Constant (CInt 1)); (Constant (CInt 2))])]);
     Assign [(Tuple [(Name "x"); (Name "y")])] (Attribute (Call (Attribute (Attribute (Name
         "np") "random") "multivariate_normal") [(Name "mean"); (Name "cov"); (Constant (CInt
         3000))] []) "T");
     Assign [(Name "fig")] (Call (Attribute (Name "plt") "figure") [] [(Some "figsize", (Tuple
         [(Constant (CInt 6)); (Constant (CInt 6))]))]);
     Assign [(Name "grid")] (Call (Attribute (Name "plt") "GridSpec") [(Constant (CInt 4));
         (Constant (CInt 4))] [(Some "hspace", (Constant (CFloat 0.2))); (Some "wspace",
         (Constant (CFloat 0.2)))]);
     Assign [(Name "main_ax")] (Call (Attribute (Name "fig") "add_subplot") [(Subscript (Name
         "grid") (Tuple [(Slice None (Some (UnaryOp USub (Constant (CInt 1))))); (Slice (Some
         (Constant (CInt 1))) None)]))] []);
     Assign [(Name "y_hist")] (Call (Attribute (Name "fig") "add_subplot") [(Subscript (Name
         "grid") (Tuple [(Slice None (Some (UnaryOp USub (Constant (CInt 1))))); (Constant (CInt
         0))]))] [(Some "xticklabels", (List_ [])); (Some "sharey", (Name "main_ax"))]);
     Assign [(Name "x_hist")] (Call (Attribute (Name "fig") "add_subplot") [(Subscript (Name
         "grid") (Tuple [(UnaryOp USub (Constant (CInt 1))); (Slice (Some (Constant (CInt 1)))
         None)]))] [(Some "yticklabels", (List_ [])); (Some "sharex", (Name "main_ax"))]);
     Expr (Call (Attribute (Name "main_ax") "plot") [(Name "x"); (Name "y"); (Constant (CStr
         "ok"))] [(Some "markersize", (Constant (CInt 3))); (Some "alpha", (Constant (CFloat
         0.2)))]);
     Expr (Call (Attribute (Name "x_hist") "hist") [(Name "x"); (Constant (CInt 40))] [(Some
         "histtype", (Constant (CStr "stepfilled"))); (Some "orientation", (Constant (CStr
         "vertical"))); (Some "color", (Constant (CStr "gray")))]);
     Expr (Call (Attribute (Name "x_hist") "invert_yaxis") [] []);
     Expr (Call (Attribute (Name "y_hist") "hist") [(Name "y"); (Constant (CInt 40))] [(Some
         "histtype", (Constant (CStr "stepfilled"))); (Some "orientation", (Constant (CStr
         "horizontal"))); (Some "color", (Constant (CStr "gray")))]);
     Expr (Call (Attribute (Name "y_hist") "invert_xaxis") [] [])])
].

(** unnamed/part_000 (document 2): Text and Annotation *)
Definition annotation : notebook := [
  (* cell 2 *)
  (2%nat,
    [Magic "%matplotlib inline";
     Import "matplotlib.pyplot" "plt";
     Import "matplotlib" "mpl";
     Expr (Call (Attribute (Attribute (Name "plt") "style") "use") [(Constant (CStr
         "seaborn-whitegrid"))] []);
     Import "numpy" "np";
     Import "pandas" "pd"]);
  (* cell 4 *)
  (4%nat,
    [Assign [(Name "births")] (Call (Attribute (Name "pd") "read_csv") [(Constant (CStr
         "data/births.csv"))] []);
     Assign [(Name "quartiles")] (Call (Attribute (Name "np") "percentile") [(Subscript (Name
         "births") (Constant (CStr "births"))); (List_ [(Constant (CInt 25)); (Constant (CInt
         50)); (Constant (CInt 75))])] []);
     Assign [(Tuple [(Name "mu"); (Name "sig")])] (Tuple [(Subscript (Name "quartiles")
         (Constant (CInt 1))); (BinOp (Constant (CFloat 0.74)) Mult (BinOp (Subscript (Name
         "quartiles") (Constant (CInt 2))) Sub (Subscript (Name "quartiles") (Constant (CInt
         0)))))]);
     Assign [(Name "births")] (Call (Attribute (Name "births") "query") [(Constant (CStr
         "(births > @mu - 5 * @sig) & (births < @mu + 5 * @sig)"))] []);
     Assign [(Subscript (Name "births") (Constant (CStr "day")))] (Call (Attribute (Subscript
         (Name "births") (Constant (CStr "day"))) "astype") [(Name "int")] []);
     Assign [(Attribute (Name "births") "index")] (Call (Attribute (Name "pd") "to_datetime")
         [(BinOp (BinOp (BinOp (Constant (CInt 10000)) Mult (Attribute (Name "births") "year"))
         Add (BinOp (Constant (CInt 100)) Mult (Attribute (Name "births") "month"))) Add
         (Attribute (Name "births") "day"))] [(Some "format", (Constant (CStr "%Y%m%d")))]);
     Assign [(Name "births_by_date")] (Call (Attribute (Name "births") "pivot_table") [(Constant
         (CStr "births")); (List_ [(Attribute (Attribute (Name "births") "index") "month");
         (Attribute (Attribute (Name "births") "index") "day")])] []);
     Assign [(Attribute (Name "births_by_date") "index")] (ListComp (Call (Attribute (Name "pd")
         "datetime") [(Constant (CInt 2012)); (Name "month"); (Name "day")] []) (Tuple [(Name
         "month"); (Name "day")]) (Attribute (Name "births_by_date") "index"))]);
  (* cell 5 *)
  (5%nat,
    [Assign [(Tuple [(Name "fig"); (Name "ax")])] (Call (Attribute (Name "plt") "subplots") []
         [(Some "figsize", (Tuple [(Constant (CInt 12)); (Constant (CInt 4))]))]);
     Expr (Call (Attribute (Name "births_by_date") "plot") [] [(Some "ax", (Name "ax"))])]);
  (* cell 7 *)
  (7%nat,
    [Assign [(Tuple [(Name "fig"); (Name "ax")])] (Call (Attribute (Name "plt") "subplots") []
         [(Some "figsize", (Tuple [(Constant (CInt 12)); (Constant (CInt 4))]))]);
     Expr (Call (Attribute (Name "births_by_date") "plot") [] [(Some "ax", (Name "ax"))]);
     Assign [(Name "style")] (Call (Name "dict") [] [(Some "size", (Constant (CInt 10))); (Some
         "color", (Constant (CStr "gray")))]);
     Expr (Call (Attribute (Name "ax") "text") [(Constant (CStr "2012-1-1")); (Constant (CInt
         3950)); (Constant (CStr "New Year's Day"))] [(None, (Name "style"))]);
     Expr (Call (Attribute (Name "ax") "text") [(Constant (CStr "2012-7-4")); (Constant (CInt
         4250)); (Constant (CStr "Independence Day"))] [(Some "ha", (Constant (CStr "center")));
         (None, (Name "style"))]);
     Expr (Call (Attribute (Name "ax") "text") [(Constant (CStr "2012-9-4")); (Constant (CInt
         4850)); (Constant (CStr "Labor Day"))] [(Some "ha", (Constant (CStr "center"))); (None,
         (Name "style"))]);
     Expr (Call (Attribute (Name "ax") "text") [(Constant (CStr "2012-10-31")); (Constant (CInt
         4600)); (Constant (CStr "Halloween"))] [(Some "ha", (Constant (CStr "right"))); (None,
         (Name "style"))]);
     Expr (Call (Attribute (Name "ax") "text") [(Constant (CStr "2012-11-25")); (Constant (CInt
         4450)); (Constant (CStr "Thanksgiving"))] [(Some "ha", (Constant (CStr "center")));
         (None, (Name "style"))]);
     Expr (Call (Attribute (Name "ax") "text") [(Constant (CStr "2012-12-25")); (Constant (CInt
         3850)); (Constant (CStr "Christmas "))] [(Some "ha", (Constant (CStr "right"))); (None,
         (Name "style"))]);
     Expr (Call (Attribute (Name "ax") "set") [] [(Some "title", (Constant (CStr
         "USA births by day of year (1969-1988)"))); (Some "ylabel", (Constant (CStr
         "average daily births")))]);
     Expr (Call (Attribute (Attribute (Name "ax") "xaxis") "set_major_locator") [(Call
         (Attribute (Attribute (Name "mpl") "dates") "MonthLocator") [] [])] []);
     Expr (Call (Attribute (Attribute (Name "ax") "xaxis") "set_minor_locator") [(Call
         (Attribute (Attribute (Name "mpl") "dates") "MonthLocator") [] [(Some "bymonthday",
         (Constant (CInt 15)))])] []);
     Expr (Call (Attribute (Attribute (Name "ax") "xaxis") "set_major_formatter") [(Call
         (Attribute (Name "plt") "NullFormatter") [] [])] []);
     Expr (Call (Attribute (Attribute (Name "ax") "xaxis") "set_minor_formatter") [(Call
         (Attribute (Attribute (Name "mpl") "dates") "DateFormatter") [(Constant (CStr "%h"))]
         [])] [])]);
  (* cell 10 *)
  (10%nat,
    [Assign [(Tuple [(Name "fig"); (Name "ax")])] (Call (Attribute (Name "plt") "subplots") []
         [(Some "facecolor", (Constant (CStr "lightgray")))]);
     Expr (Call (Attribute (Name "ax") "axis") [(List_ [(Constant (CInt 0)); (Constant (CInt
         10)); (Constant (CInt 0)); (Constant (CInt 10))])] []);
     Expr (Call (Attribute (Name "ax") "text") [(Constant (CInt 1)); (Constant (CInt 5));
         (Constant (CStr ". Data: (1, 5)"))] [(Some "transform", (Attribute (Name "ax")
         "transData"))]);
     Expr (Call (Attribute (Name "ax") "text") [(Constant (CFloat 0.5)); (Constant (CFloat
         0.1)); (Constant (CStr ". Axes: (0.5, 0.1)"))] [(Some "transform", (Attribute (Name
         "ax") "transAxes"))]);
     Expr (Call (Attribute (Name "ax") "text") [(Constant (CFloat 0.2)); (Constant (CFloat
         0.2)); (Constant (CStr ". Figure: (0.2, 0.2)"))] [(Some "transform", (Attribute (Name
         "fig") "transFigure"))])]);
  (* cell 12 *)
  (12%nat,
    [Expr (Call (Attribute (Name "ax") "set_xlim") [(Constant (CInt 0)); (Constant (CInt 2))]
         []);
     Expr (Call (Attribute (Name "ax") "set_ylim") [(UnaryOp USub (Constant (CInt 6)));
         (Constant (CInt 6))] []);
     Expr (Name "fig")]);
  (* cell 15 *)
  (15%nat,
    [Magic "%matplotlib inline";
     Assign [(Tuple [(Name "fig"); (Name "ax")])] (Call (Attribute (Name "plt") "subplots") []
         []);
     Assign [(Name "x")] (Call (Attribute (Name "np") "linspace") [(Constant (CInt 0));
         (Constant (CInt 20)); (Constant (CInt 1000))] []);
     Expr (Call (Attribute (Name "ax") "plot") [(Name "x"); (Call (Attribute (Name "np") "cos")
         [(Name "x")] [])] []);
     Expr (Call (Attribute (Name "ax") "axis") [(Constant (CStr "equal"))] []);
     Expr (Call (Attribute (Name "ax") "annotate") [(Constant (CStr "local maximum"))] [(Some
         "xy", (Tuple [(Constant (CFloat 6.28)); (Constant (CInt 1))])); (Some "xytext", (Tuple
         [(Constant (CInt 10)); (Constant (CInt 4))])); (Some "arrowprops", (Call (Name "dict")
         [] [(Some "facecolor", (Constant (CStr "black"))); (Some "shrink", (Constant (CFloat
         0.05)))]))]);
     Expr (Call (Attribute (Name "ax") "annotate") [(Constant (CStr "local minimum"))] [(Some
         "xy", (Tuple [(BinOp (Constant (CInt 5)) Mult (Attribute (Name "np") "pi")); (UnaryOp
         USub (Constant (CInt 1)))])); (Some "xytext", (Tuple [(Constant (CInt 2)); (UnaryOp
         USub (Constant (CInt 6)))])); (Some "arrowprops", (Call (Name "dict") [] [(Some
         "arrowstyle", (Constant (CStr "->"))); (Some "connectionstyle", (Constant (CStr
         "angle3,angleA=0,angleB=-90")))]))])]);
  (* cell 17 *)
  (17%nat,
    [Assign [(Tuple [(Name "fig"); (Name "ax")])] (Call (Attribute (Name "plt") "subplots") []
         [(Some "figsize", (Tuple [(Constant (CInt 12)); (Constant (CInt 4))]))]);
     Expr (Call (Attribute (Name "births_by_date") "plot") [] [(Some "ax", (Name "ax"))]);
     Expr (Call (Attribute (Name "ax") "annotate") [(Constant (CStr "New Year's Day"))] [(Some
         "xy", (Tuple [(Constant (CStr "2012-1-1")); (Constant (CInt 4100))])); (Some
         "xycoords", (Constant (CStr "data"))); (Some "xytext", (Tuple [(Constant (CInt 50));
         (UnaryOp USub (Constant (CInt 30)))])); (Some "textcoords", (Constant (CStr
         "offset points"))); (Some "arrowprops", (Call (Name "dict") [] [(Some "arrowstyle",
         (Constant (CStr "->"))); (Some "connectionstyle", (Constant (CStr
         "arc3,rad=-0.2")))]))]);
     Expr (Call (Attribute (Name "ax") "annotate") [(Constant (CStr "Independence Day"))] [(Some
         "xy", (Tuple [(Constant (CStr "2012-7-4")); (Constant (CInt 4250))])); (Some
         "xycoords", (Constant (CStr "data"))); (Some "bbox", (Call (Name "dict") [] [(Some
         "boxstyle", (Constant (CStr "round"))); (Some "fc", (Constant (CStr "none"))); (Some
         "ec", (Constant (CStr "gray")))])); (Some "xytext", (Tuple [(Constant (CInt 10));
         (UnaryOp USub (Constant (CInt 40)))])); (Some "textcoords", (Constant (CStr
         "offset points"))); (Some "ha", (Constant (CStr "center"))); (Some "arrowprops", (Call
         (Name "dict") [] [(Some "arrowstyle", (Constant (CStr "->")))]))]);
     Expr (Call (Attribute (Name "ax") "annotate") [(Constant (CStr "Labor Day"))] [(Some "xy",
         (Tuple [(Constant (CStr "2012-9-4")); (Constant (CInt 4850))])); (Some "xycoords",
         (Constant (CStr "data"))); (Some "ha", (Constant (CStr "center"))); (Some "xytext",
         (Tuple [(Constant (CInt 0)); (UnaryOp USub (Constant (CInt 20)))])); (Some
         "textcoords", (Constant (CStr "offset points")))]);
     Expr (Call (Attribute (Name "ax") "annotate") [(Constant (CStr EmptyString))] [(Some "xy",
         (Tuple [(Constant (CStr "2012-9-1")); (Constant (CInt 4850))])); (Some "xytext", (Tuple
         [(Constant (CStr "2012-9-7")); (Constant (CInt 4850))])); (Some "xycoords", (Constant
         (CStr "data"))); (Some "textcoords", (Constant (CStr "data"))); (Some "arrowprops",
         (Dict [(Constant (CStr "arrowstyle"))] [(Constant (CStr
         "|-|,widthA=0.2,widthB=0.2"))]))]);
     Expr (Call (Attribute (Name "ax") "annotate") [(Constant (CStr "Halloween"))] [(Some "xy",
         (Tuple [(Constant (CStr "2012-10-31")); (Constant (CInt 4600))])); (Some "xycoords",
         (Constant (CStr "data"))); (Some "xytext", (Tuple [(UnaryOp USub (Constant (CInt 80)));
         (UnaryOp USub (Constant (CInt 40)))])); (Some "textcoords", (Constant (CStr
         "offset points"))); (Some "arrowprops", (Call (Name "dict") [] [(Some "arrowstyle",
         (Constant (CStr "fancy"))); (Some "fc", (Constant (CStr "0.6"))); (Some "ec", (Constant
         (CStr "none"))); (Some "connectionstyle", (Constant (CStr
         "angle3,angleA=0,angleB=-90")))]))]);
     Expr (Call (Attribute (Name "ax") "annotate") [(Constant (CStr "Thanksgiving"))] [(Some
         "xy", (Tuple [(Constant (CStr "2012-11-25")); (Constant (CInt 4500))])); (Some
         "xycoords", (Constant (CStr "data"))); (Some "xytext", (Tuple [(UnaryOp USub (Constant
         (CInt 120))); (UnaryOp USub (Constant (CInt 60)))])); (Some "textcoords", (Constant
         (CStr "offset points"))); (Some "bbox", (Call (Name "dict") [] [(Some "boxstyle",
         (Constant (CStr "round4,pad=.5"))); (Some "fc", (Constant (CStr "0.9")))])); (Some
         "arrowprops", (Call (Name "dict") [] [(Some "arrowstyle", (Constant (CStr "->")));
         (Some "connectionstyle", (Constant (CStr "angle,angleA=0,angleB=80,rad=20")))]))]);
     Expr (Call (Attribute (Name "ax") "annotate") [(Constant (CStr "Christmas"))] [(Some "xy",
         (Tuple [(Constant (CStr "2012-12-25")); (Constant (CInt 3850))])); (Some "xycoords",
         (Constant (CStr "data"))); (Some "xytext", (Tuple [(UnaryOp USub (Constant (CInt 30)));
         (Constant (CInt 0))])); (Some "textcoords", (Constant (CStr "offset points"))); (Some
         "size", (Constant (CInt 13))); (Some "ha", (Constant (CStr "right"))); (Some "va",
         (Constant (CStr "center"))); (Some "bbox", (Call (Name "dict") [] [(Some "boxstyle",
         (Constant (CStr "round"))); (Some "alpha", (Constant (CFloat 0.1)))])); (Some
         "arrowprops", (Call (Name "dict") [] [(Some "arrowstyle", (Constant (CStr
         "wedge,tail_width=0.5"))); (Some "alpha", (Constant (CFloat 0.1)))]))]);
     Expr (Call (Attribute (Name "ax") "set") [] [(Some "title", (Constant (CStr
         "USA births by day of year (1969-1988)"))); (Some "ylabel", (Constant (CStr
         "average daily births")))]);
     Expr (Call (Attribute (Attribute (Name "ax") "xaxis") "set_major_locator") [(Call
         (Attribute (Attribute (Name "mpl") "dates") "MonthLocator") [] [])] []);
     Expr (Call (Attribute (Attribute (Name "ax") "xaxis") "set_minor_locator") [(Call
         (Attribute (Attribute (Name "mpl") "dates") "MonthLocator") [] [(Some "bymonthday",
         (Constant (CInt 15)))])] []);
     Expr (Call (Attribute (Attribute (Name "ax") "xaxis") "set_major_formatter") [(Call
         (Attribute (Name "plt") "NullFormatter") [] [])] []);
     Expr (Call (Attribute (Attribute (Name "ax") "xaxis") "set_minor_formatter") [(Call
         (Attribute (Attribute (Name "mpl") "dates") "DateFormatter") [(Constant (CStr "%h"))]
         [])] []);
     Expr (Call (Attribute (Name "ax") "set_ylim") [(Constant (CInt 3600)); (Constant (CInt
         5400))] [])])
].

(** unnamed/part_001: Visualizing Errors *)
Definition errorbars : notebook := [
  (* cell 3 *)
  (3%nat,
    [Magic "%matplotlib inline";
     Import "matplotlib.pyplot" "plt";
     Expr (Call (Attribute (Attribute (Name "plt") "style") "use") [(Constant (CStr
         "seaborn-whitegrid"))] []);
     Import "numpy" "np"]);
  (* cell 4 *)
  (4%nat,
    [Assign [(Name "x")] (Call (Attribute (Name "np") "linspace") [(Constant (CInt 0));
         (Constant (CInt 10)); (Constant (CInt 50))] []);
     Assign [(Name "dy")] (Constant (CFloat 0.8));
     Assign [(Name "y")] (BinOp (Call (Attribute (Name "np") "sin") [(Name "x")] []) Add (BinOp
         (Name "dy") Mult (Call (Attribute (Attribute (Name "np") "random") "randn") [(Constant
         (CInt 50))] [])));
     Expr (Call (Attribute (Name "plt") "errorbar") [(Name "x"); (Name "y")] [(Some "yerr",
         (Name "dy")); (Some "fmt", (Constant (CStr ".k")))])]);
  (* cell 6 *)
  (6%nat,
    [Expr (Call (Attribute (Name "plt") "errorbar") [(Name "x"); (Name "y")] [(Some "yerr",
         (Name "dy")); (Some "fmt", (Constant (CStr "o"))); (Some "color", (Constant (CStr
         "black"))); (Some "ecolor", (Constant (CStr "lightgray"))); (Some "elinewidth",
         (Constant (CInt 3))); (Some "capsize", (Constant (CInt 0)))])]);
  (* cell 9 *)
  (9%nat,
    [ImportFrom "sklearn.gaussian_process" "GaussianProcessRegressor";
     Assign [(Name "model")] (Lambda ["x"] (BinOp (Name "x") Mult (Call (Attribute (Name "np")
         "sin") [(Name "x")] [])));
     Assign [(Name "xdata")] (Call (Attribute (Name "np") "array") [(List_ [(Constant (CInt 1));
         (Constant (CInt 3)); (Constant (CInt 5)); (Constant (CInt 6)); (Constant (CInt 8))])]
         []);
     Assign [(Name "ydata")] (Call (Name "model") [(Name "xdata")] []);
     Assign [(Name "gp")] (Call (Name "GaussianProcessRegressor") [] [(Some "alpha", (Constant
         (CInt 0))); (Some "optimizer", (Constant (CNone))); (Some "normalize_y", (Constant
         (CBool true)))]);
     Expr (Call (Attribute (Name "gp") "fit") [(Subscript (Name "xdata") (Tuple [(Slice None
         None); (Attribute (Name "np") "newaxis")])); (Name "ydata")] []);
     Assign [(Name "xfit")] (Call (Attribute (Name "np") "linspace") [(Constant (CInt 0));
         (Constant (CInt 10)); (Constant (CInt 1000))] []);
     Assign [(Tuple [(Name "yfit"); (Name "MSE")])] (Call (Attribute (Name "gp") "predict")
         [(Subscript (Name "xfit") (Tuple [(Slice None None); (Attribute (Name "np")
         "newaxis")]))] [(Some "return_std", (Constant (CBool true)))]);
     Assign [(Name "dyfit")] (BinOp (Constant (CInt 2)) Mult (Call (Attribute (Name "np")
         "sqrt") [(Name "MSE")] []))]);
  (* cell 11 *)
  (11%nat,
    [Expr (Call (Attribute (Name "plt") "plot") [(Name "xdata"); (Name "ydata"); (Constant (CStr
         "or"))] []);
     Expr (Call (Attribute (Name "plt") "plot") [(Name "xfit"); (Name "yfit"); (Constant (CStr
         "-"))] [(Some "color", (Constant (CStr "gray")))]);
     Expr (Call (Attribute (Name "plt") "fill_between") [(Name "xfit"); (BinOp (Name "yfit") Sub
         (Name "dyfit")); (BinOp (Name "yfit") Add (Name "dyfit"))] [(Some "color", (Constant
         (CStr "gray"))); (Some "alpha", (Constant (CFloat 0.2)))]);
     Expr (Call (Attribute (Name "plt") "xlim") [(Constant (CInt 0)); (Constant (CInt 10))] [])])
].


(** The notebooks, by source file. *)
Definition notebooks : list (string * notebook) :=
  [("04.00-Introduction-To-Matplotlib.ipynb", introduction);
   ("04.02-Simple-Scatter-Plots.ipynb", scatter_plots);
   ("04.04-Density-and-Contour-Plots.ipynb", contour_plots);
   ("04.05-Histograms-and-Binnings.ipynb", histograms);
   ("04.06-Customizing-Legends.ipynb", legends);
   ("04.07-Customizing-Colorbars.ipynb", colorbars);
   ("unnamed/part_000 (document 1)", subplots);
   ("unnamed/part_000 (document 2)", annotation);
   ("unnamed/part_001", errorbars)].

(** The cell of a notebook at a position of the source file. *)
Definition cell_at (nb : notebook) (i : nat) : list stmt :=
  match List.find (fun c : cell => (fst c =? i)%nat) nb with
  | Some c => snd c
  | None => []
  end.




(** A run for examples: object contents are numbers, the [i]-th outside
    operation returns [i], except the operation [bad], which raises; every
    loop runs its body once. *)
Definition lib_failing_at (bad : nat) (i : nat) : @outcome nat string :=
  if (i =? bad)%nat then Raises "ValueError" else Returns i.

Definition run (bad : nat) (nb : notebook) : list (@result nat string) :=
  run_cells 0%nat (fun _ => 1%nat) (fun _ => true) (lib_failing_at bad) nb empty_kernel.









(** Cells that no notebook has, to read the analysis on: a method that
    sorts in place, a function that shuffles its argument, an assignment
    through a view, a ufunc with an [out] array, an assignment through a
    name bound to a view, an assignment into an array held by a dict, and
    one into an array held by a list. *)
Definition in_place_cells : list cell :=
  [(1%nat, [Expr (Call (Attribute (Name "data") "sort") [] [])]);
   (2%nat, [Expr (Call (Attribute (Attribute (Name "np") "random") "shuffle") [Name "I"] [])]);
   (3%nat, [Assign [Subscript (Call (Attribute (Name "X") "ravel") [] []) (Constant (CInt 0))]
              (Constant (CInt 1))]);
   (4%nat, [Expr (Call (Attribute (Name "np") "sin") [Name "x"] [(Some "out", Name "x")])]);
   (5%nat, [Assign [Name "y"] (Call (Attribute (Name "X") "ravel") [] []);
            Assign [Subscript (Name "y") (Constant (CInt 0))] (Constant (CInt 1))]);
   (6%nat, [Assign [Name "d"] (Call (Name "dict") [] [(Some "a", Name "I")]);
            Assign [Subscript (Subscript (Name "d") (Constant (CStr "a"))) (Constant (CInt 0))]
              (Constant (CInt 1))]);
   (7%nat, [Assign [Name "rows"] (List_ [Name "I"; Name "J"]);
            Assign [Subscript (Subscript (Name "rows") (Constant (CInt 0))) (Constant (CInt 0))]
              (Constant (CInt 1))])].

End Notebooks.

(* ================================================================== *)
(** * The cells that compute                                           *)
(* ================================================================== *)

(** ** 04.07-Customizing-Colorbars.ipynb *)
Module Colorbars.

Import mpl.
Local Open Scope R_scope.

(** [np.dot(v, w)] of two vectors. *)
Definition dot (v w : list R) : R := fold_right Rplus 0 (zip_with Rmult v w).

Definition RGB_weight : list R := [0.299; 0.587; 0.114].

(** One row of [np.sqrt(np.dot(colors[:, :3] ** 2, RGB_weight))], in the
    arithmetic of the reals; [binary64.luminance] is the same row in the
    doubles of the source. *)
Definition luminance (c : rgba) : R :=
  sqrt (dot (map (fun v => v ^ 2) [red c; green c; blue c]) RGB_weight).

(** [grayscale_cmap(cmap)]:
<<
    cmap = plt.cm.get_cmap(cmap)
    colors = cmap(np.arange(cmap.N))
    RGB_weight = [0.299, 0.587, 0.114]
    luminance = np.sqrt(np.dot(colors[:, :3] ** 2, RGB_weight))
    colors[:, :3] = luminance[:, np.newaxis]
    return LinearSegmentedColormap.from_list(cmap.name + "_gray", colors, cmap.N)
>> *)
Definition grayscale_cmap (registry : gmap string Colormap) (cmap : cmap_arg)
    : option Colormap :=
  match get_cmap registry cmap with
  | None => None
  | Some cmap =>
      match call_arange cmap with
      | None => None
      | Some colors =>
          let lum := map luminance colors in
          let colors := zip_with (fun c l => RGBA l l l (alpha c)) colors lum in
          from_list (name cmap +:+ "_gray") colors (N cmap)
      end
  end.

(** [view_colormap(cmap)], down to the two one-row images it shows:
<<
    cmap = plt.cm.get_cmap(cmap)
    colors = cmap(np.arange(cmap.N))
    cmap = grayscale_cmap(cmap)
    grayscale = cmap(np.arange(cmap.N))
>> *)
Definition view_colormap (registry : gmap string Colormap) (cmap : cmap_arg)
    : option (list rgba * list rgba) :=
  match get_cmap registry cmap with
  | None => None
  | Some cmap =>
      match call_arange cmap with
      | None => None
      | Some colors =>
          match grayscale_cmap registry (ByObject cmap) with
          | None => None
          | Some cmap =>
              match call_arange cmap with
              | None => None
              | Some grayscale => Some (colors, grayscale)
              end
          end
      end
  end.

(** Two colormaps to run the functions on: one of two colours, blue and
    orange, and one of a single colour, red (as [ListedColormap(['red'])]
    is). *)
Definition two_tone : Colormap :=
  {| name := "two_tone"; N := 2; _init := Some [RGBA 0 0 1 1; RGBA 1 (1 / 2) 0 1] |}.

Definition single_red : Colormap :=
  {| name := "single"; N := 1; _init := Some [RGBA 1 0 0 1] |}.

(** Cell 21, its two lines on [I] (bound by cell 5):
<<
    speckles = (np.random.random(I.shape) < 0.01)
    I[speckles] = np.random.normal(0, 3, np.count_nonzero(speckles))
>>
    [uniform] is the array that [np.random.random(I.shape)] returned and
    [normal n] the [n] draws of [np.random.normal(0, 3, n)]; the result is
    the content of [I] after the cell. *)
Definition cell_21 (uniform : list (list Q)) (normal : nat -> list Q) (I : list (list Q))
    : list (list Q) :=
  let speckles := map (map (fun u => np.Qltb u 0.01)) uniform in
  np.setitem_mask2 I speckles (normal (list_sum (map np.count_nonzero speckles))).

Section Image.

(** The arrays' scalar type with the operations behind the cell's ufuncs. *)
Context {T : Type}.
Variables (sin cos : T -> T) (multiply : T -> T -> T).

(** Cell 5, the array it shows:
<<
    I = np.sin(x) * np.cos(x[:, np.newaxis])
>> *)
Definition image (x : list T) : list (list T) :=
  np.broadcast_row_column multiply (map sin x) (map cos x).

(** Cell 5 with [x = np.linspace(0, 10, 1000)]. *)
Definition cell_5 (of_Q : Q -> T) : list (list T) :=
  image (map of_Q (np.linspace 0 10 1000)).

End Image.

End Colorbars.

(** ** 04.07-Customizing-Colorbars.ipynb, in binary64 *)

(** The same functions over IEEE 754 binary64 numbers, the arithmetic in
    which the cells run: every operation rounds to nearest.  The colormap
    and the library functions are those of [mpl], the cell's those of
    [Colorbars], with the operations of the reals replaced by those of
    binary64. *)
Module binary64.

Local Open Scope float_scope.

Record rgba := RGBA { red : float; green : float; blue : float; alpha : float }.

Record Colormap := { name : string; N : nat; _init : option (list rgba) }.

Definition of_nat (n : nat) : float := PrimFloat.of_uint63 (Uint63.of_Z (Z.of_nat n)).

Definition black : rgba := RGBA 0 0 0 0.

(** Modelled from the spec: [cmap(np.arange(cmap.N))] of the external
    plotting library, as [mpl.call_arange]. *)
Definition call_arange (cmap : Colormap) : option (list rgba) :=
  match _init cmap with
  | Some lut => Some (map (fun i => nth i lut black) (seq 0 (N cmap)))
  | None => None
  end.

(** Modelled from the spec: [np.linspace(0, 1, num)] of the external array
    library: [arange(0, num) * step + start] with [step = 1 / (num - 1)], the
    last entry set to the stop value. *)
Definition linspace01 (num : nat) : list float :=
  match num with
  | O => []
  | S O => [0]
  | S (S _ as div) => map (fun i => of_nat i * (1 / of_nat div) + 0) (seq 0 div) ++ [1]
  end.

Fixpoint diff (x : list float) : list float :=
  match x with
  | a :: (b :: _) as x' => (b - a) :: diff x'
  | _ => []
  end.

Fixpoint searchsorted (x : list float) (v : float) : nat :=
  match x with
  | [] => O
  | a :: x' => if a <? v then S (searchsorted x' v) else O
  end.

(** [np.clip(v, 0, 1)]: [minimum(maximum(v, 0), 1)]. *)
Definition clip01 (v : float) : float :=
  let m := if v <? 0 then 0 else v in
  if 1 <? m then 1 else m.

(** Modelled from the spec: [_create_lookup_table(N, data)] of the external
    plotting library, as [mpl.create_lookup_table]. *)
Definition create_lookup_table (N : nat) (x y : list float) : option (list float) :=
  match x with
  | [] => None
  | x0 :: _ =>
      if x0 =? 0 then
        if List.last x 0 =? 1 then
          if existsb (fun d => d <? 0) (diff x) then None
          else
            match N with
            | O => None
            | S O => Some [clip01 (List.last y 0)]
            | S (S inner as N1) =>
                let xs := map (fun a => a * of_nat N1) x in
                let entry (i : nat) :=
                  let xind := of_nat N1 * nth i (linspace01 N) 0 in
                  let ind := searchsorted xs xind in
                  let distance := (xind - nth (ind - 1) xs 0) / (nth ind xs 0 - nth (ind - 1) xs 0) in
                  distance * (nth ind y 0 - nth (ind - 1) y 0) + nth (ind - 1) y 0 in
                Some (map clip01 ([nth 0 y 0] ++ map entry (seq 1 inner) ++ [List.last y 0]))
            end
        else None
      else None
  end.

Definition to_rgba_array (colors : list rgba) : option (list rgba) :=
  if existsb (fun c => existsb (fun v => (v <? 0) || (1 <? v))
                         [red c; green c; blue c; alpha c]) colors
  then None else Some colors.

(** Modelled from the spec: [LinearSegmentedColormap.from_list(name, colors, N)]
    of the external plotting library, as [mpl.from_list]. *)
Definition from_list (name : string) (colors : list rgba) (N : nat) : option Colormap :=
  match colors with
  | [] => None
  | _ :: _ =>
      let vals := linspace01 (length colors) in
      match to_rgba_array colors with
      | None => None
      | Some colors =>
          Some {| name := name; N := N;
                  _init :=
                    match create_lookup_table N vals (map red colors),
                          create_lookup_table N vals (map green colors),
                          create_lookup_table N vals (map blue colors),
                          create_lookup_table N vals (map alpha colors) with
                    | Some r, Some g, Some b, Some a =>
                        Some (zip_with (fun rg ba => RGBA (fst rg) (snd rg) (fst ba) (snd ba))
                                (zip r g) (zip b a))
                    | _, _, _, _ => None
                    end |}
      end
  end.

(** Modelled from the spec: [np.dot(v, w)] of the external array library on
    two vectors, the products summed from left to right. *)
Definition dot (v w : list float) : float :=
  fold_left (fun acc p => acc + p) (zip_with (fun a b => a * b) v w) 0.

Definition RGB_weight : list float := [0.299; 0.587; 0.114].

(** One row of [np.sqrt(np.dot(colors[:, :3] ** 2, RGB_weight))]. *)
Definition luminance (c : rgba) : float :=
  PrimFloat.sqrt (dot (map (fun v => v * v) [red c; green c; blue c]) RGB_weight).

(** [grayscale_cmap(cmap)] on a colormap object, as [Colorbars.grayscale_cmap]. *)
Definition grayscale_cmap (cmap : Colormap) : option Colormap :=
  match call_arange cmap with
  | None => None
  | Some colors =>
      let lum := map luminance colors in
      let colors := zip_with (fun c l => RGBA l l l (alpha c)) colors lum in
      from_list (name cmap +:+ "_gray") colors (N cmap)
  end.

(** The rows of a colormap as numbers that can be compared: [None] when the
    lookup raises. *)
Definition same (a b : rgba) : bool :=
  (red a =? red b) && (green a =? green b) && (blue a =? blue b) && (alpha a =? alpha b).



End binary64.

(** ** 04.04-Density-and-Contour-Plots.ipynb *)
Module Contour.

Section Scalars.

(** The arrays' scalar type with the scalar operations behind the ufuncs and
    operators the cells use (IEEE doubles in the notebook; any type here). *)
Context {T : Type}.
Variables (sin cos : T -> T) (power : T -> Z -> T) (add multiply : T -> T -> T).
Variables (of_int : Z -> T) (of_Q : Q -> T).

(** Cell 5:
<<
    def f(x, y):
        return np.sin(x) ** 10 + np.cos(10 + y * x) * np.cos(x)
>>
    on two arrays of one shape. *)
Definition f (x y : list (list T)) : list (list T) :=
  np.ufunc2 add
    (np.ufunc1 (fun v => power v 10) (np.ufunc1 sin x))
    (np.ufunc2 multiply
       (np.ufunc1 cos (np.ufunc1 (add (of_int 10)) (np.ufunc2 multiply y x)))
       (np.ufunc1 cos x)).

(** Cell 7, after its two [linspace] lines:
<<
    X, Y = np.meshgrid(x, y)
    Z = f(X, Y)
>> *)
Definition grid (x y : list T) : list (list T) * list (list T) * list (list T) :=
  let '(X, Y) := np.meshgrid x y in
  let Z := f X Y in
  (X, Y, Z).

(** Cell 7 with [x = np.linspace(0, 5, 50)] and [y = np.linspace(0, 5, 40)]. *)
Definition cell_7 : list (list T) * list (list T) * list (list T) :=
  let x := map of_Q (np.linspace 0 5 50) in
  let y := map of_Q (np.linspace 0 5 40) in
  grid x y.

End Scalars.

End Contour.

(** ** 04.05-Histograms-and-Binnings.ipynb *)
Module Histograms.

(** Cell 9: [counts, bin_edges = np.histogram(data, bins=5)], for the array
    [data] bound by cell 2. *)
Definition cell_9 (data : list Q) : option (list nat * list Q) :=
  np.histogram data 5.

Section Density.

Context {T : Type}.

(** Modelled from the spec: [gaussian_kde] belongs to an external library.
    The fitted estimator is a density [pdf] of two coordinates;
    [kde.evaluate(points)] takes an array of two rows, one point a column,
    and returns the density at each point (ValueError for an array that has
    not the two rows of the fitted data). *)
Variable pdf : T -> T -> T.

Definition evaluate (points : list (list T)) : option (list T) :=
  match points with
  | [xs; ys] => Some (zip_with pdf xs ys)
  | _ => None
  end.

(** Cell 21, from the two grids down to the image it shows:
<<
    Xgrid, Ygrid = np.meshgrid(xgrid, ygrid)
    Z = kde.evaluate(np.vstack([Xgrid.ravel(), Ygrid.ravel()]))
    plt.imshow(Z.reshape(Xgrid.shape), ...)
>> *)
Definition cell_21 (xgrid ygrid : list T) : option (list (list T)) :=
  let '(Xgrid, Ygrid) := np.meshgrid xgrid ygrid in
  match np.vstack2 (np.ravel Xgrid) (np.ravel Ygrid) with
  | None => None
  | Some points =>
      match evaluate points with
      | None => None
      | Some Z => np.reshape Z (np.shape Xgrid)
      end
  end.

End Density.

End Histograms.

(** ** The subplots notebook (first document of unnamed/part_000) *)
Module Subplots.

(** An axes rectangle [[left, bottom, width, height]] in figure coordinates. *)
Record rect := Rect { left : Q; bottom : Q; width : Q; height : Q }.

(** Cell 4: [ax2 = plt.axes([0.65, 0.65, 0.2, 0.2])]. *)
Definition cell_4_ax2 : rect := Rect 0.65 0.65 0.2 0.2.

(** Cell 6: [ax1 = fig.add_axes([0.1, 0.5, 0.8, 0.4], ...)] and
    [ax2 = fig.add_axes([0.1, 0.1, 0.8, 0.4], ...)]. *)
Definition cell_6_ax1 : rect := Rect 0.1 0.5 0.8 0.4.
Definition cell_6_ax2 : rect := Rect 0.1 0.1 0.8 0.4.

(** The rectangle that a list of four float literals denotes. *)
Definition rect_of (e : Py.expr) : option rect :=
  match e with
  | Py.List_ [Py.Constant (Py.CFloat a); Py.Constant (Py.CFloat b);
              Py.Constant (Py.CFloat c); Py.Constant (Py.CFloat d)] => Some (Rect a b c d)
  | _ => None
  end.

(** The rectangle of a statement [name = ....axes([...])] or
    [name = ....add_axes([...], ...)]. *)
Definition axes_rect (s : Py.stmt) : list rect :=
  match s with
  | Py.Assign _ (Py.Call (Py.Attribute _ method) (arg :: _) _) =>
      if String.eqb method "axes" || String.eqb method "add_axes"
      then option_list (rect_of arg) else []
  | _ => []
  end.

(** The rectangles the notebook passes as literal coordinates, in order. *)
Definition rectangles : list rect :=
  flat_map (fun c : Py.cell => flat_map axes_rect (snd c)) Notebooks.subplots.

Definition top (r : rect) : Q := (bottom r + height r)%Q.
Definition right (r : rect) : Q := (left r + width r)%Q.

(** The rectangle lies in the unit square of figure coordinates. *)
Definition within_figure (r : rect) : Prop :=
  (0 <= left r /\ 0 <= bottom r /\ 0 <= width r /\ 0 <= height r /\
   right r <= 1 /\ top r <= 1)%Q.

End Subplots.

(** ** The text-and-annotation notebook (second document of unnamed/part_000) *)
Module Annotation.

(** A row of [data/births.csv]; [day] is missing in some rows. *)
Record row := Row { year : Z; month : Z; day : option Q; gender : string; births : Q }.

(** A table as [pd.read_csv] returns it: the rows in file order. *)
Definition table := list row.

(** [births['births']]: the column as an array. *)
Definition births_column (t : table) : list Q := map births t.

(** [mu, sig = quartiles[1], 0.74 * (quartiles[2] - quartiles[0])]. *)
Definition mu_sig (quartiles : list Q) : Q * Q :=
  (np.getitem quartiles 1, (0.74 * (np.getitem quartiles 2 - np.getitem quartiles 0))%Q).

(** [births.query('(births > @mu - 5 * @sig) & (births < @mu + 5 * @sig)')]:
    the rows for which the cell's expression holds, in order.
    Modelled from the spec: [DataFrame.query] belongs to the external table
    library, which is not among the sources; it selects the rows for which
    its expression holds and returns them in a new table. *)
Definition query (mu sig : Q) (t : table) : table :=
  List.filter (fun r => np.Qltb (mu - 5 * sig) (births r) && np.Qltb (births r) (mu + 5 * sig)) t.

(** Cell 4, from the table read from the file down to the [query] line:
<<
    quartiles = np.percentile(births['births'], [25, 50, 75])
    mu, sig = quartiles[1], 0.74 * (quartiles[2] - quartiles[0])
    births = births.query('(births > @mu - 5 * @sig) & (births < @mu + 5 * @sig)')
>>
    [None] when [np.percentile] raises. *)
Definition clean (t : table) : option (Q * Q * table) :=
  match np.percentile (births_column t) [25; 50; 75]%Q with
  | None => None
  | Some quartiles =>
      let '(mu, sig) := mu_sig quartiles in
      Some (mu, sig, query mu sig t)
  end.

(** Modelled from the spec: the arithmetic of the external array library on
    int64 columns wraps around at 64 bits. *)
Definition wrap64 (z : Z) : Z := ((z + 2 ^ 63) mod 2 ^ 64 - 2 ^ 63)%Z.
Definition add64 (a b : Z) : Z := wrap64 (a + b).
Definition mul64 (a b : Z) : Z := wrap64 (a * b).

(** The integer that cell 4 gives [pd.to_datetime(..., format='%Y%m%d')]
    for one row, the columns being int64 after [astype(int)]:
<<
    10000 * births.year + 100 * births.month + births.day
>> *)
Definition date_key (year month day : Z) : Z :=
  add64 (add64 (mul64 10000 year) (mul64 100 month)) day.

(** Cell 15, over reals: the curve of [ax.plot(x, np.cos(x))] for
    [x = np.linspace(0, 20, 1000)], and the points [xy] of its two
    annotations:
<<
    ax.annotate('local maximum', xy=(6.28, 1), xytext=(10, 4), ...)
    ax.annotate('local minimum', xy=(5 * np.pi, -1), xytext=(2, -6), ...)
>> *)
Definition curve (x : R) : R := cos x.
Definition plotted_range : R * R := (0, 20)%R.
Definition local_maximum : R * R := (6.28, 1)%R.
Definition local_minimum : R * R := (5 * PI, -1)%R.

End Annotation.

(** ** 04.02-Simple-Scatter-Plots.ipynb *)
Module Scatter.

Section Generator.

(** The random generator of the array library: the type of its state, the
    constructor [np.random.RandomState(seed)] and the two draws the cells
    use, each returning the drawn array and the advanced state. *)
Context {T rng : Type}.
Variable RandomState : Z -> rng.
Variables rand randn : rng -> nat -> list T * rng.
Variable times : Z -> T -> T.

(** What a name of the kernel's namespace can hold. *)
Inductive value :=
| Array (a : list T)
| Generator (g : rng)
| Opaque (tag : string).

(** A drawing call received by the plotting library. *)
Inductive artist :=
| Line (x y : list T) (fmt : string)
| Points (x y c s : list T).

(** The kernel between two cells: the user namespace, the global generator
    behind [np.random.*], and what the current figure holds. *)
Record kernel := Kernel {
  user_ns : gmap string value;
  global_random_state : rng;
  figure : list artist
}.

Definition bind (name : string) (v : value) (k : kernel) : kernel :=
  Kernel (<[name := v]> (user_ns k)) (global_random_state k) (figure k).

Definition draw (a : artist) (k : kernel) : kernel :=
  Kernel (user_ns k) (global_random_state k) (figure k ++ [a]).

Definition markers : list string :=
  ["o"; "."; ","; "x"; "+"; "v"; "^"; "<"; ">"; "s"; "d"].

(** Cell 6:
<<
    rng = np.random.RandomState(0)
    for marker in ['o', '.', ',', 'x', '+', 'v', '^', '<', '>', 's', 'd']:
        plt.plot(rng.rand(5), rng.rand(5), marker, label=...)
>>
    The generator object is mutated by each draw; the loop threads its state. *)
Definition cell_6 (k : kernel) : kernel :=
  let g0 := RandomState 0 in
  let '(k, g) :=
    fold_left
      (fun '(k, g) marker =>
         let '(xs, g) := rand g 5 in
         let '(ys, g) := rand g 5 in
         (bind "marker" (Opaque marker) (draw (Line xs ys marker) k), g))
      markers (k, g0) in
  bind "rng" (Generator g) k.

(** Cell 15:
<<
    rng = np.random.RandomState(0)
    x = rng.randn(100)
    y = rng.randn(100)
    colors = rng.rand(100)
    sizes = 1000 * rng.rand(100)
    plt.scatter(x, y, c=colors, s=sizes, alpha=0.3, cmap='viridis')
>> *)
Definition cell_15 (k : kernel) : kernel :=
  let g := RandomState 0 in
  let '(x, g) := randn g 100 in
  let '(y, g) := randn g 100 in
  let '(colors, g) := rand g 100 in
  let '(r, g) := rand g 100 in
  let sizes := map (times 1000) r in
  draw (Points x y colors sizes)
    (bind "sizes" (Array sizes) (bind "colors" (Array colors)
       (bind "y" (Array y) (bind "x" (Array x) (bind "rng" (Generator g) k))))).

(** The artists a cell added to the figure it found. *)
Definition drawn (before after : kernel) : list artist :=
  drop (length (figure before)) (figure after).

End Generator.

End Scatter.

(** ** unnamed/part_001: visualizing errors *)
Module Errorbars.

Section Scalars.

Context {T : Type}.
Variables (sin : T -> T) (multiply : T -> T -> T) (of_int : Z -> T).

(** Cell 9: [model = lambda x: x * np.sin(x)], on an array. *)
Definition model (x : list T) : list T := zip_with multiply x (map sin x).

(** [xdata = np.array([1, 3, 5, 6, 8])] and [ydata = model(xdata)]. *)
Definition xdata : list T := map of_int [1; 3; 5; 6; 8]%Z.
Definition ydata : list T := model xdata.

End Scalars.

End Errorbars.

(** ** Built-in operations of the language that the cells use *)
Module python.

(** [range(start, stop)]. *)
Definition range (start stop : Z) : list Z :=
  map (fun i => (start + Z.of_nat i)%Z) (seq 0 (Z.to_nat (stop - start))).

(** [l[i]] on a list: a negative index counts from the end; [None] is
    IndexError. *)
Definition getitem {T : Type} (l : list T) (i : Z) : option T :=
  let n := Z.of_nat (length l) in
  let i := if (i <? 0)%Z then (n + i)%Z else i in
  if ((0 <=? i)%Z && (i <? n)%Z)%bool then l !! Z.to_nat i else None.

(** A bound of a slice, as [slice.indices] reads it for a sequence of [n]
    items with step 1: a negative bound counts from the end, and the bound
    is clipped to [0, n]. *)
Definition slice_bound (n default : Z) (bound : option Z) : Z :=
  match bound with
  | None => default
  | Some i => let i := if (i <? 0)%Z then (n + i)%Z else i in Z.max 0 (Z.min n i)
  end.

(** [l[lower:upper]]: never an error. *)
Definition getslice {T : Type} (l : list T) (lower upper : option Z) : list T :=
  let n := Z.of_nat (length l) in
  let lo := slice_bound n 0 lower in
  let hi := slice_bound n n upper in
  take (Z.to_nat (hi - lo)) (drop (Z.to_nat lo) l).

End python.

(** ** 04.06-Customizing-Legends.ipynb *)
Module Legends.

Section Scalars.

(** The arrays' scalar type with the operations behind the cells' ufuncs
    and operators, [np.pi], and the values of the integers and of the
    decimal literals. *)
Context {T : Type}.
Variables (sin : T -> T) (add subtract multiply divide : T -> T -> T).
Variables (pi : T) (of_int : Z -> T) (of_Q : Q -> T).

(** A line of a plot: its data, its format string and its label, when it
    was given one. *)
Record Line2D := Line {
  xdata : list T;
  ydata : list T;
  fmt : option string;
  label : option string
}.

(** Modelled from the spec: [plot(x, y, fmt, label=...)] of the external
    plotting library for a one-dimensional [y] returns a list of one line. *)
Definition plot (x y : list T) (fmt label : option string) : list Line2D :=
  [Line x y fmt label].

(** [plot(x, y)] for a two-dimensional [y] returns one line for each
    column of [y]. *)
Definition plot_columns (x : list T) (y : list (list T)) : list Line2D :=
  omap (fun j => option_map (fun col => Line x col None None) (np.column y j))
    (seq 0 (snd (np.shape y))).

(** Modelled from the spec: [legend(handles, labels)] of the external
    plotting library pairs the handles with the labels, in order; and
    [legend()] takes the lines of the axes that have a label, each with its
    own. *)
Definition legend (handles : list Line2D) (labels : list string) : list (Line2D * string) :=
  zip handles labels.

Definition legend_auto (axes : list Line2D) : list (Line2D * string) :=
  omap (fun l => option_map (fun s => (l, s)) (label l)) axes.

(** Cell 13, the array it plots:
<<
    y = np.sin(x[:, np.newaxis] + np.pi * np.arange(0, 2, 0.5))
>> *)
Definition phases : list T := map (fun a => multiply pi (of_Q a)) (np.arange 0 2 0.5).

Definition y_of (x : list T) : list (list T) :=
  np.ufunc1 sin (np.broadcast_column_row add x phases).

(** Cell 13, the lines on the axes and the legend:
<<
    lines = plt.plot(x, y)
    plt.legend(lines[:2], ['first', 'second'])
>> *)
Definition cell_13 (x : list T) : list Line2D * list (Line2D * string) :=
  let y := y_of x in
  let lines := plot_columns x y in
  (lines, legend (python.getslice lines None (Some 2%Z)) ["first"; "second"]).

(** Cell 15, for the [x] and [y] that cells 4 and 13 bound:
<<
    plt.plot(x, y[:, 0], label='first')
    plt.plot(x, y[:, 1], label='second')
    plt.plot(x, y[:, 2:])
    plt.legend(framealpha=1, frameon=True)
>>
    [None] is the IndexError of a column that [y] has not. *)
Definition cell_15 (x : list T) (y : list (list T))
    : option (list Line2D * list (Line2D * string)) :=
  match np.column y 0, np.column y 1 with
  | Some y0, Some y1 =>
      let axes :=
        plot x y0 None (Some "first") ++ plot x y1 None (Some "second")
        ++ plot_columns x (map (fun row => python.getslice row (Some 2%Z) None) y) in
      Some (axes, legend_auto axes)
  | _, _ => None
  end.

(** Cell 21, the lines and the two legends:
<<
    lines = []
    styles = ['-', '--', '-.', ':']
    for i in range(4):
        lines += ax.plot(x, np.sin(x - i * np.pi / 2), styles[i], color='black')
    ax.legend(lines[:2], ['line A', 'line B'], loc='upper right', frameon=False)
    leg = Legend(ax, lines[2:], ['line C', 'line D'], loc='lower right', frameon=False)
>>
    [None] is the IndexError of [styles[i]]. *)
Definition cell_21 (x : list T)
    : option (list Line2D * list (Line2D * string) * list (Line2D * string)) :=
  let styles := ["-"; "--"; "-."; ":"] in
  let step (lines : option (list Line2D)) (i : Z) :=
    match lines with
    | None => None
    | Some lines =>
        match python.getitem styles i with
        | None => None
        | Some style =>
            Some (lines
                  ++ plot x (map (fun v => sin (subtract v (divide (multiply (of_int i) pi)
                                                             (of_int 2)))) x)
                       (Some style) None)
        end
    end in
  match fold_left step (python.range 0 4) (Some []) with
  | None => None
  | Some lines =>
      Some (lines,
            legend (python.getslice lines None (Some 2%Z)) ["line A"; "line B"],
            legend (python.getslice lines (Some 2%Z) None) ["line C"; "line D"])
  end.

End Scalars.

Arguments Line {T}.
Arguments xdata {T}.
Arguments ydata {T}.
Arguments fmt {T}.
Arguments label {T}.

End Legends.

(** ** The grids of the subplots notebook (first document of unnamed/part_000) *)
Module Grids.

(** An index of [grid[r, c]]: an integer, or a slice with its bounds. *)
Inductive index := At (i : Z) | Between (lower upper : option Z).

(** The integer that a literal denotes: [3] or [-1]. *)
Definition int_of (e : Py.expr) : option Z :=
  match e with
  | Py.Constant (Py.CInt i) => Some i
  | Py.UnaryOp Py.USub (Py.Constant (Py.CInt i)) => Some (- i)%Z
  | _ => None
  end.

Definition bound_of (e : option Py.expr) : option (option Z) :=
  match e with
  | None => Some None
  | Some e => option_map Some (int_of e)
  end.

Definition index_of (e : Py.expr) : option index :=
  match e with
  | Py.Slice lower upper =>
      match bound_of lower, bound_of upper with
      | Some lo, Some hi => Some (Between lo hi)
      | _, _ => None
      end
  | _ => option_map At (int_of e)
  end.

(** The two indices of a call [...(grid[r, c], ...)] in a statement. *)
Definition grid_key (s : Py.stmt) : list (index * index) :=
  match s with
  | Py.Expr (Py.Call _ (Py.Subscript (Py.Name g) (Py.Tuple [r; c]) :: _) _)
  | Py.Assign _ (Py.Call _ (Py.Subscript (Py.Name g) (Py.Tuple [r; c]) :: _) _) =>
      if String.eqb g "grid" then
        match index_of r, index_of c with
        | Some r, Some c => [(r, c)]
        | _, _ => []
        end
      else []
  | _ => []
  end.

(** The geometry of a statement [grid = plt.GridSpec(nrows, ncols, ...)]. *)
Definition geometry (s : Py.stmt) : list (nat * nat) :=
  match s with
  | Py.Assign [Py.Name g]
      (Py.Call (Py.Attribute _ method)
         (Py.Constant (Py.CInt nrows) :: Py.Constant (Py.CInt ncols) :: _) _) =>
      if String.eqb g "grid" && String.eqb method "GridSpec"
      then [(Z.to_nat nrows, Z.to_nat ncols)] else []
  | _ => []
  end.

(** A span of rows or of columns: the first, and the one after the last. *)
Definition span : Type := nat * nat.

(** Modelled from the spec: [GridSpec.__getitem__] of the external plotting
    library reads one index against the size of its axis: an integer
    selects one row or column, a negative one counting from the end
    (IndexError out of range); a slice selects what [slice.indices] gives
    (IndexError when that is nothing). *)
Definition normalize (size : nat) (k : index) : option span :=
  let n := Z.of_nat size in
  match k with
  | At i =>
      let i := if (i <? 0)%Z then (i + n)%Z else i in
      if ((0 <=? i)%Z && (i <? n)%Z)%bool then Some (Z.to_nat i, S (Z.to_nat i)) else None
  | Between lower upper =>
      let start := python.slice_bound n 0 lower in
      let stop := python.slice_bound n n upper in
      if (start <? stop)%Z then Some (Z.to_nat start, Z.to_nat stop) else None
  end.

(** The part of the grid that [grid[r, c]] denotes. *)
Record SubplotSpec := Spec { rowspan : span; colspan : span }.

Definition getitem (shape : nat * nat) (key : index * index) : option SubplotSpec :=
  match normalize (fst shape) (fst key), normalize (snd shape) (snd key) with
  | Some rows, Some cols => Some (Spec rows cols)
  | _, _ => None
  end.

Definition within (s : span) (i : nat) : bool := (fst s <=? i)%nat && (i <? snd s)%nat.

(** The grid cell in row [i] and column [j] belongs to the panel. *)
Definition covers (p : SubplotSpec) (i j : nat) : bool :=
  within (rowspan p) i && within (colspan p) j.

(** The panels that the cell [uses] takes from the grid that the cell
    [makes] builds, in order; [None] when an index is out of range. *)
Definition panels (makes uses : nat) : option (list SubplotSpec) :=
  match flat_map geometry (Notebooks.cell_at Notebooks.subplots makes) with
  | shape :: _ =>
      mapM (getitem shape) (flat_map grid_key (Notebooks.cell_at Notebooks.subplots uses))
  | [] => None
  end.

End Grids.

(** ** 04.02-Simple-Scatter-Plots.ipynb, over reals *)
Module ScatterReal.

Local Open Scope R_scope.

(** [1000 * rng.rand(100)]: an integer times an entry of an array. *)
Definition times (z : Z) (v : R) : R := IZR z * v.

(** A line of five points within the limits that cell 6 sets for x with
    [plt.xlim(0, 1.8)]. *)
Definition five_points (a : @Scatter.artist R) : Prop :=
  match a with
  | Scatter.Line xs ys _ =>
      length xs = 5%nat /\ length ys = 5%nat /\ Forall (fun v => 0 <= v <= 1.8) xs
  | Scatter.Points _ _ _ _ => False
  end.

Definition marker_of (a : @Scatter.artist R) : string :=
  match a with
  | Scatter.Line _ _ marker => marker
  | Scatter.Points _ _ _ _ => EmptyString
  end.

End ScatterReal.


(* ================================================================== *)
(** * Theorems                                                         *)
(* ================================================================== *)

#[local] Set Default Proof Using "Type".

(** ** Axes rectangles *)

Section SubplotFacts.

Import Subplots.

Lemma rectangles_eq : rectangles = [cell_4_ax2; cell_6_ax1; cell_6_ax2].
Proof. reflexivity. Qed.

Lemma within_figure_literals : Forall within_figure [cell_4_ax2; cell_6_ax1; cell_6_ax2].
Proof.
  repeat constructor; unfold within_figure, right, top; cbn [left bottom width height
    cell_4_ax2 cell_6_ax1 cell_6_ax2]; repeat split; lra.
Qed.

(** C7: the rectangles the subplots notebook passes to [plt.axes] and
    [fig.add_axes] are lists of four float literals, those of cells 4 and 6;
    the bottom of the upper panel of cell 6 equals the bottom plus the height
    of the lower panel (0.1 + 0.4 = 0.5); and every rectangle lies within
    the unit square of figure coordinates. *)
Theorem stacked_axes_adjacent :
  rectangles = [cell_4_ax2; cell_6_ax1; cell_6_ax2] /\
  (bottom cell_6_ax1 == bottom cell_6_ax2 + height cell_6_ax2)%Q /\
  (bottom cell_6_ax1 == top cell_6_ax2)%Q /\
  (0.1 + 0.4 == 0.5)%Q /\
  Forall within_figure rectangles.
Proof.
  split; [exact rectangles_eq|]. split; [reflexivity|]. split; [reflexivity|].
  split; [reflexivity|]. rewrite rectangles_eq. exact within_figure_literals.
Qed.

End SubplotFacts.

(** ** Histogram counts *)

Section HistogramFacts.

Import np.


Lemma amin_le_init (r : list Q) (x : Q) : (amin x r <= x)%Q.
Proof.
  unfold amin. revert x. induction r as [|y r IH]; intros x; simpl.
  - apply Qle_refl.
  - eapply Qle_trans; [apply IH | apply Q.le_min_l].
Qed.

Lemma amin_le (r : list Q) (x y : Q) : In y (x :: r) -> (amin x r <= y)%Q.
Proof.
  unfold amin. revert x. induction r as [|z r IH]; intros x [Hy|Hy]; simpl in *.
  - subst. apply Qle_refl.
  - contradiction.
  - subst. eapply Qle_trans; [apply (amin_le_init r) | apply Q.le_min_l].
  - destruct Hy as [Hy|Hy].
    + subst. eapply Qle_trans; [apply (amin_le_init r) | apply Q.le_min_r].
    + apply IH. right. exact Hy.
Qed.

Lemma amax_ge_init (r : list Q) (x : Q) : (x <= amax x r)%Q.
Proof.
  unfold amax. revert x. induction r as [|y r IH]; intros x; simpl.
  - apply Qle_refl.
  - eapply Qle_trans; [apply Q.le_max_l | apply IH].
Qed.

Lemma amax_ge (r : list Q) (x y : Q) : In y (x :: r) -> (y <= amax x r)%Q.
Proof.
  unfold amax. revert x. induction r as [|z r IH]; intros x [Hy|Hy]; simpl in *.
  - subst. apply Qle_refl.
  - contradiction.
  - subst. eapply Qle_trans; [apply Q.le_max_l | apply (amax_ge_init r)].
  - destruct Hy as [Hy|Hy].
    + subst. eapply Qle_trans; [apply Q.le_max_r | apply (amax_ge_init r)].
    + apply IH. right. exact Hy.
Qed.

Lemma outer_edges_spec (a : list Q) (first_edge last_edge : Q) :
  outer_edges a = (first_edge, last_edge) ->
  (first_edge < last_edge)%Q /\
  forall y, In y a -> (first_edge <= y <= last_edge)%Q.
Proof.
  destruct a as [|x r]; simpl.
  - intros [= <- <-]. split; [reflexivity | intros y []].
  - assert (Hlo := amin_le r x). assert (Hhi := amax_ge r x).
    destruct (Qeq_bool (amin x r) (amax x r)) eqn:E; intros [= <- <-].
    + split; [apply Qeq_bool_eq in E; lra|].
      intros y Hy. specialize (Hlo y Hy). specialize (Hhi y Hy). lra.
    + split.
      * apply Qeq_bool_neq in E.
        assert (amin x r <= amax x r)%Q
          by (eapply Qle_trans; [apply (Hlo x) | apply (Hhi x)]; left; reflexivity).
        apply Qle_lteq in H. destruct H as [H|H]; [exact H | contradiction].
      * intros y Hy. split; [apply Hlo | apply Hhi]; exact Hy.
Qed.

Lemma length_linspace (start stop : Q) (num : nat) : length (linspace start stop num) = num.
Proof.
  destruct num as [|[|k]]; simpl; try reflexivity.
  rewrite length_app, length_map, length_seq. simpl. lia.
Qed.

Lemma linspace_head (start stop : Q) (k : nat) :
  (getitem (linspace start stop (S (S k))) 0 == start)%Q.
Proof. unfold getitem, linspace. cbn [Z.ltb Z.compare Z.to_nat seq map nth app]. change (inject_Z (Z.of_nat 0)) with 0%Q. change (Z.to_nat 0) with 0%nat. cbv iota. ring. Qed.


Lemma Qle_bool_true (x y : Q) : (x <= y)%Q -> Qle_bool x y = true.
Proof. intros H. apply Qle_bool_iff. exact H. Qed.

Lemma Qltb_false (x y : Q) : (y <= x)%Q -> Qltb x y = false.
Proof. intros H. unfold Qltb. rewrite (Qle_bool_true _ _ H). reflexivity. Qed.

Lemma scaled_range (first_edge last_edge x : Q) (n : Z) :
  (first_edge < last_edge)%Q -> (first_edge <= x <= last_edge)%Q -> (0 <= n)%Z ->
  (0 <= ((x - first_edge) / (last_edge - first_edge)) * inject_Z n <= inject_Z n)%Q.
Proof.
  intros Hlt [Hlo Hhi] Hn.
  assert (Hd : (0 < last_edge - first_edge)%Q) by lra.
  assert (Hn' : (0 <= inject_Z n)%Q) by (change 0%Q with (inject_Z 0); rewrite <- Zle_Qle; exact Hn).
  set (t := ((x - first_edge) / (last_edge - first_edge))%Q).
  assert (Ht0 : (0 <= t)%Q) by (apply Qle_shift_div_l; [exact Hd | lra]).
  assert (Ht1 : (t <= 1)%Q) by (apply Qle_shift_div_r; [exact Hd | lra]).
  split; nra.
Qed.

Lemma bin_index_range (first_edge last_edge : Q) (k : nat) (bin_edges : list Q) (x : Q) :
  (first_edge < last_edge)%Q -> (first_edge <= x <= last_edge)%Q ->
  (getitem bin_edges 0 == first_edge)%Q ->
  (0 <= bin_index first_edge last_edge (S k) bin_edges x < Z.of_nat (S k))%Z.
Proof.
  intros Hlt Hx Hhead. unfold bin_index.
  set (n := Z.of_nat (S k)).
  assert (Hn : (1 <= n)%Z) by (unfold n; lia).
  destruct (scaled_range first_edge last_edge x n Hlt Hx ltac:(lia)) as [Hf0 Hf1].
  set (f := (((x - first_edge) / (last_edge - first_edge)) * inject_Z n)%Q) in *.
  unfold astype_intp. rewrite (Qle_bool_true _ _ Hf0).
  assert (Hi0 : (0 <= Qfloor f)%Z)
    by (rewrite <- (Qfloor_Z 0); apply Qfloor_resp_le; exact Hf0).
  assert (Hi1 : (Qfloor f <= n)%Z)
    by (rewrite <- (Qfloor_Z n); apply Qfloor_resp_le; exact Hf1).
  set (i0 := Qfloor f) in *.
  set (i1 := if (i0 =? n)%Z then (i0 - 1)%Z else i0).
  assert (H1 : (0 <= i1 < n)%Z) by (unfold i1; destruct (Z.eqb_spec i0 n); lia).
  set (i2 := if Qltb x (getitem bin_edges i1) then (i1 - 1)%Z else i1).
  assert (H2 : (0 <= i2 < n)%Z).
  { unfold i2. destruct (Z.eq_dec i1 0%Z) as [Heq|Hne].
    - rewrite Heq, Qltb_false; [lia|]. rewrite Hhead. apply Hx.
    - destruct (Qltb x (getitem bin_edges i1)); lia. }
  destruct (Qle_bool (getitem bin_edges (i2 + 1)) x); simpl;
    destruct (Z.eqb_spec i2 (n - 1)); simpl; lia.
Qed.

Lemma filter_split_length {A : Type} (p q : A -> bool) (l : list A) :
  (forall x, p x && q x = false) ->
  length (List.filter p l) + length (List.filter q l)
  = length (List.filter (fun x => p x || q x) l).
Proof.
  intros Hpq. induction l as [|x l IH]; simpl; [reflexivity|].
  specialize (Hpq x). destruct (p x), (q x); simpl in *; try discriminate; lia.
Qed.

Lemma bincount_sum_below (x : list Z) (n : nat) :
  list_sum (map (fun j => length (List.filter (fun i => (i =? Z.of_nat j)%Z) x)) (seq 0 n))
  = length (List.filter (fun i => (0 <=? i)%Z && (i <? Z.of_nat n)%Z) x).
Proof.
  induction n as [|n IH].
  - simpl. induction x as [|i x IHx]; simpl; [reflexivity|].
    assert (E : (0 <=? i)%Z && (i <? Z.of_nat 0)%Z = false) by lia. rewrite E. exact IHx.
  - rewrite seq_S, map_app, list_sum_app, IH. simpl. rewrite Nat.add_0_r.
    rewrite filter_split_length by (intros i; lia).
    f_equal. apply List.filter_ext. intros i. lia.
Qed.

Lemma filter_all {A : Type} (p : A -> bool) (l : list A) :
  (forall x, In x l -> p x = true) -> List.filter p l = l.
Proof.
  induction l as [|x l IH]; simpl; intros H; [reflexivity|].
  rewrite (H x (or_introl eq_refl)). f_equal. apply IH. intros y Hy. apply H. right. exact Hy.
Qed.

Lemma bincount_in_range (x : list Z) (n : nat) :
  Forall (fun i => (0 <= i < Z.of_nat n)%Z) x ->
  exists c, bincount x n = Some c /\ length c = n /\ list_sum c = length x.
Proof.
  intros Hx. unfold bincount.
  assert (Hmax : Nat.max n (fold_right Nat.max 0%nat (map (fun i => S (Z.to_nat i)) x)) = n).
  { apply Nat.max_l. induction Hx as [|i x Hi _ IH]; simpl; lia. }
  assert (Hall : forallb (Z.leb 0) x = true).
  { apply forallb_forall. intros i Hi. rewrite Forall_forall in Hx.
    specialize (Hx i ltac:(apply list_elem_of_In; exact Hi)). apply Z.leb_le. lia. }
  rewrite Hall.
  rewrite Hmax. eexists. split; [reflexivity|]. split.
  - rewrite length_map, length_seq. reflexivity.
  - rewrite bincount_sum_below. f_equal. apply filter_all.
    intros i Hi. rewrite Forall_forall in Hx.
    specialize (Hx i ltac:(apply list_elem_of_In; exact Hi)). lia.
Qed.


Lemma histogram_spec (data : list Q) (K : nat) :
  1 <= K ->
  exists counts bin_edges,
    histogram data K = Some (counts, bin_edges) /\
    length counts = K /\
    length bin_edges = K + 1 /\
    list_sum counts = length data.
Proof.
  intros HK. destruct K as [|k]; [lia|]. unfold histogram.
  destruct (outer_edges data) as [first_edge last_edge] eqn:E.
  destruct (outer_edges_spec _ _ _ E) as [Hlt Hin].
  rewrite (filter_all _ data).
  2:{ intros x Hx. destruct (Hin x Hx) as [H1 H2].
      rewrite !Qle_bool_true by assumption. reflexivity. }
  set (edges := linspace first_edge last_edge (S k + 1)).
  destruct (bincount_in_range (map (bin_index first_edge last_edge (S k) edges) data) (S k))
    as (c & Hc & Hlen & Hsum).
  { apply Forall_forall. intros i Hi. apply list_elem_of_In, in_map_iff in Hi.
    destruct Hi as (x & <- & Hx). apply bin_index_range; [exact Hlt | apply Hin, Hx |].
    unfold edges. replace (S k + 1) with (S (S k)) by lia. apply linspace_head. }
  rewrite Hc. exists c, edges. split; [reflexivity|]. split; [exact Hlen|]. split.
  - unfold edges. apply length_linspace.
  - rewrite Hsum, length_map. reflexivity.
Qed.

(** C1: for every finite dataset of rationals and every bin count [K >= 1],
    [np.histogram(data, bins=K)] returns [K] counts and [K + 1] bin edges, and
    the counts sum to the number of data points; cell 9 is the call with
    [K = 5]. *)
Theorem histogram_counts_partition (data : list Q) (K : nat) :
  1 <= K ->
  exists counts bin_edges,
    histogram data K = Some (counts, bin_edges) /\
    length counts = K /\
    length bin_edges = K + 1 /\
    list_sum counts = length data /\
    (K = 5 -> Histograms.cell_9 data = Some (counts, bin_edges)).
Proof.
  intros HK. destruct (histogram_spec data K HK) as (c & e & Hh & Hc & He & Hs).
  exists c, e. repeat split; try assumption.
  intros ->. exact Hh.
Qed.

Lemma histogram_counts_partition_witness :
  1 <= 5 /\
  exists counts bin_edges,
    histogram [1; 2; 2.5; 4; 5]%Q 5 = Some (counts, bin_edges) /\
    length counts = 5 /\
    length bin_edges = 5 + 1 /\
    list_sum counts = length [1; 2; 2.5; 4; 5]%Q /\
    (5 = 5 -> Histograms.cell_9 [1; 2; 2.5; 4; 5]%Q = Some (counts, bin_edges)).
Proof.
  split; [lia|]. apply (histogram_counts_partition [1; 2; 2.5; 4; 5]%Q 5). lia.
Defined.

End HistogramFacts.

(** ** Percentiles and the births band *)

Section PercentileFacts.

Import np.

#[local] Instance Qle_total : Total Qle.
Proof. intros x y. destruct (Qlt_le_dec y x) as [H|H]; [right; apply Qlt_le_weak, H | left; exact H]. Qed.

#[local] Instance Qle_trans' : Transitive Qle.
Proof. intros x y z. apply Qle_trans. Qed.

Lemma sort_sorted (a : list Q) : StronglySorted Qle (sort a).
Proof. apply Sorted_StronglySorted; [apply _ | apply Sorted_merge_sort; apply _]. Qed.

Lemma sort_perm (a : list Q) : Permutation (sort a) a.
Proof. apply merge_sort_Permutation. Qed.

Lemma sorted_nth_le (s : list Q) (i j : nat) :
  StronglySorted Qle s -> (i <= j)%nat -> (j < length s)%nat ->
  (nth i s 0 <= nth j s 0)%Q.
Proof.
  intros Hs. revert i j. induction Hs as [|x s Hs IH Hx]; intros i j Hij Hj; simpl in Hj; [lia|].
  destruct j as [|j]; [replace i with 0%nat by lia; apply Qle_refl|].
  destruct i as [|i]; simpl.
  - rewrite Forall_forall in Hx. apply Hx. apply list_elem_of_In, nth_In. lia.
  - apply IH; lia.
Qed.

Lemma getitem_nat (s : list Q) (k : nat) : getitem s (Z.of_nat k) = nth k s 0%Q.
Proof.
  unfold getitem. replace (Z.of_nat k <? 0)%Z with false by lia.
  rewrite Nat2Z.id. reflexivity.
Qed.

Lemma getitem_last (s : list Q) : s <> [] -> getitem s (-1) = nth (length s - 1) s 0%Q.
Proof.
  intros Hs. unfold getitem. simpl. f_equal. destruct s; [contradiction|]. simpl. lia.
Qed.

Lemma lerp_eq (a b t : Q) : (lerp a b t == a + (b - a) * t)%Q.
Proof. unfold lerp. destruct (Qle_bool 0.5 t); ring. Qed.

Lemma quantile_sorted_cases (s : list Q) (q : Q) :
  s <> [] -> (0 <= q <= 1)%Q ->
  let n := length s in
  let v := (inject_Z (Z.of_nat n - 1) * q)%Q in
  ((inject_Z (Z.of_nat n - 1) <= v)%Q /\ (quantile_sorted s q == nth (n - 1) s 0)%Q)
  \/ ((v < inject_Z (Z.of_nat n - 1))%Q /\
      exists k : nat, Qfloor v = Z.of_nat k /\ (S k < n)%nat /\
        (quantile_sorted s q ==
           nth k s 0 + (nth (S k) s 0 - nth k s 0) * (v - inject_Z (Z.of_nat k)))%Q).
Proof.
  intros Hs [Hq0 Hq1] n v. unfold quantile_sorted. fold n. fold v.
  assert (Hn : (1 <= n)%nat) by (unfold n; destruct s; [contradiction | simpl; lia]).
  assert (Hn1 : (0 <= inject_Z (Z.of_nat n - 1))%Q).
  { change 0%Q with (inject_Z 0). rewrite <- Zle_Qle. lia. }
  assert (Hv0 : (0 <= v)%Q) by (unfold v; nra).
  destruct (Qle_bool (inject_Z (Z.of_nat n - 1)) v) eqn:E.
  - left. apply Qle_bool_iff in E. split; [exact E|].
    rewrite lerp_eq, getitem_last by exact Hs. fold n. ring.
  - right. assert (Hlt : (v < inject_Z (Z.of_nat n - 1))%Q).
    { apply Qnot_le_lt. intros H. apply Qle_bool_iff in H. congruence. }
    split; [exact Hlt|].
    rewrite (Qltb_false v 0 Hv0).
    assert (Hf0 : (0 <= Qfloor v)%Z)
      by (rewrite <- (Qfloor_Z 0); apply Qfloor_resp_le; exact Hv0).
    assert (Hf1 : (Qfloor v < Z.of_nat n - 1)%Z).
    { rewrite Zlt_Qlt. eapply Qle_lt_trans; [apply Qfloor_le | exact Hlt]. }
    exists (Z.to_nat (Qfloor v)).
    assert (Hk : Z.of_nat (Z.to_nat (Qfloor v)) = Qfloor v) by lia.
    split; [symmetry; exact Hk|]. split; [lia|].
    rewrite lerp_eq. rewrite <- Hk at 1 2 3.
    replace (Z.of_nat (Z.to_nat (Qfloor v)) + 1)%Z with (Z.of_nat (S (Z.to_nat (Qfloor v)))) by lia.
    rewrite !getitem_nat. rewrite Hk. reflexivity.
Qed.

Lemma quantile_sorted_bounds (s : list Q) (q : Q) :
  StronglySorted Qle s -> s <> [] -> (0 <= q <= 1)%Q ->
  exists i j : nat, (i < length s)%nat /\ (j < length s)%nat /\
    (nth i s 0 <= quantile_sorted s q <= nth j s 0)%Q.
Proof.
  intros Hs Hne Hq.
  destruct (quantile_sorted_cases s q Hne Hq) as [[_ E] | (Hv & k & Hk & Hlt & E)].
  - exists (length s - 1)%nat, (length s - 1)%nat.
    assert (length s <> 0)%nat by (destruct s; [contradiction | simpl; lia]).
    repeat split; try lia; rewrite E; apply Qle_refl.
  - exists k, (S k). split; [lia|]. split; [lia|].
    set (v := (inject_Z (Z.of_nat (length s) - 1) * q)%Q) in *.
    assert (Hg0 : (0 <= v - inject_Z (Z.of_nat k))%Q)
      by (rewrite <- Hk; generalize (Qfloor_le v); lra).
    assert (Hg1 : (v - inject_Z (Z.of_nat k) <= 1)%Q).
    { generalize (Qlt_floor v). rewrite Hk, inject_Z_plus. change (inject_Z 1) with 1%Q. lra. }
    assert (Hd := sorted_nth_le s k (S k) Hs ltac:(lia) Hlt).
    rewrite E. split; nra.
Qed.

Lemma quantile_sorted_mono (s : list Q) (q1 q2 : Q) :
  StronglySorted Qle s -> s <> [] ->
  (0 <= q1)%Q -> (q1 <= q2)%Q -> (q2 <= 1)%Q ->
  (quantile_sorted s q1 <= quantile_sorted s q2)%Q.
Proof.
  intros Hs Hne H0 H12 H1.
  assert (Hn1 : (0 <= inject_Z (Z.of_nat (length s) - 1))%Q).
  { change 0%Q with (inject_Z 0). rewrite <- Zle_Qle.
    destruct s; [contradiction | simpl length; lia]. }
  assert (Hv : (inject_Z (Z.of_nat (length s) - 1) * q1
                <= inject_Z (Z.of_nat (length s) - 1) * q2)%Q) by nra.
  destruct (quantile_sorted_cases s q2 Hne ltac:(lra)) as [[_ E2] | (Hv2 & k2 & Hk2 & Hlt2 & E2)].
  - destruct (quantile_sorted_bounds s q1 Hs Hne ltac:(lra)) as (i & j & Hi & Hj & _ & Hup).
    rewrite E2. eapply Qle_trans; [exact Hup|]. apply sorted_nth_le; [exact Hs | lia | lia].
  - destruct (quantile_sorted_cases s q1 Hne ltac:(lra)) as [[Hv1 _] | (Hv1 & k1 & Hk1 & Hlt1 & E1)];
      [lra|].
    set (v1 := (inject_Z (Z.of_nat (length s) - 1) * q1)%Q) in *.
    set (v2 := (inject_Z (Z.of_nat (length s) - 1) * q2)%Q) in *.
    assert (Hk12 : (k1 <= k2)%nat).
    { apply Nat2Z.inj_le. rewrite <- Hk1, <- Hk2. apply Qfloor_resp_le. exact Hv. }
    assert (Hg1a : (0 <= v1 - inject_Z (Z.of_nat k1))%Q)
      by (rewrite <- Hk1; generalize (Qfloor_le v1); lra).
    assert (Hg1b : (v1 - inject_Z (Z.of_nat k1) <= 1)%Q).
    { generalize (Qlt_floor v1). rewrite Hk1, inject_Z_plus. change (inject_Z 1) with 1%Q. lra. }
    assert (Hg2a : (0 <= v2 - inject_Z (Z.of_nat k2))%Q)
      by (rewrite <- Hk2; generalize (Qfloor_le v2); lra).
    assert (Hd1 := sorted_nth_le s k1 (S k1) Hs ltac:(lia) Hlt1).
    assert (Hd2 := sorted_nth_le s k2 (S k2) Hs ltac:(lia) Hlt2).
    rewrite E1, E2.
    destruct (Nat.eq_dec k1 k2) as [->|Hne12].
    + nra.
    + assert (Hmid := sorted_nth_le s (S k1) k2 Hs ltac:(lia) ltac:(lia)).
      nra.
Qed.

Lemma sorted_range (x : Q) (r : list Q) (i : nat) :
  (i < length (sort (x :: r)))%nat ->
  (amin x r <= nth i (sort (x :: r)) 0 <= amax x r)%Q.
Proof.
  intros Hi.
  assert (Hin : In (nth i (sort (x :: r)) 0%Q) (x :: r)).
  { apply (Permutation_in _ (sort_perm (x :: r))). apply nth_In. exact Hi. }
  split; [apply amin_le | apply amax_ge]; exact Hin.
Qed.

Lemma percentile_quartiles (x : Q) (r : list Q) :
  percentile (x :: r) [25; 50; 75]%Q
  = Some [quantile_sorted (sort (x :: r)) (25 / 100)%Q;
          quantile_sorted (sort (x :: r)) (50 / 100)%Q;
          quantile_sorted (sort (x :: r)) (75 / 100)%Q].
Proof. reflexivity. Qed.

Lemma sort_nonempty (x : Q) (r : list Q) : sort (x :: r) <> [].
Proof.
  intros H. pose proof (Permutation_length (sort_perm (x :: r))) as Hl.
  rewrite H in Hl. discriminate.
Qed.

Lemma percentile_one (a : list Q) (p v : Q) :
  percentile a [p] = Some [v] -> a <> [] /\ v = quantile_sorted (sort a) (p / 100).
Proof.
  unfold percentile. destruct (forallb _ [p]); [| discriminate].
  destruct a as [|x r]; [discriminate|].
  cbn [map]. intros H. split; [discriminate | congruence].
Qed.

Lemma percentile_mono (a : list Q) (p1 p2 v1 v2 : Q) :
  (0 <= p1)%Q -> (p1 <= p2)%Q -> (p2 <= 100)%Q ->
  percentile a [p1] = Some [v1] -> percentile a [p2] = Some [v2] -> (v1 <= v2)%Q.
Proof.
  intros H0 H12 H100 E1 E2.
  apply percentile_one in E1 as [Hne ->]. apply percentile_one in E2 as [_ ->].
  destruct a as [|x r]; [contradiction|].
  apply quantile_sorted_mono; [apply sort_sorted | apply sort_nonempty | | |];
    unfold Qdiv; change (/ 100)%Q with (1 # 100)%Q; lra.
Qed.

(** C6: for every non-empty array of rationals,
    [np.percentile(values, [25, 50, 75])] returns three quartiles with
    [min <= q25 <= q50 <= q75 <= max], so the spread
    [sig = 0.74 * (q75 - q25)] of the births cell is not negative; and
    the percentile does not decrease when the requested percentage grows. *)
Theorem percentile_quartiles_ordered (x : Q) (r : list Q) :
  exists q25 q50 q75,
    percentile (x :: r) [25; 50; 75]%Q = Some [q25; q50; q75] /\
    (amin x r <= q25)%Q /\ (q25 <= q50)%Q /\ (q50 <= q75)%Q /\ (q75 <= amax x r)%Q /\
    (snd (Annotation.mu_sig [q25; q50; q75]) == 0.74 * (q75 - q25))%Q /\
    (0 <= snd (Annotation.mu_sig [q25; q50; q75]))%Q /\
    (forall p1 p2 v1 v2,
       (0 <= p1)%Q -> (p1 <= p2)%Q -> (p2 <= 100)%Q ->
       percentile (x :: r) [p1] = Some [v1] -> percentile (x :: r) [p2] = Some [v2] ->
       (v1 <= v2)%Q).
Proof.
  pose proof (sort_sorted (x :: r)) as Hs. pose proof (sort_nonempty x r) as Hne.
  do 3 eexists. split; [apply percentile_quartiles|].
  assert (H12 : (quantile_sorted (sort (x :: r)) (25 / 100)
                 <= quantile_sorted (sort (x :: r)) (50 / 100))%Q)
    by (apply quantile_sorted_mono; [exact Hs | exact Hne | | |]; apply Qle_bool_imp_le; reflexivity).
  assert (H23 : (quantile_sorted (sort (x :: r)) (50 / 100)
                 <= quantile_sorted (sort (x :: r)) (75 / 100))%Q)
    by (apply quantile_sorted_mono; [exact Hs | exact Hne | | |]; apply Qle_bool_imp_le; reflexivity).
  assert (Hq : forall q, Qle_bool 0 q && Qle_bool q 1 = true -> (0 <= q <= 1)%Q).
  { intros q Hq. apply andb_true_iff in Hq as [H0 H1]. split; apply Qle_bool_imp_le; assumption. }
  destruct (quantile_sorted_bounds (sort (x :: r)) (25 / 100)%Q Hs Hne (Hq (25 / 100)%Q eq_refl))
    as (i & _ & Hi & _ & [Hlo _]).
  destruct (quantile_sorted_bounds (sort (x :: r)) (75 / 100)%Q Hs Hne (Hq (75 / 100)%Q eq_refl))
    as (_ & j & _ & Hj & [_ Hhi]).
  split; [eapply Qle_trans; [apply (sorted_range x r i Hi) | exact Hlo]|].
  split; [exact H12|]. split; [exact H23|].
  split; [eapply Qle_trans; [exact Hhi | apply (sorted_range x r j Hj)]|].
  split; [reflexivity|]. split; [| apply percentile_mono].
  revert H12 H23.
  generalize (quantile_sorted (sort (x :: r)) (25 / 100)),
             (quantile_sorted (sort (x :: r)) (50 / 100)),
             (quantile_sorted (sort (x :: r)) (75 / 100)).
  intros q25 q50 q75 H12 H23. cbn.
  change (Z.to_nat 2) with 2%nat. change (Z.to_nat 0) with 0%nat. cbv iota. lra.
Qed.





End PercentileFacts.

(** ** The grid of the contour notebook *)

Section ContourFacts.

Context {T : Type}.
Variables (sin cos : T -> T) (power : T -> Z -> T) (add multiply : T -> T -> T).
Variable of_int : Z -> T.

Lemma lookup_map {A B : Type} (g : A -> B) (l : list A) (i : nat) :
  map g l !! i = option_map g (l !! i).
Proof.
  revert i. induction l as [|a l IH]; intros [|i]; cbn; try reflexivity. apply IH.
Qed.

Lemma lookup_zip_with_some {A B C : Type} (g : A -> B -> C) (l1 : list A) (l2 : list B)
    (i : nat) (a : A) (b : B) :
  l1 !! i = Some a -> l2 !! i = Some b -> zip_with g l1 l2 !! i = Some (g a b).
Proof.
  revert l2 i. induction l1 as [|x l1 IH]; intros [|y l2] [|i]; cbn; try discriminate.
  - intros [= ->] [= ->]. reflexivity.
  - apply IH.
Qed.

Lemma at2_ufunc1 (g : T -> T) (A : list (list T)) (i j : nat) (a : T) :
  np.at2 A i j = Some a -> np.at2 (np.ufunc1 g A) i j = Some (g a).
Proof.
  unfold np.at2, np.ufunc1. rewrite lookup_map.
  destruct (A !! i) as [row|]; cbn; [| discriminate].
  rewrite lookup_map. intros ->. reflexivity.
Qed.

Lemma at2_ufunc2 (g : T -> T -> T) (A B : list (list T)) (i j : nat) (a b : T) :
  np.at2 A i j = Some a -> np.at2 B i j = Some b ->
  np.at2 (np.ufunc2 g A B) i j = Some (g a b).
Proof.
  unfold np.at2, np.ufunc2.
  destruct (A !! i) as [ra|] eqn:Ea; [| discriminate].
  destruct (B !! i) as [rb|] eqn:Eb; [| discriminate].
  intros Ha Hb. rewrite (lookup_zip_with_some _ _ _ _ _ _ Ea Eb).
  apply lookup_zip_with_some; assumption.
Qed.

Lemma meshgrid_shape (x y : list T) :
  np.has_shape (np.meshgrid x y).1 (length y) (length x) /\
  np.has_shape (np.meshgrid x y).2 (length y) (length x).
Proof.
  unfold np.has_shape, np.meshgrid. cbn [fst snd]. rewrite !length_map.
  repeat split; apply Forall_forall; intros row Hrow;
    apply list_elem_of_In, in_map_iff in Hrow as (yi & <- & _);
    [reflexivity | apply length_map].
Qed.

Lemma meshgrid_at (x y : list T) (i j : nat) (xj yi : T) :
  x !! j = Some xj -> y !! i = Some yi ->
  np.at2 (np.meshgrid x y).1 i j = Some xj /\ np.at2 (np.meshgrid x y).2 i j = Some yi.
Proof.
  intros Hx Hy. unfold np.at2, np.meshgrid. cbn [fst snd].
  rewrite !lookup_map, Hy. cbn. rewrite lookup_map, Hx. auto.
Qed.

(** C5: for arrays [x] of length 50 and [y] of length 40, [np.meshgrid(x, y)]
    gives [X] and [Y] of shape (40, 50) with [X[i][j] = x[j]] and
    [Y[i][j] = y[i]], and [Z = f(X, Y)] has
    [Z[i][j] = sin(x[j])^10 + cos(10 + y[i]*x[j]) * cos(x[j])] at every
    position, whatever the scalar operations are. *)
Theorem meshgrid_broadcast (x y : list T) :
  length x = 50 -> length y = 40 ->
  let '(X, Y, Z) := Contour.grid sin cos power add multiply of_int x y in
  np.has_shape X 40 50 /\ np.has_shape Y 40 50 /\
  forall i j xj yi,
    x !! j = Some xj -> y !! i = Some yi ->
    np.at2 X i j = Some xj /\
    np.at2 Y i j = Some yi /\
    np.at2 Z i j
    = Some (add (power (sin xj) 10)
                (multiply (cos (add (of_int 10) (multiply yi xj))) (cos xj))).
Proof.
  intros Hx Hy. unfold Contour.grid.
  pose proof (meshgrid_shape x y) as [HX HY]. rewrite Hx, Hy in HX, HY.
  destruct (np.meshgrid x y) as [X Y] eqn:E. cbn [fst snd] in HX, HY.
  split; [exact HX|]. split; [exact HY|].
  intros i j xj yi Hxj Hyi.
  pose proof (meshgrid_at x y i j xj yi Hxj Hyi) as [HXij HYij].
  rewrite E in HXij, HYij. cbn [fst snd] in HXij, HYij.
  split; [exact HXij|]. split; [exact HYij|].
  unfold Contour.f.
  apply at2_ufunc2.
  - apply (at2_ufunc1 (fun v => power v 10)), at2_ufunc1, HXij.
  - apply at2_ufunc2.
    + apply at2_ufunc1, (at2_ufunc1 (add (of_int 10))), at2_ufunc2; assumption.
    + apply at2_ufunc1, HXij.
Qed.

End ContourFacts.

Lemma meshgrid_broadcast_witness :
  let x := map Q2R (np.linspace 0 5 50) in
  let y := map Q2R (np.linspace 0 5 40) in
  length x = 50 /\ length y = 40 /\
  let '(X, Y, Z) := Contour.grid Rtrigo_def.sin Rtrigo_def.cos powerRZ Rplus Rmult IZR x y in
  np.has_shape X 40 50 /\ np.has_shape Y 40 50 /\
  forall i j xj yi,
    x !! j = Some xj -> y !! i = Some yi ->
    np.at2 X i j = Some xj /\
    np.at2 Y i j = Some yi /\
    np.at2 Z i j
    = Some (Rplus (powerRZ (Rtrigo_def.sin xj) 10)
              (Rmult (Rtrigo_def.cos (Rplus (IZR 10) (Rmult yi xj))) (Rtrigo_def.cos xj))).
Proof.
  intros x y. split; [reflexivity|]. split; [reflexivity|].
  apply (meshgrid_broadcast Rtrigo_def.sin Rtrigo_def.cos powerRZ Rplus Rmult IZR x y);
    reflexivity.
Defined.

(** ** The grayscale colormap *)

Section ColormapFacts.

Import mpl Colorbars.
Local Open Scope R_scope.

Lemma clip01_id (v : R) : unit_range v -> clip01 v = v.
Proof.
  intros [H0 H1]. unfold clip01, Rmin, Rmax.
  repeat destruct (Rle_dec _ _); lra.
Qed.

Lemma clip01_range (v : R) : unit_range (clip01 v).
Proof.
  unfold unit_range, clip01, Rmin, Rmax. repeat destruct (Rle_dec _ _); lra.
Qed.

Lemma searchsorted_INR (a n i : nat) :
  (a <= i)%nat -> searchsorted (map INR (seq a n)) (INR i) = Nat.min n (i - a).
Proof.
  revert a. induction n as [|n IH]; intros a Ha; [reflexivity|].
  cbn [seq map searchsorted].
  destruct (Rlt_dec (INR a) (INR i)) as [Hlt|Hge].
  - apply INR_lt in Hlt. rewrite IH by lia. lia.
  - assert (a = i) by (destruct (Nat.eq_dec a i); [assumption | exfalso; apply Hge, lt_INR; lia]).
    subst. rewrite Nat.sub_diag. symmetry. apply Nat.min_0_r.
Qed.

Lemma scaled_nodes (n1 : nat) :
  map (fun a => a * INR (S n1)) (linspace01 (S (S n1))) = map INR (seq 0 (S (S n1))).
Proof.
  change (linspace01 (S (S n1)))
    with (map (fun i => INR i * (1 / INR (S n1)) + 0) (seq 0 (S n1)) ++ [1]).
  rewrite map_app, map_map, (seq_S (S n1) 0), map_app. f_equal.
  - apply map_ext_in. intros i _. field. apply not_0_INR. lia.
  - cbn [map]. rewrite Nat.add_0_l. f_equal. lra.
Qed.

Lemma nth_map_seq {A : Type} (f : nat -> A) (a n i : nat) (d : A) :
  (i < n)%nat -> nth i (map f (seq a n)) d = f (a + i)%nat.
Proof.
  revert a i. induction n as [|n IH]; intros a i Hi; [lia|].
  destruct i as [|i]; cbn [seq map nth].
  - f_equal. lia.
  - rewrite IH by lia. f_equal. lia.
Qed.

Lemma nth_linspace01 (n1 i : nat) :
  (i < S n1)%nat -> INR (S n1) * nth i (linspace01 (S (S n1))) 0 = INR i.
Proof.
  intros Hi.
  change (linspace01 (S (S n1)))
    with (map (fun i => INR i * (1 / INR (S n1)) + 0) (seq 0 (S n1)) ++ [1]).
  rewrite app_nth1 by (rewrite length_map, length_seq; exact Hi).
  rewrite nth_map_seq by exact Hi. rewrite Nat.add_0_l.
  field. apply not_0_INR. lia.
Qed.

Lemma nth_map_INR (n i : nat) : (i < n)%nat -> nth i (map INR (seq 0 n)) 0 = INR i.
Proof.
  intros Hi. rewrite nth_map_seq by exact Hi. reflexivity.
Qed.

Lemma last_nth {A : Type} (l : list A) (d : A) : List.last l d = nth (length l - 1) l d.
Proof.
  induction l as [|a [|b l] IH]; [reflexivity | reflexivity |].
  change (List.last (a :: b :: l) d) with (List.last (b :: l) d). rewrite IH.
  cbn [length]. replace (S (S (length l)) - 1)%nat with (S (S (length l) - 1)) by lia.
  reflexivity.
Qed.

Lemma list_split_ends (y : list R) (inner : nat) :
  length y = S (S inner) ->
  [nth 0 y 0] ++ map (fun i => nth i y 0) (seq 1 inner) ++ [List.last y 0] = y.
Proof.
  intros Hlen. apply (nth_ext _ _ 0 0).
  - rewrite !length_app, length_map, length_seq. simpl. lia.
  - intros i Hi. rewrite !length_app, length_map, length_seq in Hi. simpl in Hi.
    destruct i as [|i]; [reflexivity|]. cbn [app nth].
    destruct (Nat.lt_ge_cases i inner) as [Hlt|Hge].
    + rewrite app_nth1 by (rewrite length_map, length_seq; exact Hlt).
      rewrite nth_map_seq by exact Hlt. reflexivity.
    + rewrite app_nth2 by (rewrite length_map, length_seq; exact Hge).
      rewrite length_map, length_seq. replace (i - inner)%nat with 0%nat by lia.
      cbn [nth]. replace (S i) with (length y - 1)%nat by lia.
      rewrite last_nth. reflexivity.
Qed.

Lemma linspace01_last (n1 : nat) : List.last (linspace01 (S (S n1))) 0 = 1.
Proof.
  change (linspace01 (S (S n1)))
    with (map (fun i => INR i * (1 / INR (S n1)) + 0) (seq 0 (S n1)) ++ [1]).
  apply last_last.
Qed.

Lemma linspace01_head (n1 : nat) : nth 0 (linspace01 (S (S n1))) 0 = 0.
Proof. cbn. lra. Qed.

Lemma linspace01_seq (n1 : nat) :
  linspace01 (S (S n1)) = map (fun i => INR i / INR (S n1)) (seq 0 (S (S n1))).
Proof.
  change (linspace01 (S (S n1)))
    with (map (fun i => INR i * (1 / INR (S n1)) + 0) (seq 0 (S n1)) ++ [1]).
  rewrite (seq_S (S n1) 0), map_app. f_equal.
  - apply map_ext_in. intros i _. field. apply not_0_INR. lia.
  - cbn [map]. rewrite Nat.add_0_l. f_equal. field. apply not_0_INR. lia.
Qed.

Lemma diff_increasing (g : nat -> R) (a n : nat) :
  (forall i, g i <= g (S i)) ->
  existsb (fun d => if Rlt_dec d 0 then true else false) (diff (map g (seq a n))) = false.
Proof.
  intros Hg. revert a. induction n as [|n IH]; intros a; [reflexivity|].
  destruct n as [|n]; [reflexivity|].
  specialize (IH (S a)). cbn [seq map diff existsb] in IH |- *. rewrite IH.
  destruct (Rlt_dec (g (S a) - g a) 0) as [Hlt|_]; [| reflexivity].
  specialize (Hg a). lra.
Qed.

Lemma linspace01_increasing (n1 : nat) :
  existsb (fun d => if Rlt_dec d 0 then true else false) (diff (linspace01 (S (S n1)))) = false.
Proof.
  rewrite linspace01_seq. apply diff_increasing. intros i.
  assert (0 < INR (S n1)) by (apply lt_0_INR; lia).
  rewrite (S_INR i). unfold Rdiv. apply Rmult_le_compat_r; [| lra].
  apply Rlt_le, Rinv_0_lt_compat. assumption.
Qed.

Lemma create_lookup_table_nodes (y : list R) :
  (2 <= length y)%nat ->
  create_lookup_table (length y) (linspace01 (length y)) y = Some (map clip01 y).
Proof.
  intros Hlen. destruct (length y) as [|[|inner]] eqn:E; [lia | lia |].
  unfold create_lookup_table.
  assert (Hhead := linspace01_head inner). assert (Hlast := linspace01_last inner).
  assert (Hnodes := scaled_nodes inner).
  assert (Hnth := nth_linspace01 inner).
  rewrite (linspace01_increasing inner).
  destruct (linspace01 (S (S inner))) as [|x0 xt] eqn:Ex; [discriminate Hnodes|].
  cbn [nth] in Hhead. rewrite Hlast.
  destruct (Req_dec_T x0 0) as [_|Hn]; [| contradiction].
  destruct (Req_dec_T 1 1) as [_|Hn]; [| contradiction].
  f_equal. f_equal.
  etransitivity; [| apply (list_split_ends y inner E)].
  f_equal. f_equal. apply map_ext_in. intros i Hi. apply in_seq in Hi.
  rewrite Hnodes, Hnth by lia.
  rewrite searchsorted_INR by lia. rewrite Nat.sub_0_r, Nat.min_r by lia.
  rewrite !nth_map_INR by lia.
  destruct i as [|i]; [lia|]. replace (S i - 1)%nat with i by lia.
  rewrite S_INR. field. lra.
Qed.

Lemma call_arange_wf (cmap : Colormap) (lut : list rgba) :
  _init cmap = Some lut -> length lut = N cmap -> call_arange cmap = Some lut.
Proof.
  intros Hinit Hlen. unfold call_arange. rewrite Hinit, <- Hlen. f_equal.
  apply (nth_ext _ _ black black).
  - rewrite length_map, length_seq. reflexivity.
  - intros i Hi. rewrite length_map, length_seq in Hi.
    rewrite nth_map_seq by exact Hi. reflexivity.
Qed.

Lemma zip_with_map_r {A B C : Type} (f : A -> B -> C) (g : A -> B) (l : list A) :
  zip_with f l (map g l) = map (fun a => f a (g a)) l.
Proof. induction l as [|a l IH]; simpl; [reflexivity | f_equal; exact IH]. Qed.

Lemma zip_channels (colors : list rgba) (f : R -> R) :
  zip_with (fun rg ba => RGBA (fst rg) (snd rg) (fst ba) (snd ba))
    (zip (map f (map red colors)) (map f (map green colors)))
    (zip (map f (map blue colors)) (map f (map alpha colors)))
  = map (fun c => RGBA (f (red c)) (f (green c)) (f (blue c)) (f (alpha c))) colors.
Proof. induction colors as [|c l IH]; simpl; [reflexivity | f_equal; exact IH]. Qed.

Lemma to_rgba_array_unit (colors : list rgba) :
  Forall in_unit_range colors -> to_rgba_array colors = Some colors.
Proof.
  intros Hall. unfold to_rgba_array.
  destruct (existsb _ colors) eqn:E; [| reflexivity]. exfalso.
  apply existsb_exists in E as (c & Hin & Hc).
  apply existsb_exists in Hc as (v & Hv & Hbad).
  rewrite Forall_forall in Hall.
  assert (Hc : in_unit_range c) by (apply Hall, list_elem_of_In, Hin).
  destruct Hc as (Hr & Hg & Hb & Ha).
  assert (Hu : unit_range v) by (cbn in Hv; intuition (subst; assumption)).
  destruct Hu. destruct (Rlt_dec v 0); [lra|]. destruct (Rlt_dec 1 v); [lra|]. discriminate.
Qed.

Lemma clip_unit (c : rgba) :
  in_unit_range c ->
  RGBA (clip01 (red c)) (clip01 (green c)) (clip01 (blue c)) (clip01 (alpha c)) = c.
Proof.
  intros (Hr & Hg & Hb & Ha). rewrite !clip01_id by assumption. destruct c; reflexivity.
Qed.

Lemma from_list_nodes (nm : string) (colors : list rgba) :
  (2 <= length colors)%nat -> Forall in_unit_range colors ->
  from_list nm colors (length colors)
  = Some {| name := nm; N := length colors; _init := Some colors |}.
Proof.
  intros Hlen Hall. unfold from_list.
  destruct colors as [|c0 rest] eqn:E; [cbn in Hlen; lia|]. rewrite <- E in *.
  rewrite (to_rgba_array_unit colors Hall).
  pose proof (create_lookup_table_nodes (map red colors)) as Hr.
  pose proof (create_lookup_table_nodes (map green colors)) as Hg.
  pose proof (create_lookup_table_nodes (map blue colors)) as Hb.
  pose proof (create_lookup_table_nodes (map alpha colors)) as Ha.
  rewrite length_map in Hr, Hg, Hb, Ha.
  rewrite (Hr Hlen), (Hg Hlen), (Hb Hlen), (Ha Hlen), zip_channels.
  do 3 f_equal. rewrite <- (map_id colors) at 2.
  apply map_ext_in. intros c Hc. apply clip_unit.
  rewrite Forall_forall in Hall. apply Hall, list_elem_of_In, Hc.
Qed.

Lemma luminance_eq (c : rgba) :
  luminance c = sqrt (0.299 * (red c * red c) + 0.587 * (green c * green c)
                      + 0.114 * (blue c * blue c)).
Proof. unfold luminance, dot, RGB_weight. simpl. f_equal. ring. Qed.

Lemma luminance_range (c : rgba) : in_unit_range c -> unit_range (luminance c).
Proof.
  intros ([Hr0 Hr1] & [Hg0 Hg1] & [Hb0 Hb1] & _). rewrite luminance_eq. split.
  - apply sqrt_pos.
  - rewrite <- sqrt_1. apply sqrt_le_1_alt. nra.
Qed.

(** The row that [grayscale_cmap] makes of a row. *)
Definition gray_of (c : rgba) : rgba := RGBA (luminance c) (luminance c) (luminance c) (alpha c).

Lemma gray_of_range (c : rgba) : in_unit_range c -> in_unit_range (gray_of c).
Proof.
  intros Hc. pose proof (luminance_range c Hc) as Hl. destruct Hc as (_ & _ & _ & Ha).
  repeat split; simpl; try apply Hl; apply Ha.
Qed.

Lemma grayscale_cmap_object (registry : gmap string Colormap) (cmap : Colormap)
    (lut : list rgba) :
  _init cmap = Some lut -> length lut = N cmap -> Forall in_unit_range lut ->
  (2 <= N cmap)%nat ->
  grayscale_cmap registry (ByObject cmap)
  = Some {| name := name cmap +:+ "_gray"; N := N cmap; _init := Some (map gray_of lut) |}.
Proof.
  intros Hinit Hlen Hrange HN. unfold grayscale_cmap. cbn [get_cmap].
  rewrite (call_arange_wf cmap lut Hinit Hlen), zip_with_map_r.
  change (fun a => RGBA (luminance a) (luminance a) (luminance a) (alpha a)) with gray_of.
  assert (Hl : length (map gray_of lut) = N cmap) by (rewrite length_map; exact Hlen).
  rewrite <- Hl at 1. rewrite from_list_nodes.
  - rewrite Hl. reflexivity.
  - lia.
  - apply Forall_map. eapply Forall_impl; [exact Hrange|]. intros c Hc. apply gray_of_range, Hc.
Qed.


Lemma gray_of_gray (c : rgba) :
  in_unit_range c ->
  red (gray_of c) = green (gray_of c) /\ green (gray_of c) = blue (gray_of c) /\
  in_unit_range (gray_of c).
Proof. intros Hc. split; [reflexivity|]. split; [reflexivity|]. apply gray_of_range, Hc. Qed.

(** What [view_colormap] computes on a colormap object with at least two
    entries, in the arithmetic of the reals. *)
Lemma view_colormap_object (registry : gmap string Colormap) (cmap : Colormap)
    (lut : list rgba) :
  _init cmap = Some lut -> length lut = N cmap -> Forall in_unit_range lut ->
  (2 <= N cmap)%nat ->
  view_colormap registry (ByObject cmap) = Some (lut, map gray_of lut).
Proof.
  intros Hinit Hlen Hrange HN. unfold view_colormap. cbn [get_cmap].
  rewrite (call_arange_wf cmap lut Hinit Hlen).
  rewrite (grayscale_cmap_object registry cmap lut Hinit Hlen Hrange HN).
  rewrite (call_arange_wf _ (map gray_of lut)); [reflexivity | reflexivity |].
  cbn [N]. rewrite length_map. exact Hlen.
Qed.


Lemma two_tone_wf : wf two_tone.
Proof.
  unfold wf, two_tone, in_unit_range, unit_range. cbn [_init N length red green blue alpha].
  split; [reflexivity|].
  apply List.Forall_cons; [| apply List.Forall_cons; [| apply List.Forall_nil]];
    cbn [red green blue alpha]; repeat split; lra.
Defined.



End ColormapFacts.

(** ** The seeded cells of the scatter notebook *)

Section ScatterFacts.

Context {T rng : Type}.
Variable RandomState : Z -> rng.
Variables rand randn : rng -> nat -> list T * rng.
Variable times : Z -> T -> T.

Abbreviation kernel := (@Scatter.kernel T rng).
Abbreviation cell_6 := (Scatter.cell_6 RandomState rand).
Abbreviation cell_15 := (Scatter.cell_15 RandomState rand randn times).

(** The lines that the loop of cell 6 draws, from the generator alone. *)
Fixpoint marker_lines (ms : list string) (g : rng) : list (@Scatter.artist T) * rng :=
  match ms with
  | [] => ([], g)
  | marker :: ms' =>
      let '(xs, g) := rand g 5 in
      let '(ys, g) := rand g 5 in
      let '(lines, g) := marker_lines ms' g in
      (Scatter.Line xs ys marker :: lines, g)
  end.

Lemma loop_figure (ms : list string) (k : kernel) (g : rng) :
  let '(k', g') :=
    fold_left
      (fun '(k, g) marker =>
         let '(xs, g) := rand g 5 in
         let '(ys, g) := rand g 5 in
         (Scatter.bind "marker" (Scatter.Opaque marker)
            (Scatter.draw (Scatter.Line xs ys marker) k), g))
      ms (k, g) in
  Scatter.figure k' = Scatter.figure k ++ (marker_lines ms g).1 /\
  g' = (marker_lines ms g).2 /\
  Scatter.global_random_state k' = Scatter.global_random_state k.
Proof.
  revert k g. induction ms as [|m ms IH]; intros k g; cbn [fold_left marker_lines].
  - cbn. rewrite app_nil_r. auto.
  - destruct (rand g 5) as [xs g1]. destruct (rand g1 5) as [ys g2].
    specialize (IH (Scatter.bind "marker" (Scatter.Opaque m)
                      (Scatter.draw (Scatter.Line xs ys m) k)) g2).
    destruct (fold_left _ ms _) as [k' g'].
    destruct (marker_lines ms g2) as [lines g3]. cbn [fst snd] in *.
    destruct IH as (Hf & Hg & Hs). repeat split; [| exact Hg | exact Hs].
    rewrite Hf. cbn. rewrite <- app_assoc. reflexivity.
Qed.

Lemma cell_6_drawn (k : kernel) :
  Scatter.drawn k (cell_6 k) = (marker_lines Scatter.markers (RandomState 0)).1 /\
  Scatter.global_random_state (cell_6 k) = Scatter.global_random_state k.
Proof.
  unfold Scatter.drawn, Scatter.cell_6.
  pose proof (loop_figure Scatter.markers k (RandomState 0)) as H.
  destruct (fold_left _ Scatter.markers _) as [k' g']. destruct H as (Hf & _ & Hs).
  cbn [Scatter.bind Scatter.figure Scatter.global_random_state].
  split; [| exact Hs]. rewrite Hf. apply drop_app_length.
Qed.

Lemma cell_15_bindings (k : kernel) :
  let '(x, g) := randn (RandomState 0) 100 in
  let '(y, g) := randn g 100 in
  let '(colors, g) := rand g 100 in
  let '(r, g) := rand g 100 in
  Scatter.user_ns (cell_15 k) !! "x" = Some (Scatter.Array x) /\
  Scatter.user_ns (cell_15 k) !! "y" = Some (Scatter.Array y) /\
  Scatter.user_ns (cell_15 k) !! "colors" = Some (Scatter.Array colors) /\
  Scatter.user_ns (cell_15 k) !! "sizes" = Some (Scatter.Array (map (times 1000) r)) /\
  Scatter.drawn k (cell_15 k) = [Scatter.Points x y colors (map (times 1000) r)] /\
  Scatter.global_random_state (cell_15 k) = Scatter.global_random_state k.
Proof.
  unfold Scatter.cell_15, Scatter.drawn.
  destruct (randn (RandomState 0) 100) as [x g1]. destruct (randn g1 100) as [y g2].
  destruct (rand g2 100) as [colors g3]. destruct (rand g3 100) as [r g4].
  cbn [Scatter.draw Scatter.bind Scatter.user_ns Scatter.figure Scatter.global_random_state].
  repeat split; try (by simplify_map_eq). apply drop_app_length.
Qed.

(** C10: the cells of the scatter notebook that draw from
    [np.random.RandomState(0)] are deterministic: whatever kernel states two
    executions start from (namespace, global generator, figure), cell 15
    binds the same [x], [y], [colors] and [sizes] and draws the same points,
    cell 6 draws the same lines, and neither touches the global generator. *)
Theorem seeded_cells_deterministic (k1 k2 : kernel) :
  Scatter.user_ns (cell_15 k1) !! "x" = Scatter.user_ns (cell_15 k2) !! "x" /\
  Scatter.user_ns (cell_15 k1) !! "y" = Scatter.user_ns (cell_15 k2) !! "y" /\
  Scatter.user_ns (cell_15 k1) !! "colors" = Scatter.user_ns (cell_15 k2) !! "colors" /\
  Scatter.user_ns (cell_15 k1) !! "sizes" = Scatter.user_ns (cell_15 k2) !! "sizes" /\
  Scatter.drawn k1 (cell_15 k1) = Scatter.drawn k2 (cell_15 k2) /\
  Scatter.drawn k1 (cell_6 k1) = Scatter.drawn k2 (cell_6 k2) /\
  is_Some (Scatter.user_ns (cell_15 k1) !! "x") /\
  Scatter.global_random_state (cell_15 k1) = Scatter.global_random_state k1 /\
  Scatter.global_random_state (cell_6 k1) = Scatter.global_random_state k1.
Proof.
  pose proof (cell_15_bindings k1) as H1. pose proof (cell_15_bindings k2) as H2.
  destruct (randn (RandomState 0) 100) as [x g1]. destruct (randn g1 100) as [y g2].
  destruct (rand g2 100) as [colors g3]. destruct (rand g3 100) as [r g4].
  destruct H1 as (X1 & Y1 & C1 & S1 & D1 & G1). destruct H2 as (X2 & Y2 & C2 & S2 & D2 & G2).
  destruct (cell_6_drawn k1) as [L1 GL1]. destruct (cell_6_drawn k2) as [L2 _].
  rewrite X1, X2, Y1, Y2, C1, C2, S1, S2, D1, D2, L1, L2.
  repeat split; try reflexivity; eauto.
Qed.

End ScatterFacts.

(* ================================================================== *)
(** * Further properties of the cells                                  *)
(* ================================================================== *)

(** ** The range of the contour function *)

Section ContourRange.

Local Open Scope R_scope.

Lemma Forall_ufunc1 {T : Type} (P P' : T -> Prop) (op : T -> T) (A : list (list T)) :
  (forall a, P a -> P' (op a)) ->
  Forall (Forall P) A -> Forall (Forall P') (np.ufunc1 op A).
Proof.
  intros Hop HA. unfold np.ufunc1. apply Forall_map.
  eapply Forall_impl; [exact HA|]. intros row Hrow. cbn. apply Forall_map.
  eapply Forall_impl; [exact Hrow|]. exact Hop.
Qed.

Lemma Forall_zip_with_both {T : Type} (P P' P'' : T -> Prop) (op : T -> T -> T)
    (a b : list T) :
  (forall u v, P u -> P' v -> P'' (op u v)) ->
  Forall P a -> Forall P' b -> Forall P'' (zip_with op a b).
Proof.
  intros Hop Ha. revert b. induction Ha as [|u a Hu _ IH]; intros b Hb; [constructor|].
  destruct Hb as [|v b Hv Hb]; cbn; constructor; auto.
Qed.

Lemma Forall_ufunc2 {T : Type} (P P' P'' : T -> Prop) (op : T -> T -> T)
    (A B : list (list T)) :
  (forall u v, P u -> P' v -> P'' (op u v)) ->
  Forall (Forall P) A -> Forall (Forall P') B -> Forall (Forall P'') (np.ufunc2 op A B).
Proof.
  intros Hop HA. unfold np.ufunc2. revert B.
  induction HA as [|a A Ha _ IH]; intros B HB; [constructor|].
  destruct HB as [|b B Hb HB]; cbn; constructor; [| apply IH, HB].
  eapply Forall_zip_with_both; eauto.
Qed.

Lemma Forall_Forall_True {T : Type} (A : list (list T)) : Forall (Forall (fun _ => True)) A.
Proof. apply Forall_forall. intros row _. apply Forall_forall. auto. Qed.

Lemma tenth_power_range (s : R) : -1 <= s <= 1 -> 0 <= powerRZ s 10 <= 1.
Proof.
  intros Hs. change (powerRZ s 10) with (s ^ 10).
  replace (s ^ 10) with ((s * s) ^ 5) by ring.
  assert (H2 : 0 <= s * s <= 1) by nra.
  split; [apply pow_le, H2|].
  rewrite <- (pow1 5). apply pow_incr. exact H2.
Qed.

(** X1: The values of [f] (cell 5 of the contour notebook) lie between -1 and
    2 wherever it is evaluated: [sin(x)^10] is within [0, 1] and
    [cos(10 + y x) cos(x)] within [-1, 1].  So does every value of the
    grid [Z] of cell 7. *)
Theorem f_range (X Y : list (list R)) :
  Forall (Forall (fun z => -1 <= z <= 2))
    (Contour.f Rtrigo_def.sin Rtrigo_def.cos powerRZ Rplus Rmult IZR X Y) /\
  Forall (Forall (fun z => -1 <= z <= 2))
    (Contour.cell_7 Rtrigo_def.sin Rtrigo_def.cos powerRZ Rplus Rmult IZR Q2R).2.
Proof.
  assert (Hf : forall X Y : list (list R),
             Forall (Forall (fun z => -1 <= z <= 2))
               (Contour.f Rtrigo_def.sin Rtrigo_def.cos powerRZ Rplus Rmult IZR X Y)).
  { clear X Y. intros X Y. unfold Contour.f.
    apply (Forall_ufunc2 (fun a => 0 <= a <= 1) (fun b => -1 <= b <= 1)); [intros; lra | |].
    - apply (Forall_ufunc1 (fun s => -1 <= s <= 1)); [exact tenth_power_range|].
      apply (Forall_ufunc1 (fun _ => True)); [intros a _; apply SIN_bound|].
      apply Forall_Forall_True.
    - apply (Forall_ufunc2 (fun a => -1 <= a <= 1) (fun b => -1 <= b <= 1)).
      + intros u v Hu Hv. split; nra.
      + apply (Forall_ufunc1 (fun _ => True)); [intros a _; apply COS_bound|].
        apply Forall_Forall_True.
      + apply (Forall_ufunc1 (fun _ => True)); [intros a _; apply COS_bound|].
        apply Forall_Forall_True. }
  split; [apply Hf|].
  unfold Contour.cell_7, Contour.grid. cbn [np.meshgrid snd]. apply Hf.
Qed.

End ContourRange.


(** ** Viewing a colormap *)

Section ViewColormap.

Import mpl Colorbars.
Local Open Scope R_scope.

Lemma create_lookup_table_one_node (n : nat) (y : list R) :
  create_lookup_table n (linspace01 1) y = None.
Proof.
  unfold create_lookup_table, linspace01. cbn [List.last].
  destruct (Req_dec_T 0 0) as [_|Hn]; [| contradiction].
  destruct (Req_dec_T 0 1) as [H01|_]; [lra | reflexivity].
Qed.

Lemma grayscale_cmap_one (registry : gmap string Colormap) (cmap : Colormap) (c : rgba) :
  _init cmap = Some [c] -> N cmap = 1%nat -> in_unit_range c ->
  grayscale_cmap registry (ByObject cmap)
  = Some {| name := name cmap +:+ "_gray"; N := 1; _init := None |}.
Proof.
  intros Hinit HN Hc. unfold grayscale_cmap. cbn [get_cmap].
  rewrite (call_arange_wf cmap [c] Hinit) by (rewrite HN; reflexivity).
  cbn [map zip_with]. fold (gray_of c). unfold from_list.
  rewrite (to_rgba_array_unit [gray_of c])
    by (apply List.Forall_cons; [apply gray_of_range, Hc | apply List.Forall_nil]).
  cbn [length]. rewrite HN, !create_lookup_table_one_node. reflexivity.
Qed.

Lemma grayscale_cmap_zero (registry : gmap string Colormap) (cmap : Colormap) :
  _init cmap = Some [] -> N cmap = 0%nat ->
  grayscale_cmap registry (ByObject cmap) = None.
Proof.
  intros Hinit HN. unfold grayscale_cmap. cbn [get_cmap].
  rewrite (call_arange_wf cmap [] Hinit) by (rewrite HN; reflexivity).
  reflexivity.
Qed.

Lemma view_colormap_arg (registry : gmap string Colormap) (arg : cmap_arg) (cmap : Colormap) :
  get_cmap registry arg = Some cmap ->
  view_colormap registry arg = view_colormap registry (ByObject cmap).
Proof. intros Hget. unfold view_colormap. rewrite Hget. reflexivity. Qed.

(** X3: [view_colormap] on a colormap with at least two entries: the two images
    it shows have one row of [N] colours each, the first the colormap's own
    colours, the second one of grays: in each of its colours the red, green
    and blue channels are equal, and every channel is within [0, 1]. *)
Theorem view_colormap_images (registry : gmap string Colormap) (arg : cmap_arg)
    (cmap : Colormap) :
  get_cmap registry arg = Some cmap -> wf cmap -> (2 <= N cmap)%nat ->
  exists colors grayscale,
    view_colormap registry arg = Some (colors, grayscale) /\
    call_arange cmap = Some colors /\
    length colors = N cmap /\ length grayscale = N cmap /\
    Forall (fun g => red g = green g /\ green g = blue g /\ in_unit_range g) grayscale.
Proof.
  intros Hget Hwf HN. unfold wf in Hwf.
  destruct (_init cmap) as [lut|] eqn:Hinit; [| contradiction].
  destruct Hwf as [Hlen Hrange].
  exists lut, (map gray_of lut).
  split; [rewrite (view_colormap_arg registry arg cmap Hget);
          apply view_colormap_object; assumption|].
  split; [apply call_arange_wf; assumption|]. split; [exact Hlen|].
  split; [rewrite length_map; exact Hlen|].
  apply Forall_map. eapply Forall_impl; [exact Hrange|]. intros c Hc. apply gray_of_gray, Hc.
Qed.

Lemma view_colormap_images_witness :
  get_cmap ∅ (ByObject two_tone) = Some two_tone /\ wf two_tone /\ (2 <= N two_tone)%nat /\
  exists colors grayscale,
    view_colormap ∅ (ByObject two_tone) = Some (colors, grayscale) /\
    call_arange two_tone = Some colors /\
    length colors = N two_tone /\ length grayscale = N two_tone /\
    Forall (fun g => red g = green g /\ green g = blue g /\ in_unit_range g) grayscale.
Proof.
  split; [reflexivity|]. split; [exact two_tone_wf|]. split; [cbn; lia|].
  apply (view_colormap_images ∅ (ByObject two_tone) two_tone);
    [reflexivity | exact two_tone_wf | cbn; lia].
Defined.

(** X4: When [view_colormap] raises on a colormap of the library: exactly when
    the colormap has fewer than two entries.  With no entry,
    [grayscale_cmap] already raises (there is no colour to give
    [from_list]); with one entry it returns a colormap, and the lookup of
    the gray colours raises. *)
Theorem view_colormap_raises (registry : gmap string Colormap) (arg : cmap_arg)
    (cmap : Colormap) :
  get_cmap registry arg = Some cmap -> wf cmap ->
  (view_colormap registry arg = None <-> (N cmap < 2)%nat) /\
  (grayscale_cmap registry (ByObject cmap) = None <-> N cmap = 0%nat) /\
  (N cmap = 1%nat ->
   exists gray, grayscale_cmap registry (ByObject cmap) = Some gray /\
                N gray = 1%nat /\ call_arange gray = None).
Proof.
  intros Hget Hwf. pose proof Hwf as Hwf'. unfold wf in Hwf.
  destruct (_init cmap) as [lut|] eqn:Hinit; [| contradiction].
  destruct Hwf as [Hlen Hrange].
  assert (Hcall : call_arange cmap = Some lut) by (apply call_arange_wf; assumption).
  rewrite (view_colormap_arg registry arg cmap Hget).
  destruct (N cmap) as [|[|n]] eqn:HN.
  - (* no entry *)
    destruct lut; [| discriminate Hlen].
    pose proof (grayscale_cmap_zero registry cmap Hinit HN) as Hg.
    split; [| split].
    + split; [lia|]. intros _. unfold view_colormap. cbn [get_cmap]. rewrite Hcall, Hg. reflexivity.
    + split; auto.
    + discriminate.
  - (* one entry *)
    destruct lut as [|c [|]]; try discriminate Hlen.
    assert (Hc : in_unit_range c) by (inversion Hrange; assumption).
    pose proof (grayscale_cmap_one registry cmap c Hinit HN Hc) as Hg.
    split; [| split].
    + split; [lia|]. intros _. unfold view_colormap. cbn [get_cmap]. rewrite Hcall, Hg. reflexivity.
    + rewrite Hg. split; [discriminate | lia].
    + intros _. eexists. split; [exact Hg|]. split; reflexivity.
  - (* two entries or more *)
    assert (H2 : (2 <= N cmap)%nat) by lia.
    rewrite <- HN in Hlen.
    split; [| split].
    + rewrite (view_colormap_object registry cmap lut Hinit Hlen Hrange H2).
      split; [discriminate | lia].
    + rewrite (grayscale_cmap_object registry cmap lut Hinit Hlen Hrange H2).
      split; [discriminate | lia].
    + discriminate.
Qed.

Lemma view_colormap_raises_witness :
  get_cmap ∅ (ByObject single_red) = Some single_red /\ wf single_red /\
  (view_colormap ∅ (ByObject single_red) = None <-> (N single_red < 2)%nat) /\
  (grayscale_cmap ∅ (ByObject single_red) = None <-> N single_red = 0%nat) /\
  (N single_red = 1%nat ->
   exists gray, grayscale_cmap ∅ (ByObject single_red) = Some gray /\
                N gray = 1%nat /\ call_arange gray = None).
Proof.
  assert (Hwf : wf single_red).
  { unfold wf, single_red, in_unit_range, unit_range. cbn [_init N length].
    split; [reflexivity|]. apply List.Forall_cons; [| apply List.Forall_nil].
    cbn [red green blue alpha]. repeat split; lra. }
  split; [reflexivity|]. split; [exact Hwf|].
  apply (view_colormap_raises ∅ (ByObject single_red) single_red eq_refl Hwf).
Defined.

End ViewColormap.

(** ** The speckles of the colorbars notebook *)

Section Speckles.

Import np.

Lemma length_setitem_mask {T : Type} (arr : list T) (mask : list bool) (values : list T) :
  length (setitem_mask arr mask values) = length arr.
Proof.
  revert mask values. induction arr as [|a arr IH]; intros mask values; [reflexivity|].
  destruct mask as [|[|] mask]; [reflexivity | |]; cbn [setitem_mask].
  - destruct values; cbn [length]; rewrite IH; reflexivity.
  - cbn [length]. rewrite IH. reflexivity.
Qed.

Lemma setitem_mask_unselected {T : Type} (arr : list T) (mask : list bool)
    (values : list T) (j : nat) :
  mask !! j = Some false -> setitem_mask arr mask values !! j = arr !! j.
Proof.
  revert mask values j. induction arr as [|a arr IH]; intros mask values j Hj.
  - destruct mask; reflexivity.
  - destruct mask as [|b mask]; [discriminate|].
    destruct j as [|j].
    + cbn in Hj. injection Hj as ->. reflexivity.
    + cbn in Hj. destruct b; cbn [setitem_mask].
      * destruct values; cbn; apply IH, Hj.
      * cbn. apply IH, Hj.
Qed.

Lemma count_nonzero_cons (b : bool) (mask : list bool) :
  count_nonzero (b :: mask) = ((if b then 1 else 0) + count_nonzero mask)%nat.
Proof. unfold count_nonzero. destruct b; reflexivity. Qed.

Lemma getitem_setitem_mask {T : Type} (arr : list T) (mask : list bool) (values : list T) :
  length mask = length arr -> count_nonzero mask <= length values ->
  getitem_mask (setitem_mask arr mask values) mask = take (count_nonzero mask) values.
Proof.
  revert mask values. induction arr as [|a arr IH]; intros mask values Hlen Hcount.
  - destruct mask; [reflexivity | discriminate].
  - destruct mask as [|b mask]; [discriminate|].
    injection Hlen as Hlen. rewrite count_nonzero_cons in Hcount |- *.
    destruct b; cbn [setitem_mask].
    + destruct values as [|v values]; [cbn in Hcount; lia|].
      cbn [getitem_mask Nat.add take]. f_equal. apply IH; [exact Hlen | cbn in Hcount; lia].
    + cbn [getitem_mask Nat.add]. apply IH; assumption.
Qed.

Lemma take_take_drop {T : Type} (c t : nat) (l : list T) :
  take c l ++ take t (drop c l) = take (c + t) l.
Proof.
  revert l. induction c as [|c IH]; intros l; [reflexivity|].
  destruct l as [|x l]; [destruct t; reflexivity|].
  cbn. f_equal. apply IH.
Qed.

Lemma setitem_mask2_shape {T : Type} (arr : list (list T)) (mask : list (list bool))
    (values : list T) :
  Forall2 (fun row row' => length row' = length row) arr (setitem_mask2 arr mask values).
Proof.
  revert mask values. induction arr as [|row arr IH]; intros mask values; [constructor|].
  destruct mask as [|mrow mask]; cbn [setitem_mask2].
  - apply Forall2_same_length_lookup_2; [reflexivity|]. congruence.
  - constructor; [apply length_setitem_mask | apply IH].
Qed.

Lemma setitem_mask2_unselected {T : Type} (arr : list (list T)) (mask : list (list bool))
    (values : list T) (i j : nat) :
  at2 mask i j = Some false -> at2 (setitem_mask2 arr mask values) i j = at2 arr i j.
Proof.
  revert mask values i. induction arr as [|row arr IH]; intros mask values i Hij.
  - destruct mask; reflexivity.
  - destruct mask as [|mrow mask]; [discriminate|].
    destruct i as [|i]; cbn [setitem_mask2]; unfold at2 in *; cbn in *.
    + apply setitem_mask_unselected. exact Hij.
    + apply (IH mask _ i Hij).
Qed.

Lemma getitem_setitem_mask2 {T : Type} (arr : list (list T)) (mask : list (list bool))
    (values : list T) :
  Forall2 (fun mrow row => length mrow = length row) mask arr ->
  list_sum (map count_nonzero mask) <= length values ->
  getitem_mask2 (setitem_mask2 arr mask values) mask
  = take (list_sum (map count_nonzero mask)) values.
Proof.
  intros Hshape. revert values.
  induction Hshape as [|mrow row mask arr Hrow _ IH]; intros values Hcount; [reflexivity|].
  change (list_sum (map count_nonzero (mrow :: mask)))
    with (count_nonzero mrow + list_sum (map count_nonzero mask)) in *.
  cbn [setitem_mask2]. unfold getitem_mask2 in *. cbn [zip_with concat].
  rewrite getitem_setitem_mask by (assumption || lia).
  rewrite IH by (rewrite length_drop; lia).
  apply take_take_drop.
Qed.

Lemma at2_map_map {A B : Type} (g : A -> B) (M : list (list A)) (i j : nat) :
  at2 (map (map g) M) i j = option_map g (at2 M i j).
Proof.
  unfold at2. rewrite list_lookup_fmap. destruct (M !! i) as [row|]; [| reflexivity].
  cbn. rewrite list_lookup_fmap. destruct (row !! j); reflexivity.
Qed.

(** X5: Cell 21 of the colorbars notebook, for an array [uniform] of the shape
    of [I] and [normal n] of [n] values: [I] keeps its shape; every pixel
    whose uniform draw is not below 0.01 keeps its value; the pixels whose
    draw is below 0.01, read in row-major order, hold the normal draws; and
    as many values were drawn as there are such pixels. *)
Theorem speckles_replace_selected (uniform : list (list Q)) (normal : nat -> list Q)
    (I : list (list Q)) :
  Forall2 (fun urow row => length urow = length row) uniform I ->
  (forall n, length (normal n) = n) ->
  let speckles := map (map (fun u => Qltb u 0.01)) uniform in
  let n := list_sum (map count_nonzero speckles) in
  let I' := Colorbars.cell_21 uniform normal I in
  Forall2 (fun row row' => length row' = length row) I I' /\
  (forall i j u, at2 uniform i j = Some u -> (0.01 <= u)%Q -> at2 I' i j = at2 I i j) /\
  getitem_mask2 I' speckles = normal n /\
  n = length (List.filter (fun u => Qltb u 0.01) (concat uniform)).
Proof.
  intros Hshape Hnormal speckles n I'. unfold I', Colorbars.cell_21. fold speckles. fold n.
  split; [apply setitem_mask2_shape|]. split; [| split].
  - intros i j u Hu Hge. apply setitem_mask2_unselected.
    unfold speckles. rewrite at2_map_map, Hu. cbn. f_equal. apply Qltb_false, Hge.
  - rewrite getitem_setitem_mask2.
    + fold n. rewrite <- (Hnormal n) at 1. apply firstn_all.
    + unfold speckles. apply Forall2_fmap_l.
      eapply Forall2_impl; [exact Hshape|]. intros urow row Hlen. unfold compose. cbv beta in Hlen |- *.
      rewrite length_map. exact Hlen.
    + fold n. rewrite Hnormal. lia.
  - unfold n, speckles. clear. induction uniform as [|urow uniform IH]; [reflexivity|].
    cbn [map concat]. rewrite List.filter_app, length_app, <- IH.
    change (list_sum (?a :: ?l)) with (a + list_sum l). f_equal.
    unfold count_nonzero. clear. induction urow as [|u urow IH]; [reflexivity|].
    cbn [map List.filter]. destruct (Qltb u 0.01); cbn [length]; rewrite IH; reflexivity.
Qed.

Lemma speckles_replace_selected_witness :
  let uniform := [[0.5; 0.001]; [0.9; 0.002]]%Q in
  let normal := fun n => repeat 7%Q n in
  let I := [[1; 2]; [3; 4]]%Q in
  Forall2 (fun urow row => length urow = length row) uniform I /\
  (forall n, length (normal n) = n) /\
  let speckles := map (map (fun u => Qltb u 0.01)) uniform in
  let n := list_sum (map count_nonzero speckles) in
  let I' := Colorbars.cell_21 uniform normal I in
  Forall2 (fun row row' => length row' = length row) I I' /\
  (forall i j u, at2 uniform i j = Some u -> (0.01 <= u)%Q -> at2 I' i j = at2 I i j) /\
  getitem_mask2 I' speckles = normal n /\
  n = length (List.filter (fun u => Qltb u 0.01) (concat uniform)).
Proof.
  intros uniform normal I.
  assert (H1 : Forall2 (fun urow row => length urow = length row) uniform I)
    by (repeat constructor).
  assert (H2 : forall n, length (normal n) = n) by (intros n; apply repeat_length).
  split; [exact H1|]. split; [exact H2|].
  apply (speckles_replace_selected uniform normal I H1 H2).
Defined.

End Speckles.

(** ** The image of the colorbars notebook *)

Section ImageRange.

Local Open Scope R_scope.

Lemma at2_broadcast_row_column {T : Type} (op : T -> T -> T) (row column : list T)
    (i j : nat) (r c : T) :
  row !! j = Some r -> column !! i = Some c ->
  np.at2 (np.broadcast_row_column op row column) i j = Some (op r c).
Proof.
  intros Hr Hc. unfold np.at2, np.broadcast_row_column.
  rewrite list_lookup_fmap, Hc. cbn. rewrite list_lookup_fmap, Hr. reflexivity.
Qed.

(** X6: The array [I] of cell 5 of the colorbars notebook, for any array [x] of
    [n] values: it is square of side [n], [I[i][j] = sin(x[j]) cos(x[i])],
    and every value lies within [-1, 1], the colour limits that cells 21
    and 24 set with [plt.clim(-1, 1)]. *)
Theorem image_range (x : list R) :
  let I := Colorbars.image Rtrigo_def.sin Rtrigo_def.cos Rmult x in
  np.has_shape I (length x) (length x) /\
  (forall i j xi xj, x !! i = Some xi -> x !! j = Some xj ->
     np.at2 I i j = Some (Rtrigo_def.sin xj * Rtrigo_def.cos xi)) /\
  Forall (Forall (fun v => -1 <= v <= 1)) I.
Proof.
  cbv zeta. unfold Colorbars.image. split; [| split].
  - unfold np.has_shape, np.broadcast_row_column. rewrite !length_map.
    split; [reflexivity|]. apply Forall_map, Forall_forall. intros c _. cbn.
    rewrite !length_map. reflexivity.
  - intros i j xi xj Hi Hj. apply at2_broadcast_row_column.
    + rewrite list_lookup_fmap, Hj. reflexivity.
    + rewrite list_lookup_fmap, Hi. reflexivity.
  - unfold np.broadcast_row_column. apply Forall_map, Forall_map, Forall_forall.
    intros xi _. cbn. apply Forall_map, Forall_map, Forall_forall. intros xj _. cbn.
    pose proof (SIN_bound xj). pose proof (COS_bound xi). split; nra.
Qed.

End ImageRange.

(** ** The density image of the histograms notebook *)

Section DensityImage.

Context {T : Type}.
Variable pdf : T -> T -> T.

Lemma zip_with_grid_rows (x y : list T) :
  zip_with pdf (concat (map (fun _ => x) y)) (concat (map (fun yi => map (fun _ => yi) x) y))
  = concat (map (fun yi => map (fun xj => pdf xj yi) x) y).
Proof.
  induction y as [|yi y IH]; [reflexivity|].
  cbn [map concat]. rewrite zip_with_app by (rewrite length_map; reflexivity).
  rewrite IH. f_equal.
  clear. induction x as [|xj x IH]; [reflexivity|]. cbn. f_equal. exact IH.
Qed.

Lemma chunks_concat (rows : list (list T)) (cols : nat) :
  Forall (fun row => length row = cols) rows ->
  np.chunks (length rows) cols (concat rows) = rows.
Proof.
  induction 1 as [|row rows Hrow _ IH]; [reflexivity|].
  cbn [length concat np.chunks]. subst cols.
  rewrite take_app_length, drop_app_length, IH. reflexivity.
Qed.

Lemma length_concat_rows (rows : list (list T)) (cols : nat) :
  Forall (fun row => length row = cols) rows -> length (concat rows) = length rows * cols.
Proof.
  induction 1 as [|row rows Hrow _ IH]; [reflexivity|].
  cbn [concat length]. rewrite length_app, IH, Hrow. lia.
Qed.

(** X7: Cell 21 of the histograms notebook, for grids of any lengths: the
    flattening, stacking and reshaping never raise; the image has one row
    for each value of [ygrid] and one column for each value of [xgrid]; and
    its pixel [[i][j]] is the density at the point [(xgrid[j], ygrid[i])]. *)
Theorem density_image_pixels (xgrid ygrid : list T) :
  exists image,
    Histograms.cell_21 pdf xgrid ygrid = Some image /\
    np.has_shape image (length ygrid) (length xgrid) /\
    forall i j xj yi, xgrid !! j = Some xj -> ygrid !! i = Some yi ->
      np.at2 image i j = Some (pdf xj yi).
Proof.
  set (rows := map (fun yi => map (fun xj => pdf xj yi) xgrid) ygrid).
  assert (Hrows : Forall (fun row => length row = length xgrid) rows).
  { unfold rows. apply Forall_map, Forall_forall. intros yi _. cbn. apply length_map. }
  assert (Hlen : length rows = length ygrid) by (unfold rows; apply length_map).
  exists rows. split; [| split].
  - unfold Histograms.cell_21, np.meshgrid, np.vstack2, np.ravel.
    assert (HX : length (concat (map (fun _ : T => xgrid) ygrid))
                 = length ygrid * length xgrid).
    { rewrite (length_concat_rows _ (length xgrid)), length_map; [reflexivity|].
      apply Forall_map, Forall_forall. intros; reflexivity. }
    assert (HY : length (concat (map (fun yi => map (fun _ : T => yi) xgrid) ygrid))
                 = length ygrid * length xgrid).
    { rewrite (length_concat_rows _ (length xgrid)), length_map; [reflexivity|].
      apply Forall_map, Forall_forall. intros yi _. cbn. apply length_map. }
    rewrite HX, HY, Nat.eqb_refl. cbn [Histograms.evaluate].
    rewrite zip_with_grid_rows. fold rows. unfold np.reshape, np.shape.
    rewrite (length_concat_rows rows (length xgrid) Hrows), length_map.
    cbn [fst snd]. destruct ygrid as [|y0 ygrid']; [reflexivity|].
    cbn [map]. rewrite Hlen, Nat.eqb_refl. f_equal.
    rewrite <- Hlen. apply chunks_concat, Hrows.
  - split; [exact Hlen | exact Hrows].
  - intros i j xj yi Hj Hi. unfold np.at2, rows.
    rewrite list_lookup_fmap, Hi. cbn. rewrite list_lookup_fmap, Hj. reflexivity.
Qed.

End DensityImage.

(** ** More on the births cell *)

Section BirthsBand.

Import np.

Lemma quantile_sorted_constant (s : list Q) (q v : Q) :
  StronglySorted Qle s -> s <> [] -> (0 <= q <= 1)%Q ->
  (forall i, (i < length s)%nat -> (nth i s 0 == v)%Q) ->
  (quantile_sorted s q == v)%Q.
Proof.
  intros Hs Hne Hq Hall.
  destruct (quantile_sorted_bounds s q Hs Hne Hq) as (i & j & Hi & Hj & [Hlo Hhi]).
  rewrite (Hall i Hi) in Hlo. rewrite (Hall j Hj) in Hhi.
  apply Qle_antisym; assumption.
Qed.

Lemma filter_none {A : Type} (f : A -> bool) (l : list A) :
  (forall a, In a l -> f a = false) -> List.filter f l = [].
Proof.
  induction l as [|a l IH]; intros H; [reflexivity|].
  cbn. rewrite (H a) by (left; reflexivity). apply IH. intros b Hb. apply H. right. exact Hb.
Qed.

(** X8: The births cell on a non-empty table whose births values are all equal
    (a table of one row, for one): the three quartiles coincide, the spread
    [sig] is 0, the band [(mu - 5 sig, mu + 5 sig)] is empty because both
    bounds are strict, and [query] keeps no row. *)
Theorem clean_constant_table (t : Annotation.table) (v : Q) :
  t <> [] -> (forall row, In row t -> Annotation.births row == v)%Q ->
  exists mu sig,
    Annotation.clean t = Some (mu, sig, []) /\ (mu == v)%Q /\ (sig == 0)%Q.
Proof.
  intros Hne Hall. destruct t as [|row0 rest]; [contradiction|].
  pose proof (percentile_quartiles (Annotation.births row0)
                (Annotation.births_column rest)) as Hp.
  set (values := Annotation.births row0 :: Annotation.births_column rest) in *.
  assert (Hs := sort_sorted values).
  assert (Hn : sort values <> []) by apply sort_nonempty.
  assert (Hv : forall i, i < length (sort values) -> (nth i (sort values) 0 == v)%Q).
  { intros i Hi.
    assert (Hin : In (nth i (sort values) 0%Q) values)
      by (apply (Permutation_in _ (sort_perm values)), nth_In, Hi).
    unfold values in Hin. change (In (nth i (sort values) 0%Q)
                                     (map Annotation.births (row0 :: rest))) in Hin.
    apply in_map_iff in Hin as (row & <- & Hrow). apply Hall, Hrow. }
  assert (Hq : forall q, Qle_bool 0 q && Qle_bool q 1 = true ->
                         (quantile_sorted (sort values) q == v)%Q).
  { intros q Hb. apply andb_true_iff in Hb as [H0 H1].
    apply quantile_sorted_constant; try assumption.
    split; apply Qle_bool_imp_le; assumption. }
  pose proof (Hq (25 / 100)%Q eq_refl) as H25.
  pose proof (Hq (50 / 100)%Q eq_refl) as H50.
  pose proof (Hq (75 / 100)%Q eq_refl) as H75.
  set (q25 := quantile_sorted (sort values) (25 / 100)) in *.
  set (q50 := quantile_sorted (sort values) (50 / 100)) in *.
  set (q75 := quantile_sorted (sort values) (75 / 100)) in *.
  assert (Hsig : (0.74 * (q75 - q25) == 0)%Q) by (rewrite H25, H75; ring).
  exists q50, (0.74 * (q75 - q25))%Q. split; [| split; assumption].
  unfold Annotation.clean.
  change (Annotation.births_column (row0 :: rest)) with values. rewrite Hp.
  change (Annotation.mu_sig [q25; q50; q75]) with (q50, (0.74 * (q75 - q25))%Q).
  cbv iota beta. f_equal. f_equal.
  unfold Annotation.query. apply filter_none. intros row Hrow.
  rewrite (Qltb_false (q50 - 5 * (0.74 * (q75 - q25))) (Annotation.births row)); [reflexivity|].
  rewrite (Hall row Hrow), Hsig, H50. lra.
Qed.

Lemma clean_constant_table_witness :
  let t := [Annotation.Row 1969%Z 1%Z (Some 1%Q) "F" 4046%Q;
            Annotation.Row 1969%Z 1%Z (Some 1%Q) "M" 4046%Q] in
  t <> [] /\ (forall row, In row t -> Annotation.births row == 4046)%Q /\
  exists mu sig,
    Annotation.clean t = Some (mu, sig, []) /\ (mu == 4046)%Q /\ (sig == 0)%Q.
Proof.
  intros t.
  assert (H1 : t <> []) by discriminate.
  assert (H2 : (forall row, In row t -> Annotation.births row == 4046)%Q).
  { intros row [<-|[<-|[]]]; reflexivity. }
  split; [exact H1|]. split; [exact H2|]. apply (clean_constant_table t 4046%Q H1 H2).
Defined.

Lemma wrap64_small (z : Z) :
  (- 2 ^ 63 <= z < 2 ^ 63)%Z -> Annotation.wrap64 z = z.
Proof.
  intros Hz. unfold Annotation.wrap64.
  rewrite Z.mod_small by lia. lia.
Qed.

Lemma date_key_small (year month day : Z) :
  (0 <= year <= 9999)%Z -> (0 <= month < 100)%Z -> (0 <= day < 100)%Z ->
  Annotation.date_key year month day = (10000 * year + 100 * month + day)%Z.
Proof.
  intros Hy Hm Hd. unfold Annotation.date_key, Annotation.add64, Annotation.mul64.
  rewrite (wrap64_small (10000 * year)) by lia.
  rewrite (wrap64_small (100 * month)) by lia.
  rewrite (wrap64_small (10000 * year + 100 * month)) by lia.
  apply wrap64_small. lia.
Qed.

(** X9: The int64 number [10000 year + 100 month + day] that the births cell
    builds for a row determines the row's date whenever the year has at most
    four digits (as the format '%Y%m%d' needs) and month and day at most
    two: its last two digits are the day, the two before them the month,
    what is left the year; so two such rows with one key have one date.
    Without the bound on the year the sum wraps around: the year [2 ^ 60]
    gives the key of the year 0. *)
Theorem date_key_decodes (year month day : Z) :
  (0 <= year <= 9999)%Z -> (0 <= month < 100)%Z -> (0 <= day < 100)%Z ->
  let key := Annotation.date_key year month day in
  (key / 10000 = year)%Z /\ ((key / 100) mod 100 = month)%Z /\ (key mod 100 = day)%Z /\
  (forall year' month' day',
     (0 <= year' <= 9999)%Z -> (0 <= month' < 100)%Z -> (0 <= day' < 100)%Z ->
     Annotation.date_key year' month' day' = key ->
     year' = year /\ month' = month /\ day' = day) /\
  Annotation.date_key (2 ^ 60) month day = Annotation.date_key 0 month day.
Proof.
  intros Hy Hm Hd key.
  assert (Hdec : forall y m d, (0 <= y <= 9999)%Z -> (0 <= m < 100)%Z -> (0 <= d < 100)%Z ->
            (Annotation.date_key y m d / 10000 = y)%Z /\
            ((Annotation.date_key y m d / 100) mod 100 = m)%Z /\
            (Annotation.date_key y m d mod 100 = d)%Z).
  { clear. intros y m d Hy Hm Hd. rewrite date_key_small by assumption.
    assert (H1 : ((10000 * y + 100 * m + d) / 100 = 100 * y + m)%Z).
    { symmetry. apply (Z.div_unique _ 100 _ d); lia. }
    split; [| split].
    - symmetry. apply (Z.div_unique _ 10000 _ (100 * m + d)); lia.
    - rewrite H1. symmetry. apply (Z.mod_unique _ 100 y m); lia.
    - symmetry. apply (Z.mod_unique _ 100 (100 * y + m) d); lia. }
  destruct (Hdec year month day Hy Hm Hd) as (Hye & Hmo & Hda).
  split; [exact Hye|]. split; [exact Hmo|]. split; [exact Hda|]. split.
  - intros y' m' d' Hy' Hm' Hd' Heq.
    destruct (Hdec y' m' d' Hy' Hm' Hd') as (Hye' & Hmo' & Hda').
    rewrite Heq in Hye', Hmo', Hda'. fold key in Hye, Hmo, Hda. lia.
  - unfold Annotation.date_key, Annotation.add64, Annotation.mul64.
    replace (Annotation.wrap64 (10000 * 2 ^ 60)) with (Annotation.wrap64 (10000 * 0))
      by (vm_compute; reflexivity).
    reflexivity.
Qed.

Lemma date_key_decodes_witness :
  (0 <= 1976 <= 9999)%Z /\ (0 <= 7 < 100)%Z /\ (0 <= 4 < 100)%Z /\
  let key := Annotation.date_key 1976 7 4 in
  (key / 10000 = 1976)%Z /\ ((key / 100) mod 100 = 7)%Z /\ (key mod 100 = 4)%Z /\
  (forall year' month' day',
     (0 <= year' <= 9999)%Z -> (0 <= month' < 100)%Z -> (0 <= day' < 100)%Z ->
     Annotation.date_key year' month' day' = key ->
     year' = 1976%Z /\ month' = 7%Z /\ day' = 4%Z) /\
  Annotation.date_key (2 ^ 60) 7 4 = Annotation.date_key 0 7 4.
Proof.
  assert (H0 : (0 <= 1976 <= 9999)%Z) by lia.
  assert (H1 : (0 <= 7 < 100)%Z) by lia. assert (H2 : (0 <= 4 < 100)%Z) by lia.
  split; [exact H0|]. split; [exact H1|]. split; [exact H2|].
  apply (date_key_decodes 1976 7 4 H0 H1 H2).
Defined.

End BirthsBand.

(** ** The annotated extrema *)

Section AnnotatedExtrema.

Local Open Scope R_scope.

(** X10: Cell 15 of the annotation notebook: the point that the cell annotates
    as 'local minimum' lies on the plotted curve [cos x], within the
    plotted range of x, and no value of the curve is lower; the point
    annotated as 'local maximum' is within the plotted range and no value of
    the curve is higher than it. *)
Theorem annotated_extrema :
  Annotation.curve (fst Annotation.local_minimum) = snd Annotation.local_minimum /\
  fst Annotation.plotted_range <= fst Annotation.local_minimum
    <= snd Annotation.plotted_range /\
  fst Annotation.plotted_range <= fst Annotation.local_maximum
    <= snd Annotation.plotted_range /\
  forall x, snd Annotation.local_minimum <= Annotation.curve x <= snd Annotation.local_maximum.
Proof.
  unfold Annotation.curve, Annotation.local_minimum, Annotation.local_maximum,
    Annotation.plotted_range. cbn [fst snd].
  split; [| split; [| split]].
  - replace (5 * PI) with (PI + 2 * INR 2 * PI) by (cbn; lra).
    rewrite cos_period. apply cos_PI.
  - pose proof PI_RGT_0. pose proof PI_4. lra.
  - lra.
  - apply COS_bound.
Qed.

End AnnotatedExtrema.

(** ** The model of the errorbars notebook *)

Section ModelEnvelope.

Local Open Scope R_scope.

(** X11: [model] of cell 9 of the errorbars notebook on any array: the result has
    the array's length, its entry [i] is [x[i] sin(x[i])], and it lies within
    the envelope [-|x[i]| .. |x[i]|]; the five values of [ydata] are within
    [-8, 8]. *)
Theorem model_envelope (x : list R) :
  length (Errorbars.model Rtrigo_def.sin Rmult x) = length x /\
  (forall i xi, x !! i = Some xi ->
     Errorbars.model Rtrigo_def.sin Rmult x !! i = Some (xi * Rtrigo_def.sin xi) /\
     Rabs (xi * Rtrigo_def.sin xi) <= Rabs xi) /\
  Forall (fun y => -8 <= y <= 8) (Errorbars.ydata Rtrigo_def.sin Rmult IZR).
Proof.
  assert (Henv : forall xi, Rabs (xi * Rtrigo_def.sin xi) <= Rabs xi).
  { intros xi. rewrite Rabs_mult. rewrite <- (Rmult_1_r (Rabs xi)) at 2.
    apply Rmult_le_compat_l; [apply Rabs_pos|].
    apply Rabs_le. apply SIN_bound. }
  split; [| split].
  - unfold Errorbars.model. rewrite length_zip_with, length_map. lia.
  - intros i xi Hi. split; [| apply Henv].
    unfold Errorbars.model. rewrite lookup_zip_with, Hi. cbn.
    rewrite list_lookup_fmap, Hi. reflexivity.
  - unfold Errorbars.ydata, Errorbars.xdata, Errorbars.model. cbn [map zip_with].
    repeat (apply List.Forall_cons; [| ]); [..| apply List.Forall_nil];
      match goal with
      | |- _ <= ?a * Rtrigo_def.sin ?a <= _ =>
          pose proof (SIN_bound a); lra
      end.
Qed.

End ModelEnvelope.

(** ** The curves and legends of the legends notebook *)

Section LegendCurves.

Import Legends.

Context {T : Type}.
Variables (sin : T -> T) (add subtract multiply divide : T -> T -> T).
Variables (pi : T) (of_int : Z -> T) (of_Q : Q -> T).

(** The curve of a phase: [sin(x + pi * a)]. *)
Definition shifted (a : Q) (v : T) : T := sin (add v (multiply pi (of_Q a))).

(** The curve of a delay: [sin(x - i * pi / 2)]. *)
Definition delayed (i : Z) (v : T) : T :=
  sin (subtract v (divide (multiply (of_int i) pi) (of_int 2))).

Abbreviation y_of := (Legends.y_of sin add multiply pi of_Q).
Abbreviation cell_13 := (Legends.cell_13 sin add multiply pi of_Q).
Abbreviation cell_21 := (Legends.cell_21 sin subtract multiply divide pi of_int).

Lemma arange_phases :
  exists q0 q1 q2 q3,
    np.arange 0 2 0.5 = [q0; q1; q2; q3] /\
    (q0 == 0 /\ q1 == 0.5 /\ q2 == 1 /\ q3 == 1.5)%Q.
Proof. do 4 eexists. split; [vm_compute; reflexivity | repeat split; reflexivity]. Qed.

Lemma phase_rows (x : list T) :
  y_of x = map (fun v => map (fun a => shifted a v) (np.arange 0 2 0.5)) x.
Proof.
  unfold Legends.y_of, np.ufunc1, np.broadcast_column_row, Legends.phases.
  rewrite map_map. apply map_ext. intros v. rewrite !map_map. reflexivity.
Qed.

Lemma column_rows {A B : Type} (f : A -> list B) (g : A -> B) (j : nat) (x : list A) :
  (forall a, f a !! j = Some (g a)) -> np.column (map f x) j = Some (map g x).
Proof.
  intros H. unfold np.column. induction x as [|a x IH]; [reflexivity|].
  cbn [map mapM]. rewrite H. cbn. rewrite IH. reflexivity.
Qed.

Lemma omap_seq_lookup {A B : Type} (F : nat -> option B) (G : A -> B) (gs : list A) (a : nat) :
  (forall j g, gs !! j = Some g -> F (a + j)%nat = Some (G g)) ->
  omap F (seq a (length gs)) = map G gs.
Proof.
  revert a. induction gs as [|g gs IH]; intros a H; [reflexivity|].
  pose proof (H 0%nat g eq_refl) as H0. rewrite Nat.add_0_r in H0.
  cbn. rewrite H0.
  f_equal. apply IH. intros j g' Hj.
  replace (S a + j)%nat with (a + S j)%nat by lia. apply (H (S j)). exact Hj.
Qed.

Lemma plot_columns_rows {A : Type} (F : A -> T -> T) (gs : list A) (x : list T) :
  x <> [] ->
  plot_columns x (map (fun v => map (fun a => F a v) gs) x)
  = map (fun a => Line x (map (F a) x) None None) gs.
Proof.
  intros Hx. unfold plot_columns.
  replace (snd (np.shape (map (fun v => map (fun a => F a v) gs) x))) with (length gs)
    by (destruct x; [contradiction | cbn; rewrite length_map; reflexivity]).
  apply omap_seq_lookup. intros j g Hj. cbn [Nat.add].
  rewrite (column_rows _ (F g)); [reflexivity|].
  intros v. rewrite list_lookup_fmap, Hj. reflexivity.
Qed.

Lemma getslice_head2 {A : Type} (a b c d : A) :
  python.getslice [a; b; c; d] None (Some 2%Z) = [a; b].
Proof. reflexivity. Qed.

Lemma getslice_tail2 {A : Type} (a b c d : A) :
  python.getslice [a; b; c; d] (Some 2%Z) None = [c; d].
Proof. reflexivity. Qed.

(** X12: Cells 13 and 15 of the legends notebook, for any non-empty array [x]
    and whatever the arithmetic of the arrays: [np.arange(0, 2, 0.5)] has the
    four entries 0, 0.5, 1 and 1.5; the array [y] has one column for each,
    the curve [sin(x + pi * a)]; both cells draw these four curves, in this
    order; and both show the same legend, with the label 'first' on the
    first curve, the label 'second' on the second and no entry for the other
    two, cell 13 by passing the first two lines and their labels to
    [plt.legend], cell 15 by labelling the lines when it plots them. *)
Theorem legends_first_second (x : list T) :
  x <> [] ->
  let curves := map (fun a => map (shifted a) x) (np.arange 0 2 0.5) in
  let entries := zip (take 2 curves) ["first"; "second"] in
  Forall2 Qeq (np.arange 0 2 0.5) [0; 0.5; 1; 1.5]%Q /\
  exists axes15 legend15,
    Legends.cell_15 x (y_of x) = Some (axes15, legend15) /\
    map ydata (cell_13 x).1 = curves /\
    map ydata axes15 = curves /\
    map (fun e : @Line2D T * string => (ydata e.1, e.2)) (cell_13 x).2 = entries /\
    map (fun e : @Line2D T * string => (ydata e.1, e.2)) legend15 = entries.
Proof.
  intros Hx curves entries. subst entries curves.
  unfold Legends.cell_13, Legends.legend. cbn [fst snd]. rewrite phase_rows.
  destruct arange_phases as (q0 & q1 & q2 & q3 & -> & H0 & H1 & H2 & H3).
  split; [repeat (apply List.Forall2_cons; [assumption|]); apply List.Forall2_nil|].
  assert (Hc0 : np.column (map (fun v => map (fun a => shifted a v) [q0; q1; q2; q3]) x) 0
                = Some (map (shifted q0) x))
    by (apply (column_rows _ (shifted q0)); reflexivity).
  assert (Hc1 : np.column (map (fun v => map (fun a => shifted a v) [q0; q1; q2; q3]) x) 1
                = Some (map (shifted q1) x))
    by (apply (column_rows _ (shifted q1)); reflexivity).
  assert (Hc2 : map (fun row => python.getslice row (Some 2%Z) None)
                  (map (fun v => map (fun a => shifted a v) [q0; q1; q2; q3]) x)
                = map (fun v => map (fun a => shifted a v) [q2; q3]) x).
  { rewrite map_map. apply map_ext. intros v. cbn [map]. apply getslice_tail2. }
  rewrite (plot_columns_rows shifted _ x Hx).
  do 2 eexists. split.
  - unfold Legends.cell_15. rewrite Hc0, Hc1, Hc2, (plot_columns_rows shifted _ x Hx). reflexivity.
  - cbn [map]. rewrite getslice_head2. repeat split; reflexivity.
Qed.

(** X13: Cell 21 of the legends notebook, for any array [x] and whatever the
    arithmetic of the arrays: no [styles[i]] is out of range; the loop draws
    four lines, the curves [sin(x - i * pi / 2)] for [i] = 0, 1, 2 and 3,
    with the four styles in order; and the two legends together label each
    line once, 'line A' to 'line D' in the order drawn, the first legend
    holding the first two lines and the second the last two. *)
Theorem legends_two_legends (x : list T) :
  exists lines first second,
    cell_21 x = Some (lines, first, second) /\
    map ydata lines = map (fun i => map (delayed i) x) [0; 1; 2; 3]%Z /\
    map fmt lines = [Some "-"; Some "--"; Some "-."; Some ":"] /\
    map fst (first ++ second) = lines /\
    map snd first = ["line A"; "line B"] /\
    map snd second = ["line C"; "line D"].
Proof.
  do 3 eexists. split; [unfold Legends.cell_21; cbn; reflexivity|].
  cbn [map ydata fmt fst snd app]. repeat split; reflexivity.
Qed.

End LegendCurves.

Lemma legends_first_second_witness :
  let x := [0; 1; 2]%R in
  let shifted := shifted (T := R) sin Rplus Rmult PI Q2R in
  x <> [] /\
  let curves := map (fun a => map (shifted a) x) (np.arange 0 2 0.5) in
  let entries := zip (take 2 curves) ["first"; "second"] in
  Forall2 Qeq (np.arange 0 2 0.5) [0; 0.5; 1; 1.5]%Q /\
  exists axes15 legend15,
    Legends.cell_15 x (Legends.y_of sin Rplus Rmult PI Q2R x) = Some (axes15, legend15) /\
    map Legends.ydata (Legends.cell_13 sin Rplus Rmult PI Q2R x).1 = curves /\
    map Legends.ydata axes15 = curves /\
    map (fun e : @Legends.Line2D R * string => (Legends.ydata e.1, e.2))
      (Legends.cell_13 sin Rplus Rmult PI Q2R x).2 = entries /\
    map (fun e : @Legends.Line2D R * string => (Legends.ydata e.1, e.2)) legend15 = entries.
Proof.
  intros x shifted. assert (Hx : x <> []) by discriminate.
  split; [exact Hx|]. apply (legends_first_second sin Rplus Rmult PI Q2R x Hx).
Defined.

(** ** The grids of the subplots notebook *)

Section GridPanels.

Import Grids.

(** X14: The panels of the subplots notebook.  Cell 21 takes four panels from
    the 2 x 3 grid of cell 19, and every cell of the grid belongs to
    exactly one of them.  Cell 23 takes three panels from its 4 x 4 grid:
    no two overlap; the histogram at the left spans the rows of the main
    panel and ends where it starts, the one below spans its columns and
    starts where it ends; and only the bottom left cell of the grid belongs
    to no panel. *)
Theorem grid_panels :
  (exists p1 p2 p3 p4,
     panels 19 21 = Some [p1; p2; p3; p4] /\
     forall i j, i < 2 -> j < 3 ->
       length (List.filter (fun p => covers p i j) [p1; p2; p3; p4]) = 1) /\
  (exists main_ax y_hist x_hist,
     panels 23 23 = Some [main_ax; y_hist; x_hist] /\
     rowspan y_hist = rowspan main_ax /\ snd (colspan y_hist) = fst (colspan main_ax) /\
     colspan x_hist = colspan main_ax /\ fst (rowspan x_hist) = snd (rowspan main_ax) /\
     forall i j, i < 4 -> j < 4 ->
       length (List.filter (fun p => covers p i j) [main_ax; y_hist; x_hist])
       = if bool_decide ((i, j) = (3, 0)) then 0 else 1).
Proof.
  split.
  - do 4 eexists. split; [vm_compute; reflexivity|].
    intros i j Hi Hj.
    destruct i as [|[|i]]; [| | lia]; destruct j as [|[|[|j]]]; try lia; reflexivity.
  - do 3 eexists. split; [vm_compute; reflexivity|].
    repeat (split; [reflexivity|]).
    intros i j Hi Hj.
    destruct i as [|[|[|[|i]]]]; try lia; destruct j as [|[|[|[|j]]]]; try lia; reflexivity.
Qed.

End GridPanels.

(** ** The arrays of the scatter notebook *)

Section ScatterArrays.

Import ScatterReal.
Local Open Scope R_scope.

Context {rng : Type}.
Variable RandomState : Z -> rng.
Variables rand randn : rng -> nat -> list R * rng.

(** What the array library promises of the two draws: [rand(n)] gives [n]
    values in [0, 1), [randn(n)] gives [n] values. *)
Hypothesis rand_spec :
  forall g n, length (rand g n).1 = n /\ Forall (fun v => 0 <= v < 1) (rand g n).1.
Hypothesis randn_spec : forall g n, length (randn g n).1 = n.

Lemma marker_lines_points (ms : list string) (g : rng) :
  Forall five_points (marker_lines rand ms g).1 /\
  map marker_of (marker_lines rand ms g).1 = ms.
Proof using rand_spec.
  revert g. induction ms as [|m ms IH]; intros g; [split; [constructor | reflexivity]|].
  cbn [marker_lines].
  pose proof (rand_spec g 5) as [Hx1 Hx2]. destruct (rand g 5) as [xs g1].
  pose proof (rand_spec g1 5) as [Hy1 _]. destruct (rand g1 5) as [ys g2].
  specialize (IH g2). destruct (marker_lines rand ms g2) as [lines g3].
  cbn [fst snd] in *. destruct IH as [IH1 IH2]. split.
  - constructor; [| exact IH1]. cbn. repeat split; try assumption.
    eapply Forall_impl; [exact Hx2|]. cbn. intros v Hv. lra.
  - cbn. f_equal. exact IH2.
Qed.

(** X15: The arrays of the seeded cells, for a generator that keeps the array
    library's promises.  Cell 15 binds [x], [y], [colors] and [sizes] to
    arrays of 100 values each, so that [plt.scatter] gets one colour and
    one size for each point, and every size lies in [0, 1000).  Cell 6
    draws eleven lines, one for each marker in order, of five points each,
    all within the limits [0, 1.8] that the cell sets for x. *)
Theorem scatter_arrays (k : @Scatter.kernel R rng) :
  (exists x y colors sizes,
     Scatter.drawn k (Scatter.cell_15 RandomState rand randn times k)
     = [Scatter.Points x y colors sizes] /\
     Scatter.user_ns (Scatter.cell_15 RandomState rand randn times k) !! "x"
     = Some (Scatter.Array x) /\
     Scatter.user_ns (Scatter.cell_15 RandomState rand randn times k) !! "y"
     = Some (Scatter.Array y) /\
     Scatter.user_ns (Scatter.cell_15 RandomState rand randn times k) !! "colors"
     = Some (Scatter.Array colors) /\
     Scatter.user_ns (Scatter.cell_15 RandomState rand randn times k) !! "sizes"
     = Some (Scatter.Array sizes) /\
     length x = 100%nat /\ length y = 100%nat /\
     length colors = 100%nat /\ length sizes = 100%nat /\
     Forall (fun s => 0 <= s < 1000) sizes) /\
  length (Scatter.drawn k (Scatter.cell_6 RandomState rand k)) = 11%nat /\
  Forall five_points (Scatter.drawn k (Scatter.cell_6 RandomState rand k)) /\
  map marker_of (Scatter.drawn k (Scatter.cell_6 RandomState rand k)) = Scatter.markers.
Proof using rand_spec randn_spec.
  split.
  - pose proof (cell_15_bindings RandomState rand randn times k) as H.
    pose proof (randn_spec (RandomState 0) 100) as Hx.
    destruct (randn (RandomState 0) 100) as [x g1].
    pose proof (randn_spec g1 100) as Hy. destruct (randn g1 100) as [y g2].
    pose proof (rand_spec g2 100) as [Hc _]. destruct (rand g2 100) as [colors g3].
    pose proof (rand_spec g3 100) as [Hs1 Hs2]. destruct (rand g3 100) as [r g4].
    cbn [fst] in *. destruct H as (H1 & H2 & H3 & H4 & H5 & _).
    exists x, y, colors, (map (times 1000) r).
    repeat (split; [assumption|]). split; [rewrite length_map; exact Hs1|].
    apply Forall_map. eapply Forall_impl; [exact Hs2|]. unfold times. cbn. intros v Hv. lra.
  - pose proof (cell_6_drawn RandomState rand k) as [Hd _].
    pose proof (marker_lines_points Scatter.markers (RandomState 0)) as [Hp Hm].
    rewrite Hd. split; [| split; assumption].
    rewrite <- (length_map marker_of), Hm. reflexivity.
Qed.

End ScatterArrays.

Lemma scatter_arrays_witness :
  let rand := fun (g n : nat) => (repeat (1 / 2)%R n, S g) in
  let randn := fun (g n : nat) => (repeat 0%R n, S g) in
  let k := Scatter.Kernel ∅ 0%nat [] in
  (forall g n, length (rand g n).1 = n /\ Forall (fun v => (0 <= v < 1)%R) (rand g n).1) /\
  (forall g n, length (randn g n).1 = n) /\
  (exists x y colors sizes,
     Scatter.drawn k (Scatter.cell_15 Z.to_nat rand randn ScatterReal.times k)
     = [Scatter.Points x y colors sizes] /\
     Scatter.user_ns (Scatter.cell_15 Z.to_nat rand randn ScatterReal.times k) !! "x"
     = Some (Scatter.Array x) /\
     Scatter.user_ns (Scatter.cell_15 Z.to_nat rand randn ScatterReal.times k) !! "y"
     = Some (Scatter.Array y) /\
     Scatter.user_ns (Scatter.cell_15 Z.to_nat rand randn ScatterReal.times k) !! "colors"
     = Some (Scatter.Array colors) /\
     Scatter.user_ns (Scatter.cell_15 Z.to_nat rand randn ScatterReal.times k) !! "sizes"
     = Some (Scatter.Array sizes) /\
     length x = 100%nat /\ length y = 100%nat /\
     length colors = 100%nat /\ length sizes = 100%nat /\
     Forall (fun s => (0 <= s < 1000)%R) sizes) /\
  length (Scatter.drawn k (Scatter.cell_6 Z.to_nat rand k)) = 11%nat /\
  Forall ScatterReal.five_points (Scatter.drawn k (Scatter.cell_6 Z.to_nat rand k)) /\
  map ScatterReal.marker_of (Scatter.drawn k (Scatter.cell_6 Z.to_nat rand k)) = Scatter.markers.
Proof.
  intros rand randn k.
  assert (H1 : forall g n, length (rand g n).1 = n /\
                           Forall (fun v => (0 <= v < 1)%R) (rand g n).1).
  { intros g n. cbn. split; [apply repeat_length|].
    apply Forall_forall. intros v Hv. apply list_elem_of_In, repeat_spec in Hv. subst. lra. }
  assert (H2 : forall g n, length (randn g n).1 = n) by (intros g n; apply repeat_length).
  split; [exact H1|]. split; [exact H2|].
  apply (scatter_arrays Z.to_nat rand randn H1 H2 k).
Defined.


(** ** The kernel's execution *)

Section stmt_induction.

Import Py.

Variable P : stmt -> Prop.
Hypothesis HImport : forall m a, P (Import m a).
Hypothesis HImportFrom : forall m a, P (ImportFrom m a).
Hypothesis HAssign : forall ts v, P (Assign ts v).
Hypothesis HAugAssign : forall t o v, P (AugAssign t o v).
Hypothesis HExpr : forall e, P (Expr e).
Hypothesis HFor : forall t it body, Forall P body -> P (For t it body).
Hypothesis HFunctionDef : forall n args body, Forall P body -> P (FunctionDef n args body).
Hypothesis HReturn : forall e, P (Return e).
Hypothesis HMagic : forall l, P (Magic l).
Hypothesis HTry : forall body handlers, Forall P body -> Forall P handlers -> P (Try body handlers).
Hypothesis HRaise : forall e, P (Raise e).
Hypothesis HIf : forall t body orelse, Forall P body -> Forall P orelse -> P (If t body orelse).

Fixpoint stmt_nested_ind (s : stmt) : P s :=
  let all := fix all (b : list stmt) : Forall P b :=
    match b with
    | [] => @List.Forall_nil _ P
    | s :: b0 => @List.Forall_cons _ P s b0 (stmt_nested_ind s) (all b0)
    end in
  match s with
  | Import m a => HImport m a
  | ImportFrom m a => HImportFrom m a
  | Assign ts v => HAssign ts v
  | AugAssign t o v => HAugAssign t o v
  | Expr e => HExpr e
  | For t it body => HFor t it body (all body)
  | FunctionDef n args body => HFunctionDef n args body (all body)
  | Return e => HReturn e
  | Magic l => HMagic l
  | Try body handlers => HTry body handlers (all body) (all handlers)
  | Raise e => HRaise e
  | If t body orelse => HIf t body orelse (all body) (all orelse)
  end.

End stmt_induction.

(** Membership goals, solved from the membership facts alone. *)
Ltac only_sets :=
  repeat match goal with
         | H : ?T |- _ =>
             lazymatch T with
             | _ ∈ _ => fail
             | _ ∉ _ => fail
             | _ ⊆ _ => fail
             | string => fail
             | list string => fail
             | _ => clear H
             end
         end.

Ltac sets := only_sets; set_solver.

Section KernelFacts.

Import Py.

Context {V E : Type}.
Variables (lit : V) (len : V -> nat) (truthy : V -> bool).
Variable lib : nat -> @Py.outcome V E.

Abbreviation kernel := (@Py.kernel V).
Abbreviation result := (@Py.result V E).
Abbreviation run_events := (Py.run_events lib).
Abbreviation eval := (Py.eval lit lib).
Abbreviation write := (Py.write lib).
Abbreviation store := (Py.store lit lib).
Abbreviation store_all := (Py.store_all lit lib).
Abbreviation store_each := (Py.store_each lit lib).
Abbreviation eval_list := (Py.eval_list lit lib).
Abbreviation exec := (Py.exec lit len truthy lib).
Abbreviation import := (Py.import lib).
Abbreviation clean := (Py.clean lib).
Abbreviation raised_by := (Py.raised_by lib).
Abbreviation verdict := (Py.verdict lib).

(** What every step does to a kernel: the operation count and the store
    only grow, and only the names of [xs] are rebound. *)
Record extends (xs : list string) (k k' : kernel) : Prop := {
  ext_tick : tick k <= tick k';
  ext_heap : length (heap k) <= length (heap k');
  ext_ns : forall x, x ∉ xs -> ns k' !! x = ns k !! x
}.

Lemma extends_refl xs k : extends xs k k.
Proof. split; auto. Qed.

Lemma extends_trans xs ys k1 k2 k3 :
  extends xs k1 k2 -> extends ys k2 k3 -> extends (xs ++ ys) k1 k3.
Proof.
  intros [T1 H1 N1] [T2 H2 N2]. split; [lia | lia |].
  intros x Hx. rewrite N2, N1; [reflexivity | |]; intros Hin; apply Hx; sets.
Qed.

Lemma extends_weaken xs ys k k' : xs ⊆ ys -> extends xs k k' -> extends ys k k'.
Proof. intros Hsub [T H N]. split; [exact T | exact H |]. intros x Hx. apply N. sets. Qed.

Lemma clean_refl t : clean t t.
Proof. intros i Hi. lia. Qed.

Lemma clean_trans t1 t2 t3 : clean t1 t2 -> clean t2 t3 -> clean t1 t3.
Proof.
  intros H1 H2 i Hi. destruct (Nat.lt_ge_cases i t2); [apply H1 | apply H2]; lia.
Qed.

Lemma raised_by_after err t t1 t' :
  t <= t1 -> clean t t1 -> raised_by err t1 t' -> raised_by err t t'.
Proof.
  intros Hle Hc. destruct err as [i e|x|l]; cbn; [| apply clean_trans, Hc | auto].
  intros (Hl & Hi & Ht & Hc'). repeat split; [exact Hl | lia | exact Ht |].
  eapply clean_trans; eassumption.
Qed.

Lemma verdict_seq k k1 r :
  tick k <= tick k1 -> verdict k (Done k1) -> verdict k1 r -> verdict k r.
Proof.
  intros Hle Hc. destruct r as [k'|k'|err k']; cbn in *;
    [apply clean_trans, Hc | apply clean_trans, Hc | apply raised_by_after; assumption].
Qed.

(** The outcome of a step that can fail, read as a result. *)
Definition as_result {A : Type} (r : (A + @error E) * kernel) : result :=
  match r with
  | (inl _, k) => Done k
  | (inr err, k) => Error err k
  end.

(** A step from [k]: its state extends [k], binding only names of [xs], and
    its result tells the operations' outcomes truly. *)
Definition sound_step (xs : list string) (k : kernel) (r : result) : Prop :=
  extends xs k (state_of r) /\ verdict k r.

Lemma sound_step_weaken xs ys k r : xs ⊆ ys -> sound_step xs k r -> sound_step ys k r.
Proof. intros Hsub [H1 H2]. split; [eapply extends_weaken; eassumption | exact H2]. Qed.

Lemma sound_step_done xs k : sound_step xs k (Done k).
Proof. split; [apply extends_refl | apply clean_refl]. Qed.

(** Sequencing: a step to [Done k1] followed by a step from [k1]. *)
Lemma sound_step_seq xs ys k k1 r :
  sound_step xs k (Done k1) -> sound_step ys k1 r -> sound_step (xs ++ ys) k r.
Proof.
  intros [H1 V1] [H2 V2]. split; [eapply extends_trans; eassumption|].
  eapply verdict_seq; [apply (ext_tick _ _ _ H1) | exact V1 | exact V2].
Qed.

Lemma run_events_heap evs v k : heap (run_events evs v k).2 = heap k.
Proof.
  revert v k. induction evs as [|[x|] evs IH]; intros v k; cbn [Py.run_events]; [reflexivity | |].
  - destruct (readable x k); [apply IH | reflexivity].
  - destruct (lib (tick k)); [rewrite IH|]; reflexivity.
Qed.

Lemma run_events_ns evs v k : ns (run_events evs v k).2 = ns k.
Proof.
  revert v k. induction evs as [|[x|] evs IH]; intros v k; cbn [Py.run_events]; [reflexivity | |].
  - destruct (readable x k); [apply IH | reflexivity].
  - destruct (lib (tick k)); [rewrite IH|]; reflexivity.
Qed.

Lemma op_returns_sound k v : lib (tick k) = Returns v -> sound_step [] k (Done (ticked k)).
Proof.
  intros El. split; [split; cbn; auto|]. cbn. intros i Hi.
  assert (i = tick k) as -> by lia. eauto.
Qed.

Lemma op_raises_sound k e :
  lib (tick k) = Raises e -> sound_step [] k (Error (LibraryError (tick k) e) (ticked k)).
Proof.
  intros El. split; [split; cbn; auto|]. cbn. repeat split; [exact El | lia | apply clean_refl].
Qed.

Lemma run_events_sound evs v k : sound_step [] k (as_result (run_events evs v k)).
Proof.
  revert v k. induction evs as [|[x|] evs IH]; intros v k; cbn [Py.run_events].
  - apply sound_step_done.
  - destruct (readable x k); [apply IH|]. split; [apply extends_refl | apply clean_refl].
  - destruct (lib (tick k)) as [v'|e] eqn:El.
    + apply (sound_step_seq [] [] k (ticked k)); [apply (op_returns_sound k v' El) | apply IH].
    + apply op_raises_sound, El.
Qed.

Lemma eval_sound e k : sound_step [] k (as_result (eval e k)).
Proof.
  unfold Py.eval. pose proof (run_events_sound (events e) lit k) as Hs.
  destruct (run_events (events e) lit k) as [[v|err] k1]; cbn in *; [| exact Hs].
  destruct Hs as [[T H N] Hv]. cbn in T, H, N, Hv.
  destruct (denoted e k1); cbn.
  - split; [split; assumption | exact Hv].
  - split; [| exact Hv]. split; cbn; [exact T | rewrite length_app; lia | exact N].
Qed.

Lemma write_sound base k : sound_step [] k (write base k).
Proof.
  unfold Py.write. destruct (lib (tick k)) as [v|e] eqn:El.
  - pose proof (op_returns_sound k v El) as [[T H N] Hv]. cbn in T, H, N, Hv.
    destruct (denoted base k); (split; [| exact Hv]); split; cbn; auto.
    rewrite length_insert. lia.
  - apply op_raises_sound, El.
Qed.

Lemma bind_all_ns xs l (k : kernel) x : x ∉ xs -> ns (bind_all xs l k) !! x = ns k !! x.
Proof.
  unfold bind_all. revert k. induction xs as [|y xs IH]; intros k Hx; cbn; [reflexivity|].
  rewrite IH by sets. cbn. apply lookup_insert_ne. sets.
Qed.

Lemma bind_all_heap xs l (k : kernel) :
  heap (bind_all xs l k) = heap k /\ tick (bind_all xs l k) = tick k.
Proof.
  unfold bind_all. revert k. induction xs as [|y xs IH]; intros k; cbn; [auto|].
  destruct (IH (bind y l k)) as [-> ->]. auto.
Qed.

Lemma bind_all_sound xs l (k : kernel) : sound_step xs k (Done (bind_all xs l k)).
Proof.
  destruct (bind_all_heap xs l k) as [Hh Ht].
  split; [| cbn; rewrite Ht; apply clean_refl]. split; cbn; [lia | rewrite Hh; lia |].
  intros x Hx. apply bind_all_ns, Hx.
Qed.

Lemma events_then_write_sound evs base k :
  sound_step [] k
    (match run_events evs lit k with
     | (inr err, k') => Error err k'
     | (inl _, k') => write base k'
     end).
Proof.
  pose proof (run_events_sound evs lit k) as Hs.
  destruct (run_events evs lit k) as [[v|err] k1]; cbn in Hs; [| exact Hs].
  apply (sound_step_seq [] [] k k1); [exact Hs | apply write_sound].
Qed.

Lemma store_sound t l k : sound_step (target_names t) k (store t l k).
Proof.
  destruct t; cbn [Py.store target_names]; try apply bind_all_sound;
    apply (sound_step_weaken []); try sets; apply events_then_write_sound.
Qed.

Lemma store_all_sound ts l k : sound_step (flat_map target_names ts) k (store_all ts l k).
Proof.
  revert k. induction ts as [|t ts IH]; intros k; cbn [Py.store_all flat_map].
  - apply sound_step_done.
  - pose proof (store_sound t l k) as Hs. destruct (store t l k) as [k1|k1|err k1].
    + eapply sound_step_seq; [exact Hs | apply IH].
    + eapply sound_step_weaken; [| exact Hs]. sets.
    + eapply sound_step_weaken; [| exact Hs]. sets.
Qed.

Lemma store_each_sound ts ls k : sound_step (flat_map target_names ts) k (store_each ts ls k).
Proof.
  revert ls k. induction ts as [|t ts IH]; intros ls k; cbn [Py.store_each flat_map].
  - apply sound_step_done.
  - destruct ls as [|l ls]; [eapply sound_step_weaken; [| apply sound_step_done]; sets|].
    pose proof (store_sound t l k) as Hs. destruct (store t l k) as [k1|k1|err k1].
    + eapply sound_step_seq; [exact Hs | apply IH].
    + eapply sound_step_weaken; [| exact Hs]. sets.
    + eapply sound_step_weaken; [| exact Hs]. sets.
Qed.

Lemma eval_list_sound es k : sound_step [] k (as_result (eval_list es k)).
Proof.
  revert k. induction es as [|e es IH]; intros k; cbn [Py.eval_list].
  - apply sound_step_done.
  - pose proof (eval_sound e k) as Hs. destruct (eval e k) as [[l|err] k1]; cbn in Hs; [| exact Hs].
    pose proof (IH k1) as Hs'. destruct (eval_list es k1) as [[ls|err] k2]; cbn in Hs' |- *;
      apply (sound_step_seq [] [] k k1); assumption.
Qed.

Lemma import_sound a k : sound_step [a] k (import a k).
Proof.
  unfold Py.import. destruct (lib (tick k)) as [v|e] eqn:El.
  - pose proof (op_returns_sound k v El) as [_ Hv]. cbn in Hv.
    cbn. split; [| exact Hv]. split; cbn; [lia | rewrite length_app; lia |].
    intros x Hx. apply lookup_insert_ne. sets.
  - eapply sound_step_weaken; [| apply op_raises_sound, El]. sets.
Qed.

(** The same reading for steps that may hold a handler or a [raise]: the
    verdict is claimed only when [p] says the step is plain. *)
Definition guarded_step (p : bool) (xs : list string) (k : kernel) (r : result) : Prop :=
  extends xs k (state_of r) /\ (p = true -> verdict k r).

Lemma guarded_of_sound p xs k r : sound_step xs k r -> guarded_step p xs k r.
Proof. intros [H1 H2]. split; [exact H1 | intros _; exact H2]. Qed.

Lemma guarded_weaken p xs ys k r : xs ⊆ ys -> guarded_step p xs k r -> guarded_step p ys k r.
Proof. intros Hsub [H1 H2]. split; [eapply extends_weaken; eassumption | exact H2]. Qed.

Lemma guarded_seq p q xs ys k k1 r :
  guarded_step p xs k (Done k1) -> guarded_step q ys k1 r ->
  guarded_step (p && q) (xs ++ ys) k r.
Proof.
  intros [H1 V1] [H2 V2]. split; [eapply extends_trans; eassumption|].
  intros Hpq. apply andb_true_iff in Hpq as [Hp Hq].
  eapply verdict_seq; [apply (ext_tick _ _ _ H1) | exact (V1 Hp) | exact (V2 Hq)].
Qed.

Lemma guarded_stop p q xs ys k r :
  xs ⊆ ys -> (forall k', r <> Done k') -> guarded_step p xs k r -> guarded_step (p && q) ys k r.
Proof.
  intros Hsub _ [H1 V1]. split; [eapply extends_weaken; eassumption|].
  intros Hpq. apply andb_true_iff in Hpq as [Hp _]. exact (V1 Hp).
Qed.

Lemma exec_block_guarded (b : list stmt) :
  Forall (fun s => forall k, guarded_step (plain s) (assigned_names s) k (exec s k)) b ->
  forall k, guarded_step (forallb plain b) (flat_map assigned_names b) k
              (exec_block exec b k).
Proof.
  induction 1 as [|s b Hs _ IH]; intros k; cbn [exec_block forallb flat_map].
  - apply guarded_of_sound, sound_step_done.
  - specialize (Hs k). destruct (exec s k) as [k1|k1|err k1].
    + eapply guarded_seq; [exact Hs | apply IH].
    + eapply guarded_stop; [| | exact Hs]; [sets | intros ? [=]].
    + eapply guarded_stop; [| | exact Hs]; [sets | intros ? [=]].
Qed.

Lemma repeat_block_guarded p xs n (step : kernel -> result) :
  (forall k, guarded_step p xs k (step k)) ->
  forall k, guarded_step p xs k (repeat_block n step k).
Proof.
  intros Hstep. induction n as [|n IH]; intros k; cbn [repeat_block].
  - eapply guarded_weaken; [| apply guarded_of_sound, sound_step_done]. sets.
  - pose proof (Hstep k) as Hs. destruct (step k) as [k1|k1|err k1]; [| exact Hs | exact Hs].
    pose proof (guarded_seq p p xs xs k k1 _ Hs (IH k1)) as Hseq.
    rewrite andb_diag in Hseq. eapply guarded_weaken; [| exact Hseq]. sets.
Qed.

Lemma exec_guarded (s : stmt) :
  forall k, guarded_step (plain s) (assigned_names s) k (exec s k).
Proof.
  induction s as [m a|m a|ts v|t o v|e|t it body IH|n args body IH|e|l|body handlers IHb IHh|e
                 |t body orelse IHb IHo] using stmt_nested_ind; intros k.
  - apply guarded_of_sound, import_sound.
  - apply guarded_of_sound, import_sound.
  - apply guarded_of_sound. cbn [Py.exec assigned_names].
    assert (Hgen : sound_step (flat_map target_names ts) k
                     match eval v k with
                     | (inr err, k') => Error err k'
                     | (inl l, k') => store_all ts l k'
                     end).
    { pose proof (eval_sound v k) as Hs. destruct (eval v k) as [[l|err] k1]; cbn in Hs.
      - apply (sound_step_seq [] _ k k1); [exact Hs | apply store_all_sound].
      - eapply sound_step_weaken; [| exact Hs]. sets. }
    destruct ts as [|[] [|]]; try exact Hgen. destruct v; try exact Hgen.
    destruct (length elts =? length elts0)%nat; [| exact Hgen].
    pose proof (eval_list_sound elts0 k) as Hs.
    destruct (eval_list elts0 k) as [[ls|err] k1]; cbn in Hs.
    + cbn [flat_map target_names]. rewrite app_nil_r.
      apply (sound_step_seq [] _ k k1); [exact Hs | apply store_each_sound].
    + eapply sound_step_weaken; [| exact Hs]. sets.
  - apply guarded_of_sound. cbn [Py.exec assigned_names].
    pose proof (eval_sound v k) as Hs. destruct (eval v k) as [[l|err] k1]; cbn in Hs; [| exact Hs].
    apply (sound_step_seq [] [] k k1); [exact Hs | apply events_then_write_sound].
  - apply guarded_of_sound. cbn [Py.exec assigned_names].
    pose proof (eval_sound e k) as Hs. destruct (eval e k) as [[l|err] k1]; exact Hs.
  - cbn [Py.exec assigned_names plain].
    pose proof (eval_sound it k) as Hs. destruct (eval it k) as [[l|err] k1]; cbn in Hs.
    2:{ apply guarded_of_sound. eapply sound_step_weaken; [| exact Hs]. sets. }
    apply (guarded_seq true _ [] _ k k1); [apply guarded_of_sound, Hs|].
    apply repeat_block_guarded. intros k2.
    pose proof (store_sound t l k2) as Hst. destruct (store t l k2) as [k3|k3|err k3].
    + apply (guarded_seq true _ _ _ k2 k3); [apply guarded_of_sound, Hst|].
      apply exec_block_guarded, IH.
    + apply guarded_of_sound. eapply sound_step_weaken; [| exact Hst]. sets.
    + apply guarded_of_sound. eapply sound_step_weaken; [| exact Hst]. sets.
  - cbn [Py.exec assigned_names]. split; [| intros _; apply clean_refl].
    split; cbn; [lia | rewrite length_app; lia |].
    intros x Hx. apply lookup_insert_ne. sets.
  - apply guarded_of_sound. cbn [Py.exec assigned_names].
    pose proof (eval_sound e k) as Hs. destruct (eval e k) as [[l|err] k1]; exact Hs.
  - apply guarded_of_sound, sound_step_done.
  - cbn [Py.exec assigned_names plain]. split; [| intros [=]].
    pose proof (exec_block_guarded body IHb k) as [Hb _].
    destruct (exec_block exec body k) as [k1|k1|err k1]; cbn in Hb.
    + eapply extends_weaken; [| exact Hb]. sets.
    + eapply extends_weaken; [| exact Hb]. sets.
    + pose proof (exec_block_guarded handlers IHh k1) as [Hh _].
      eapply extends_trans; eassumption.
  - cbn [Py.exec assigned_names plain]. split; [| intros [=]].
    pose proof (eval_sound e k) as [Hs _]. destruct (eval e k) as [[l|err] k1]; exact Hs.
  - cbn [Py.exec assigned_names plain]. split; [| intros [=]].
    pose proof (eval_sound t k) as [Hs _]. destruct (eval t k) as [[l|err] k1]; cbn in Hs.
    2:{ eapply extends_weaken; [| exact Hs]. sets. }
    destruct (truthy (content lit l k1)).
    + pose proof (exec_block_guarded body IHb k1) as [Hb _].
      eapply extends_weaken; [| eapply (extends_trans [] _ k k1); eassumption]. sets.
    + pose proof (exec_block_guarded orelse IHo k1) as [Hb _].
      eapply extends_weaken; [| eapply (extends_trans [] _ k k1); eassumption]. sets.
Qed.

End KernelFacts.

(** ** The kernel with the libraries' effects *)

Section expr_induction.

Import Py.

Variable P : expr -> Prop.
Hypothesis HConstant : forall c, P (Constant c).
Hypothesis HName : forall x, P (Name x).
Hypothesis HAttribute : forall v a, P v -> P (Attribute v a).
Hypothesis HSubscript : forall v i, P v -> P i -> P (Subscript v i).
Hypothesis HSlice : forall lo hi,
  match lo with Some a => P a | None => True end ->
  match hi with Some a => P a | None => True end -> P (Slice lo hi).
Hypothesis HCall : forall f args kws,
  P f -> Forall P args -> Forall (fun kw : option string * expr => P (snd kw)) kws ->
  P (Call f args kws).
Hypothesis HBinOp : forall l o r, P l -> P r -> P (BinOp l o r).
Hypothesis HUnaryOp : forall o v, P v -> P (UnaryOp o v).
Hypothesis HCompare : forall l o r, P l -> P r -> P (Compare l o r).
Hypothesis HList : forall es, Forall P es -> P (List_ es).
Hypothesis HTuple : forall es, Forall P es -> P (Tuple es).
Hypothesis HDict : forall ks vs, Forall P ks -> Forall P vs -> P (Dict ks vs).
Hypothesis HLambda : forall args b, P b -> P (Lambda args b).
Hypothesis HListComp : forall elt t it, P elt -> P t -> P it -> P (ListComp elt t it).


End expr_induction.

Section EffectFacts.

Import Py.

Context {V E : Type}.
Variables (lit : V) (len : V -> nat) (truthy : V -> bool).
Variable lib : nat -> Fx.operation -> @Fx.outcome V E.

Abbreviation fx_kernel := (@Fx.kernel V).
Abbreviation fx_result := (@Fx.result V E).
Abbreviation fx_value := (Fx.value lit lib).
Abbreviation fx_run_events := (Fx.run_events lit lib).
Abbreviation fx_operate := (Fx.operate lib).
Abbreviation fx_eval := (Fx.eval lit lib).
Abbreviation fx_exec := (Fx.exec lit len truthy lib).

(** *** An evaluation is the sequence of its events *)

Lemma fx_run_events_app evs1 evs2 v (k : fx_kernel) :
  fx_run_events (evs1 ++ evs2) v k
  = Fx.and_then (fx_run_events evs1 v k) (fx_run_events evs2).
Proof.
  revert v k. induction evs1 as [|[x| |o reach] evs1 IH]; intros v k; cbn [app Fx.run_events].
  - reflexivity.
  - destruct (Fx.load lit x k) as [[v'|err] k']; cbn [Fx.and_then]; [apply IH | reflexivity].
  - apply IH.
  - destruct (fx_operate o _ k) as [[v'|err] k']; cbn [Fx.and_then]; [apply IH | reflexivity].
Qed.

Lemma fx_run_events_last evs ev v (k : fx_kernel) :
  fx_run_events (evs ++ [ev]) v k
  = Fx.and_then (fx_run_events evs v k) (fun v k => fx_run_events [ev] v k).
Proof. apply fx_run_events_app. Qed.









(** *** The frame of a block: which earlier data it can write *)



(** The kind of an object and what it shares with. *)
Definition fx_frame_of (ob : @Fx.object V) : Fx.kind * list nat :=
  (Fx.kind_of ob, Fx.shares ob).






(** The store of [k'] extends the store of [k]: the objects of [k] are
    still there, each of its kind and sharing what it shared. *)
Definition fx_extends (k k' : fx_kernel) : Prop :=
  length (Fx.heap k) <= length (Fx.heap k') /\
  forall l, l < length (Fx.heap k) ->
    fx_frame_of <$> Fx.heap k' !! l = fx_frame_of <$> Fx.heap k !! l.




Lemma fx_frame_region (k k' : fx_kernel) l :
  fx_frame_of <$> Fx.heap k' !! l = fx_frame_of <$> Fx.heap k !! l ->
  Fx.region l k' = Fx.region l k.
Proof.
  unfold Fx.region. destruct (Fx.heap k' !! l) as [o'|], (Fx.heap k !! l) as [o|]; cbn;
    intros H; try discriminate; [| reflexivity]. injection H as _ H. rewrite H. reflexivity.
Qed.


Lemma fx_extends_region (k k' : fx_kernel) l :
  fx_extends k k' -> l < length (Fx.heap k) -> Fx.region l k' = Fx.region l k.
Proof. intros [_ F] Hl. apply fx_frame_region, F, Hl. Qed.


Lemma fx_regions_same ys (k k' : fx_kernel) :
  Fx.ns k' = Fx.ns k -> Fx.closed k -> fx_extends k k' -> Fx.regions ys k' = Fx.regions ys k.
Proof.
  intros Hns Hc He. unfold Fx.regions. rewrite Hns. apply flat_map_ext. intros y.
  destruct (Fx.ns k !! y) as [l|] eqn:Eb; [| reflexivity].
  apply fx_extends_region; [exact He | exact (Hc y l Eb)].
Qed.

















(** What [written] says of each name. *)
Lemma fx_written_spec a ys ws :
  Fx.written a ys = Some ws ->
  forall y, y ∈ ys -> a !! y <> Some Fx.Tainted /\ (a !! y = None -> y ∈ ws).
Proof.
  revert ws. induction ys as [|y0 ys IH]; intros ws Hw y Hy; [sets|].
  cbn in Hw. destruct (a !! y0) as [[|]|] eqn:Ea; try discriminate;
    destruct (Fx.written a ys) as [ws0|]; try discriminate; injection Hw as <-.
  - apply elem_of_cons in Hy as [->|Hy]; [rewrite Ea; split; congruence|].
    apply (IH ws0 eq_refl y Hy).
  - apply elem_of_cons in Hy as [->|Hy]; [rewrite Ea; split; [congruence | intros _; sets]|].
    destruct (IH ws0 eq_refl y Hy) as [H1 H2]. split; [exact H1 | intros H; specialize (H2 H); sets].
Qed.



Lemma fx_written_sub a ys ys' ws :
  Fx.written a ys = Some ws -> ys' ⊆ ys ->
  exists ws', Fx.written a ys' = Some ws' /\ ws' ⊆ ws.
Proof.
  intros Hw Hsub. pose proof (fx_written_spec a ys ws Hw) as Hall.
  clear Hw. induction ys' as [|y ys' IH]; [exists []; split; [reflexivity | sets]|].
  destruct IH as (ws' & Hw' & Hs'); [sets|].
  destruct (Hall y ltac:(sets)) as [H1 H2]. cbn. rewrite Hw'.
  destruct (a !! y) as [[|]|] eqn:Ea; [| congruence |].
  - exists ws'. split; [reflexivity | exact Hs'].
  - exists (y :: ws'). split; [reflexivity|]. specialize (H2 eq_refl). sets.
Qed.












































(** *** A straight-line body is the program of its operations *)

Abbreviation fx_run := (Fx.run lit lib).








End EffectFacts.

(** ** The notebooks' cells under the kernel *)

Section NotebookFacts.

Import Py Notebooks.

Context {V E : Type}.
Variables (lit : V) (len : V -> nat) (truthy : V -> bool).
Variable lib : nat -> @Py.outcome V E.

Abbreviation kernel := (@Py.kernel V).
Abbreviation exec := (Py.exec lit len truthy lib).
Abbreviation run_cell := (Py.run_cell lit len truthy lib).
Abbreviation run_cells := (Py.run_cells lit len truthy lib).
Abbreviation verdict := (Py.verdict lib).

Lemma exec_block_sound (b : list stmt) (k : kernel) :
  forallb plain b = true ->
  verdict k (exec_block exec b k) /\
  tick k <= tick (state_of (exec_block exec b k)) /\
  length (heap k) <= length (heap (state_of (exec_block exec b k))) /\
  forall x, x ∉ flat_map assigned_names b ->
    ns (state_of (exec_block exec b k)) !! x = ns k !! x.
Proof.
  intros Hp.
  destruct (exec_block_guarded lit len truthy lib b
              ltac:(apply Forall_forall; intros s _; apply exec_guarded) k) as [[T H N] Hv].
  repeat split; [apply Hv, Hp | exact T | exact H | exact N].
Qed.

(** *** The tables read from the cells *)

Lemma cells_plain :
  forallb (fun nb : string * notebook =>
             forallb (fun c : cell => forallb plain (snd c)) (snd nb)) notebooks = true.
Proof. vm_compute. reflexivity. Qed.

End NotebookFacts.

(** ** Errors, frames and functions of the notebooks *)

Section NotebookTheorems.

Import Py Notebooks.

Context {V E : Type}.
Variables (lit : V) (len : V -> nat) (truthy : V -> bool).
Variable lib : nat -> @Py.outcome V E.

Abbreviation kernel := (@Py.kernel V).
Abbreviation exec := (Py.exec lit len truthy lib).
Abbreviation run_cell := (Py.run_cell lit len truthy lib).
Abbreviation run_cells := (Py.run_cells lit len truthy lib).
Abbreviation verdict := (Py.verdict lib).

Lemma run_events_step_load (x : string) (evs : list event) (v : V) (k : kernel) (l : nat) :
  ns k !! x = Some l ->
  Py.run_events lib (Load x :: evs) v k = Py.run_events lib evs v k.
Proof.
  intros Hx. cbn [Py.run_events]. unfold readable. rewrite Hx.
  rewrite bool_decide_eq_true_2 by eauto. reflexivity.
Qed.

(** The births cell when [pd.read_csv('data/births.csv')] raises: looking
    up [read_csv] on [pd] returns, the call raises. *)
Lemma births_read_csv_raises (k : kernel) (l : nat) (v : V) (e : E) :
  ns k !! "pd" = Some l ->
  lib (tick k) = Returns v -> lib (S (tick k)) = Raises e ->
  exists k',
    run_cell (4, cell_at annotation 4) k = Error (LibraryError (S (tick k)) e) k' /\
    ns k' = ns k /\ heap k' = heap k.
Proof.
  intros Hpd H0 H1. eexists. split.
  - unfold Py.run_cell. cbn [snd].
    change (cell_at annotation 4)
      with (Assign [Name "births"]
              (Call (Attribute (Name "pd") "read_csv") [Constant (CStr "data/births.csv")] [])
            :: tl (cell_at annotation 4)).
    cbn [exec_block Py.exec]. unfold Py.eval.
    change (events (Call (Attribute (Name "pd") "read_csv")
                      [Constant (CStr "data/births.csv")] []))
      with [Load "pd"; Op; Op].
    rewrite (run_events_step_load "pd" _ _ k l Hpd).
    cbn [Py.run_events]. rewrite H0. cbn [Py.run_events ticked tick]. rewrite H1. reflexivity.
  - cbn. auto.
Qed.

(** The cities cell when [pd.read_csv('data/california_cities.csv')] raises:
    [import pandas as pd] and the lookup of [read_csv] return, the call raises. *)
Lemma cities_read_csv_raises (k : kernel) (v v' : V) (e : E) :
  lib (tick k) = Returns v -> lib (S (tick k)) = Returns v' ->
  lib (S (S (tick k))) = Raises e ->
  exists k',
    run_cell (18, cell_at legends 18) k = Error (LibraryError (S (S (tick k))) e) k' /\
    heap k' = heap k ++ [v] /\
    forall x, x <> "pd" -> ns k' !! x = ns k !! x.
Proof.
  intros H0 H1 H2. eexists. split.
  - unfold Py.run_cell. cbn [snd].
    change (cell_at legends 18)
      with (Import "pandas" "pd"
            :: Assign [Name "cities"]
                 (Call (Attribute (Name "pd") "read_csv")
                    [Constant (CStr "data/california_cities.csv")] [])
            :: tl (tl (cell_at legends 18))).
    cbn [exec_block Py.exec]. unfold Py.import. rewrite H0.
    cbn [alloc ticked ns heap tick bind]. unfold Py.eval.
    change (events (Call (Attribute (Name "pd") "read_csv")
                      [Constant (CStr "data/california_cities.csv")] []))
      with [Load "pd"; Op; Op].
    rewrite (run_events_step_load "pd" _ _ _ (length (heap k)))
      by (unfold Py.bind; cbn [ns]; apply lookup_insert_eq).
    unfold Py.bind. cbn [Py.run_events tick]. rewrite H1. cbn [Py.run_events ticked tick].
    rewrite H2. reflexivity.
  - cbn [heap ns ticked]. split; [reflexivity|].
    intros x Hx. apply lookup_insert_ne. congruence.
Qed.

(** C3 (as amended): no cell of any notebook holds a handler, a [raise] or a
    test; so when an outside operation raises while a cell runs, the cell's
    result is exactly that exception, raised by the last operation the cell
    ran, every operation before it having returned (nothing is caught,
    replaced or run again), and a cell that completes has had every operation
    return.  The names that the cell does not assign keep their bindings;
    names it assigned before the failing operation do not.  When
    [pd.read_csv] raises in the births cell, namespace and store are what
    they were; when it raises in the cities cell, only [pd], imported by that
    cell, is bound anew. *)
Theorem library_errors_surface (k : kernel) :
  Forall (fun nb : string * notebook =>
            Forall (fun c : cell =>
                      forallb plain (snd c) = true /\
                      verdict k (run_cell c k) /\
                      forall x, x ∉ flat_map assigned_names (snd c) ->
                        ns (state_of (run_cell c k)) !! x = ns k !! x) (snd nb))
    notebooks /\
  (forall l v e,
     ns k !! "pd" = Some l -> lib (tick k) = Returns v -> lib (S (tick k)) = Raises e ->
     exists k',
       run_cell (4, cell_at annotation 4) k = Error (LibraryError (S (tick k)) e) k' /\
       ns k' = ns k /\ heap k' = heap k) /\
  (forall v v' e,
     lib (tick k) = Returns v -> lib (S (tick k)) = Returns v' ->
     lib (S (S (tick k))) = Raises e ->
     exists k',
       run_cell (18, cell_at legends 18) k = Error (LibraryError (S (S (tick k))) e) k' /\
       forall x, x <> "pd" -> ns k' !! x = ns k !! x).
Proof.
  split; [| split].
  - pose proof cells_plain as Hp. rewrite forallb_forall in Hp.
    apply Forall_forall. intros nb Hnb. apply list_elem_of_In in Hnb.
    specialize (Hp nb Hnb). rewrite forallb_forall in Hp.
    apply Forall_forall. intros c Hc. apply list_elem_of_In in Hc. specialize (Hp c Hc).
    destruct (exec_block_sound lit len truthy lib (snd c) k Hp) as (Hv & _ & _ & Hn).
    split; [exact Hp|]. split; [exact Hv | exact Hn].
  - intros l v e. apply births_read_csv_raises.
  - intros v v' e H0 H1 H2.
    destruct (cities_read_csv_raises k v v' e H0 H1 H2) as (k' & Hr & _ & Hn). eauto.
Qed.

End NotebookTheorems.

(** ** Frames and functions of the notebooks *)

Section EffectTheorems.

Import Py Notebooks.

Context {V E : Type}.
Variables (lit : V) (len : V -> nat) (truthy : V -> bool).
Variable lib : nat -> Fx.operation -> @Fx.outcome V E.

Abbreviation fx_kernel := (@Fx.kernel V).
Abbreviation fx_exec := (Fx.exec lit len truthy lib).
Abbreviation fx_run_cell := (Fx.run_cell lit len truthy lib).
Abbreviation fx_run_cells := (Fx.run_cells lit len truthy lib).

(** *** The tables read from the cells *)




(** The analysis reads an in-place operation of a library as a write, and
    does not tell what a write reaches through a name bound to a view or to
    a container of earlier objects. *)
Example in_place_calls_are_writes :
  map Fx.writes_of in_place_cells
  = [Some ["data"]; Some ["np"; "I"]; Some ["X"]; Some ["np"; "x"; "x"]; None; None; None].
Proof. vm_compute. reflexivity. Qed.



End EffectTheorems.


(** C3, the claim as stated fails: in the scatter notebook, cell 4 (the
    second code cell) binds [x] and cell 13 leaves it; cell 15 binds [x]
    anew and then calls [rng.randn(100)] for [y], the 41st outside operation
    of the run; when that call raises, the cell's result is the error, and
    [x] no longer refers to the array that cell 4 bound. *)
Lemma rebinding_before_failure :
  map fst Notebooks.scatter_plots = [2; 4; 6; 8; 10; 13; 15; 17; 18] /\
  exists k4 k13 k15 e l,
    Notebooks.run 40 Notebooks.scatter_plots !! 1 = Some (Py.Done k4) /\
    Notebooks.run 40 Notebooks.scatter_plots !! 5 = Some (Py.Done k13) /\
    Notebooks.run 40 Notebooks.scatter_plots !! 6 = Some (Py.Error (Py.LibraryError 40 e) k15) /\
    Py.ns k4 !! "x" = Some l /\
    Py.ns k13 !! "x" = Some l /\
    Py.ns k15 !! "x" <> Some l.
Proof.
  split; [reflexivity|].
  remember (Notebooks.run 40 Notebooks.scatter_plots) as rs eqn:Hrs.
  vm_compute in Hrs. subst rs.
  do 5 eexists. split; [reflexivity|]. split; [reflexivity|]. split; [reflexivity|].
  split; [vm_compute; reflexivity|]. split; [vm_compute; reflexivity|].
  vm_compute. discriminate.
Qed.


